(** * Newsletter monitoring service: schedule evaluator, health aggregator
      and alert gate

    A shallow embedding of the three monitoring daemons

    - [monitoring_background_service.py]  (module [Background]),
    - [monitoring_service_api_only.py]    (module [ApiOnly]),
    - [monitoring_service_updated.py]     (module [Updated]),

    and the properties of their schedule / health / alert logic.  Module
    [Py] holds the Python values they compute with, module [Alerts] the
    [send_alert] the last two share, and module [MemDb] a database kept
    in memory, for the examples.

    Conventions of the embedding.

    - [datetime.utcnow()] is an explicit argument.  A function that reads
      the clock several times takes one argument per read.
    - A naive or aware [datetime] is a record of its calendar fields; a
      [timedelta] is a number of microseconds ([Z]).
    - The quotients [total_seconds() / 60], [total_seconds() / 3600] and
      [successful / total * 100] are exact rationals ([Q]); the source
      computes them in binary floating point.
    - Code that may raise returns an [outcome]; the message of the
      exception is kept because the source interpolates it into issues.
    - The database and the SMTP server are external: they appear as
      records of query functions and of per-step results. *)

From Stdlib Require Import ZArith QArith List Lia Ascii String.
From Stdlib Require Import DecimalString Sorted.
From stdpp Require Import gmap strings.

Open Scope Z_scope.

(** ** Exceptions *)

Inductive outcome (A : Type) : Type :=
| Return (a : A)
| Raise (msg : string).
Arguments Return {A} a.
Arguments Raise {A} msg.

#[global] Instance outcome_ret : MRet outcome := fun _ a => Return a.
#[global] Instance outcome_bind : MBind outcome := fun _ _ f m =>
  match m with
  | Return a => f a
  | Raise e => Raise e
  end.

(** ** Python values used by the services *)

Module Py.

(** *** Text *)

Definition of_ascii (c : ascii) : string := String c EmptyString.

Definition quote : string := of_ascii (ascii_of_nat 39).

(** [repr(s)] for a string without quotes or escapes. *)
Definition repr (s : string) : string := quote +:+ s +:+ quote.

(** [str(n)] for an integer. *)
Definition str_int (n : Z) : string := NilZero.string_of_int (Z.to_int n).

Fixpoint zeros (n : nat) : string :=
  match n with
  | O => EmptyString
  | S k => String "0" (zeros k)
  end.

(** [f"{n:0{w}d}"] for a non-negative integer. *)
Definition zpad (w : nat) (n : Z) : string :=
  let s := str_int n in
  zeros (w - String.length s) +:+ s.

(** [s.replace('Z', '+00:00')]. *)
Fixpoint replace_Z (s : string) : string :=
  match s with
  | EmptyString => EmptyString
  | String c r =>
      if Ascii.eqb c "Z" then "+00:00" +:+ replace_Z r
      else String c (replace_Z r)
  end.

(** [s.split(':')]. *)
Fixpoint split_colon_aux (cur : string) (s : string) : list string :=
  match s with
  | EmptyString => [cur]
  | String c r =>
      if Ascii.eqb c ":" then cur :: split_colon_aux EmptyString r
      else split_colon_aux (cur +:+ of_ascii c) r
  end.

Definition split_colon (s : string) : list string :=
  split_colon_aux EmptyString s.

Definition digit_of (c : ascii) : option Z :=
  let n := Z.of_nat (nat_of_ascii c) in
  if (48 <=? n) && (n <=? 57) then Some (n - 48) else None.

(** Value of a string of decimal digits, most significant first. *)
Fixpoint digits_value (acc : Z) (s : string) : option Z :=
  match s with
  | EmptyString => Some acc
  | String c r =>
      match digit_of c with
      | Some d => digits_value (10 * acc + d) r
      | None => None
      end
  end.

(** [int(s)] on the literals the schedules use: a non-empty run of decimal
    digits.  Anything else raises [ValueError]. *)
Definition int_of_str (s : string) : outcome Z :=
  match s with
  | EmptyString =>
      Raise ("invalid literal for int() with base 10: " +:+ repr s)
  | _ =>
      match digits_value 0 s with
      | Some n => Return n
      | None => Raise ("invalid literal for int() with base 10: " +:+ repr s)
      end
  end.

(** *** Numbers *)

Definition Qlt_bool (a b : Q) : bool := negb (Qle_bool b a).

(** [int(x)]: truncation toward zero. *)
Definition int_of_Q (x : Q) : Z := Z.quot (Qnum x) (Zpos (Qden x)).

(** Nearest integer, ties to even. *)
Definition round_half_even (x : Q) : Z :=
  let n := Qnum x in
  let d := Zpos (Qden x) in
  let f := n / d in
  let r := 2 * (n mod d) in
  if r <? d then f
  else if d <? r then f + 1
  else if Z.even f then f else f + 1.

(** [f"{x:.1f}"] for [x >= 0]. *)
Definition format_1f (x : Q) : string :=
  let t := round_half_even (x * 10) in
  str_int (t / 10) +:+ "." +:+ str_int (t mod 10).

(** *** Calendar *)

Definition is_leap (y : Z) : bool :=
  (y mod 4 =? 0) && (negb (y mod 100 =? 0) || (y mod 400 =? 0)).

Definition days_in_month (y m : Z) : Z :=
  if m =? 2 then (if is_leap y then 29 else 28)
  else if (m =? 4) || (m =? 6) || (m =? 9) || (m =? 11) then 30
  else 31.

Definition days_before_year (y : Z) : Z :=
  let p := y - 1 in p * 365 + p / 4 - p / 100 + p / 400.

Fixpoint days_in_first_months (y : Z) (k : nat) : Z :=
  match k with
  | O => 0
  | S j => days_in_first_months y j + days_in_month y (Z.of_nat k)
  end.

Definition days_before_month (y m : Z) : Z :=
  days_in_first_months y (Z.to_nat (m - 1)).

(** [date(y, m, d).toordinal()]. *)
Definition ymd2ord (y m d : Z) : Z :=
  days_before_year y + days_before_month y m + d.

(** *** [datetime] and [timedelta] *)

(** [tzinfo] is the UTC offset in microseconds; [None] is a naive value. *)
Record datetime : Type := mkdatetime {
  year : Z;
  month : Z;
  day : Z;
  hour : Z;
  minute : Z;
  second : Z;
  microsecond : Z;
  tzinfo : option Z
}.

(** A [timedelta], in microseconds. *)
Definition timedelta : Type := Z.

Definition minutes (n : Z) : timedelta := n * 60000000.
Definition hours (n : Z) : timedelta := n * 3600000000.
Definition days (n : Z) : timedelta := n * 86400000000.

(** Microseconds of the wall-clock fields since the start of ordinal 0. *)
Definition to_us (d : datetime) : Z :=
  (((ymd2ord (year d) (month d) (day d) * 24 + hour d) * 60
    + minute d) * 60 + second d) * 1000000 + microsecond d.

(** The instant denoted, in microseconds of UTC; a naive value is read
    as UTC, which is what [utcnow()] produces. *)
Definition instant (d : datetime) : Z :=
  to_us d - default 0 (tzinfo d).

(** [a - b] for two values that are both naive or that carry the same
    [tzinfo]: the difference of the wall-clock fields. *)
Definition sub (a b : datetime) : timedelta := to_us a - to_us b.

(** [td.total_seconds() / 60] and [td.total_seconds() / 3600]. *)
Definition total_minutes (td : timedelta) : Q := td # 60000000.
Definition total_hours (td : timedelta) : Q := td # 3600000000.

Definition in_range (lo x hi : Z) : bool := (lo <=? x) && (x <=? hi).

Definition check_date_fields (y m d : Z) : outcome unit :=
  if negb (in_range 1 y 9999) then Raise "year must be in 1..9999"
  else if negb (in_range 1 m 12) then Raise "month must be in 1..12"
  else if negb (in_range 1 d (days_in_month y m))
       then Raise "day is out of range for month"
  else Return tt.

Definition check_time_fields (h mi s us : Z) : outcome unit :=
  if negb (in_range 0 h 23) then Raise "hour must be in 0..23"
  else if negb (in_range 0 mi 59) then Raise "minute must be in 0..59"
  else if negb (in_range 0 s 59) then Raise "second must be in 0..59"
  else if negb (in_range 0 us 999999)
       then Raise "microsecond must be in 0..999999"
  else Return tt.

(** The values the constructor accepts. *)
Definition valid (d : datetime) : bool :=
  in_range 1 (year d) 9999 && in_range 1 (month d) 12
  && in_range 1 (day d) (days_in_month (year d) (month d))
  && in_range 0 (hour d) 23 && in_range 0 (minute d) 59
  && in_range 0 (second d) 59 && in_range 0 (microsecond d) 999999.

(** The date and [tzinfo] of [d] with another time of day. *)
Definition with_time (d : datetime) (h mi s us : Z) : datetime :=
  mkdatetime (year d) (month d) (day d) h mi s us (tzinfo d).

(** [d.replace(hour=h, minute=mi, second=s, microsecond=us)]. *)
Definition replace_time (d : datetime) (h mi s us : Z) : outcome datetime :=
  _ ← check_time_fields h mi s us;
  Return (with_time d h mi s us).

(** [d.replace(hour=h, minute=mi)]. *)
Definition replace_hm (d : datetime) (h mi : Z) : outcome datetime :=
  replace_time d h mi (second d) (microsecond d).

(** [d.replace(tzinfo=tz)]. *)
Definition replace_tzinfo (d : datetime) (tz : option Z) : datetime :=
  mkdatetime (year d) (month d) (day d) (hour d) (minute d) (second d)
             (microsecond d) tz.

(** [d + timedelta(days=1)]: the same time on the next calendar day. *)
Definition add_one_day (d : datetime) : outcome datetime :=
  if day d <? days_in_month (year d) (month d) then
    Return (mkdatetime (year d) (month d) (day d + 1) (hour d) (minute d)
                       (second d) (microsecond d) (tzinfo d))
  else if month d <? 12 then
    Return (mkdatetime (year d) (month d + 1) 1 (hour d) (minute d)
                       (second d) (microsecond d) (tzinfo d))
  else if year d <? 9999 then
    Return (mkdatetime (year d + 1) 1 1 (hour d) (minute d)
                       (second d) (microsecond d) (tzinfo d))
  else Raise "date value out of range".

(** The [+HH:MM[:SS[.ffffff]]] suffix of [isoformat()]. *)
Definition format_offset (off : Z) : string :=
  let a := Z.abs off in
  let us := a mod 1000000 in
  let s := (a / 1000000) mod 60 in
  let mi := (a / 60000000) mod 60 in
  let h := a / 3600000000 in
  (if off <? 0 then "-" else "+") +:+ zpad 2 h +:+ ":" +:+ zpad 2 mi
  +:+ (if (s =? 0) && (us =? 0) then ""
       else ":" +:+ zpad 2 s
            +:+ (if us =? 0 then "" else "." +:+ zpad 6 us)).

(** [d.isoformat()]. *)
Definition isoformat (d : datetime) : string :=
  zpad 4 (year d) +:+ "-" +:+ zpad 2 (month d) +:+ "-" +:+ zpad 2 (day d)
  +:+ "T" +:+ zpad 2 (hour d) +:+ ":" +:+ zpad 2 (minute d) +:+ ":"
  +:+ zpad 2 (second d)
  +:+ (if microsecond d =? 0 then "" else "." +:+ zpad 6 (microsecond d))
  +:+ match tzinfo d with
      | None => ""
      | Some off => format_offset off
      end.

(** *** [datetime.fromisoformat]

    The grammar of Python 3.7 to 3.10, the versions for which the
    services rewrite a trailing [Z]:
    [YYYY-MM-DD[*HH[:MM[:SS[.fff[fff]]]][+HH:MM[:SS[.ffffff]]]]]. *)

(** Exactly [n] decimal digits. *)
Fixpoint take_digits (n : nat) (acc : Z) (s : string) : option (Z * string) :=
  match n with
  | O => Some (acc, s)
  | S k =>
      match s with
      | EmptyString => None
      | String c r =>
          match digit_of c with
          | Some d => take_digits k (10 * acc + d) r
          | None => None
          end
      end
  end.

Definition expect (c : ascii) (s : string) : option string :=
  match s with
  | EmptyString => None
  | String c' r => if Ascii.eqb c c' then Some r else None
  end.

Definition parse_fraction (s : string) : option Z :=
  match String.length s with
  | 3%nat =>
      '(us, r) ← take_digits 3 0 s;
      match r with EmptyString => Some (us * 1000) | _ => None end
  | 6%nat =>
      '(us, r) ← take_digits 6 0 s;
      match r with EmptyString => Some us | _ => None end
  | _ => None
  end.

(** [HH[:MM[:SS[.fff[fff]]]]], the whole string. *)
Definition parse_hh_mm_ss_ff (s : string) : option (Z * Z * Z * Z) :=
  '(h, r) ← take_digits 2 0 s;
  match r with
  | EmptyString => Some (h, 0, 0, 0)
  | _ =>
      r ← expect ":" r;
      '(mi, r) ← take_digits 2 0 r;
      match r with
      | EmptyString => Some (h, mi, 0, 0)
      | _ =>
          r ← expect ":" r;
          '(sec, r) ← take_digits 2 0 r;
          match r with
          | EmptyString => Some (h, mi, sec, 0)
          | _ =>
              r ← expect "." r;
              us ← parse_fraction r;
              Some (h, mi, sec, us)
          end
      end
  end.

(** Cut a time string at its first [+] or [-]: the time, and the sign
    ([true] for [-]) with the offset text when there is one. *)
Fixpoint split_offset (s : string) : string * option (bool * string) :=
  match s with
  | EmptyString => (EmptyString, None)
  | String c r =>
      if Ascii.eqb c "+" then (EmptyString, Some (false, r))
      else if Ascii.eqb c "-" then (EmptyString, Some (true, r))
      else let '(t, o) := split_offset r in (String c t, o)
  end.

Definition parse_offset (neg : bool) (s : string) : option Z :=
  let n := String.length s in
  if negb ((n =? 5) || (n =? 8) || (n =? 15))%nat then None
  else
    '(h, mi, sec, us) ← parse_hh_mm_ss_ff s;
    let off := hours h + minutes mi + sec * 1000000 + us in
    Some (if neg then - off else off).

Definition parse_isoformat_time (s : string)
  : option (Z * Z * Z * Z * option Z) :=
  let '(t, o) := split_offset s in
  hmsf ← parse_hh_mm_ss_ff t;
  match o with
  | None => Some (hmsf, None)
  | Some (neg, z) => off ← parse_offset neg z; Some (hmsf, Some off)
  end.

Definition parse_isoformat_date (s : string) : option (Z * Z * Z * string) :=
  '(y, r) ← take_digits 4 0 s;
  r ← expect "-" r;
  '(m, r) ← take_digits 2 0 r;
  r ← expect "-" r;
  '(d, r) ← take_digits 2 0 r;
  Some (y, m, d, r).

Definition parse_isoformat (s : string)
  : option (Z * Z * Z * (Z * Z * Z * Z * option Z)) :=
  '(y, m, d, r) ← parse_isoformat_date s;
  match r with
  | EmptyString => Some (y, m, d, (0, 0, 0, 0, None))
  | String _ t => tm ← parse_isoformat_time t; Some (y, m, d, tm)
  end.

Definition check_offset (tz : option Z) : outcome unit :=
  match tz with
  | None => Return tt
  | Some off =>
      if (- hours 24 <? off) && (off <? hours 24) then Return tt
      else Raise ("offset must be a timedelta strictly between "
                  +:+ "-timedelta(hours=24) and timedelta(hours=24).")
  end.

Definition fromisoformat (s : string) : outcome datetime :=
  match parse_isoformat s with
  | None => Raise ("Invalid isoformat string: " +:+ repr s)
  | Some (y, m, d, (h, mi, sec, us, tz)) =>
      _ ← check_offset tz;
      _ ← check_date_fields y m d;
      _ ← check_time_fields h mi sec us;
      Return (mkdatetime y m d h mi sec us tz)
  end.

(** *** Built-ins on lists of integers *)

Fixpoint insert_sorted (x : Z) (l : list Z) : list Z :=
  match l with
  | [] => [x]
  | y :: r => if x <=? y then x :: l else y :: insert_sorted x r
  end.

(** [sorted(l)]. *)
Definition sorted (l : list Z) : list Z := foldr insert_sorted [] l.

(** [min(l)]. *)
Definition min_list (l : list Z) : outcome Z :=
  match l with
  | [] => Raise "min() arg is an empty sequence"
  | x :: r => Return (foldr Z.min x r)
  end.

(** *** More text *)

Definition is_lower (c : ascii) : bool :=
  let n := nat_of_ascii c in (97 <=? n)%nat && (n <=? 122)%nat.

Definition is_upper (c : ascii) : bool :=
  let n := nat_of_ascii c in (65 <=? n)%nat && (n <=? 90)%nat.

Definition to_upper (c : ascii) : ascii :=
  if is_lower c then ascii_of_nat (nat_of_ascii c - 32) else c.

Definition to_lower (c : ascii) : ascii :=
  if is_upper c then ascii_of_nat (nat_of_ascii c + 32) else c.

(** [s.title()] on ASCII text: a letter that follows a letter is made
    lower case, any other letter upper case. *)
Fixpoint title_from (previous_is_cased : bool) (s : string) : string :=
  match s with
  | EmptyString => EmptyString
  | String c r =>
      if is_lower c then
        String (if previous_is_cased then c else to_upper c)
               (title_from true r)
      else if is_upper c then
        String (if previous_is_cased then to_lower c else c)
               (title_from true r)
      else String c (title_from false r)
  end.

Definition title (s : string) : string := title_from false s.

(** [sep.join(l)]. *)
Fixpoint join (sep : string) (l : list string) : string :=
  match l with
  | [] => EmptyString
  | [x] => x
  | x :: r => x +:+ sep +:+ join sep r
  end.

(** [s.lstrip('/')]. *)
Fixpoint lstrip_slash (s : string) : string :=
  match s with
  | EmptyString => EmptyString
  | String c r => if Ascii.eqb c "/" then lstrip_slash r else s
  end.

(** [s.rstrip('/')]. *)
Fixpoint rstrip_slash (s : string) : string :=
  match s with
  | EmptyString => EmptyString
  | String c r =>
      match rstrip_slash r with
      | EmptyString => if Ascii.eqb c "/" then EmptyString else of_ascii c
      | r' => String c r'
      end
  end.

End Py.

(** ** [monitoring_background_service.py] *)

Module Background.
Import Py.

(** The dictionary returned by [check_process_schedule]; a key that a
    return path leaves out is [None].  There is no ['issues'] key. *)
Record schedule_status : Type := mk_schedule_status {
  status : string;
  scheduled_time : option string;
  minutes_overdue : option Z;
  next_scheduled : option string;
  healthy : bool
}.

(** [setup_schedules]. *)
Definition worker_schedule : list Z := [6; 12; 18; 0].
Definition worker_tolerance : Z := 30.
Definition publisher_schedule : list Z := [8].
Definition publisher_tolerance : Z := 60.

(** The [for hour in sorted(schedule_hours)] loop of
    [get_next_scheduled_time]. *)
Fixpoint first_hour_after (current_hour : Z) (hs : list Z) : option Z :=
  match hs with
  | [] => None
  | h :: r =>
      if current_hour <? h then Some h else first_hour_after current_hour r
  end.

Definition get_next_scheduled_time (now : datetime) (schedule_hours : list Z)
  : outcome datetime :=
  let current_hour := hour now in
  match first_hour_after current_hour (sorted schedule_hours) with
  | Some h => replace_time now h 0 0 0
  | None =>
      tomorrow ← add_one_day now;
      h ← min_list schedule_hours;
      replace_time tomorrow h 0 0 0
  end.

Definition overdue_status (scheduled : datetime) (time_diff : timedelta)
  : schedule_status :=
  {| status := "overdue";
     scheduled_time := Some (isoformat scheduled);
     minutes_overdue := Some (int_of_Q (total_minutes time_diff));
     next_scheduled := None;
     healthy := false |}.

Definition on_schedule_status (scheduled : datetime) : schedule_status :=
  {| status := "on_schedule";
     scheduled_time := Some (isoformat scheduled);
     minutes_overdue := None;
     next_scheduled := None;
     healthy := true |}.

Definition waiting_status (next : datetime) : schedule_status :=
  {| status := "waiting";
     scheduled_time := None;
     minutes_overdue := None;
     next_scheduled := Some (isoformat next);
     healthy := true |}.

(** The [for scheduled_hour in schedule_hours] loop of
    [check_process_schedule]: the dictionary of the first [return]
    reached, or [None] when the loop runs to its end. *)
Fixpoint schedule_loop (now : datetime) (tolerance_minutes : Z)
  (schedule_hours : list Z) : outcome (option schedule_status) :=
  match schedule_hours with
  | [] => Return None
  | scheduled_hour :: rest =>
      scheduled ← replace_time now scheduled_hour 0 0 0;
      if (scheduled_hour <? hour now)
         || ((scheduled_hour =? hour now) && (tolerance_minutes <? minute now))
      then
        let time_diff := sub now scheduled in
        if Qlt_bool (inject_Z tolerance_minutes) (total_minutes time_diff)
        then Return (Some (overdue_status scheduled time_diff))
        else schedule_loop now tolerance_minutes rest
      else if (scheduled_hour =? hour now)
              && (minute now <=? tolerance_minutes)
      then Return (Some (on_schedule_status scheduled))
      else schedule_loop now tolerance_minutes rest
  end.

(** [check_process_schedule]; [now] is the clock read of the function
    itself and [now'] the one of [get_next_scheduled_time]. *)
Definition check_process_schedule (now now' : datetime)
  (process_type : string) (schedule_hours : list Z) (tolerance_minutes : Z)
  : outcome schedule_status :=
  found ← schedule_loop now tolerance_minutes schedule_hours;
  match found with
  | Some st => Return st
  | None =>
      next ← get_next_scheduled_time now' schedule_hours;
      Return (waiting_status next)
  end.

End Background.

(** ** The alert gate: [send_alert]

    [monitoring_service_api_only.py] and [monitoring_service_updated.py]
    have the same [send_alert]; only the closing lines of the message
    body differ. *)

Module Alerts.
Import Py.

Definition nl : string := of_ascii (ascii_of_nat 10).

Record config : Type := mk_config {
  email_alerts_enabled : bool;
  alert_cooldown_minutes : Z;
  smtp_use_tls : bool;
  alert_email_from : string;
  alert_email_to : string;
  alert_subject_prefix : string;
  body_footer : string
}.

(** The calls made on the SMTP connection, in program order. *)
Inductive smtp_step : Type := Connect | StartTLS | Login | SendMessage | Quit.

(** The server met by one call of [send_alert]: for each step, [None]
    when it succeeds and the message of the exception when it raises. *)
Definition smtp_server : Type := smtp_step -> option string.

Record email : Type := mk_email {
  msg_from : string;
  msg_to : string;
  msg_subject : string;
  msg_body : string
}.

(** [self.last_alert_times], and the messages the server has accepted. *)
Record alert_state : Type := mk_alert_state {
  last_alert_times : gmap string datetime;
  outbox : list email
}.

(** What the call logs before it returns. *)
Inductive alert_log : Type :=
| AlertsDisabled
| CooldownActive
| AlertSent
| SendFailed (e : string).

Definition step (srv : smtp_server) (s : smtp_step) : outcome unit :=
  match srv s with
  | None => Return tt
  | Some e => Raise e
  end.

(** The body of the [try] block up to [server.quit()]: the messages handed
    over to the server, and whether the block ran to its end. *)
Definition smtp_session (cfg : config) (srv : smtp_server) (msg : email)
  : list email * outcome unit :=
  match step srv Connect with
  | Raise e => ([], Raise e)
  | Return _ =>
      match (if smtp_use_tls cfg then step srv StartTLS else Return tt) with
      | Raise e => ([], Raise e)
      | Return _ =>
          match step srv Login with
          | Raise e => ([], Raise e)
          | Return _ =>
              match step srv SendMessage with
              | Raise e => ([], Raise e)
              | Return _ => ([msg], step srv Quit)
              end
          end
      end
  end.

(** The steps a call goes through: [starttls] only under [smtp_use_tls]. *)
Definition executed (cfg : config) (s : smtp_step) : bool :=
  match s with
  | StartTLS => smtp_use_tls cfg
  | _ => true
  end.

(** A name without the character [_], as the service names
    ['worker'], ['publisher'] and ['monitoring'] are. *)
Fixpoint no_underscore (s : string) : bool :=
  match s with
  | EmptyString => true
  | String c r => negb (Ascii.eqb c "_") && no_underscore r
  end.

Definition alert_key (service_name subject : string) : string :=
  service_name +:+ "_" +:+ subject.

Definition alert_body (cfg : config) (now : datetime)
  (subject message service_name : string) : string :=
  nl +:+ "Newsletter System Alert" +:+ nl +:+ nl
  +:+ "Service: " +:+ service_name +:+ nl
  +:+ "Time: " +:+ isoformat now +:+ " UTC" +:+ nl
  +:+ "Issue: " +:+ subject +:+ nl +:+ nl
  +:+ "Details:" +:+ nl +:+ message +:+ nl +:+ nl
  +:+ "---" +:+ nl +:+ body_footer cfg.

Definition alert_message (cfg : config) (now : datetime)
  (subject message service_name : string) : email :=
  {| msg_from := alert_email_from cfg;
     msg_to := alert_email_to cfg;
     msg_subject := alert_subject_prefix cfg +:+ " " +:+ subject;
     msg_body := alert_body cfg now subject message service_name |}.

(** The call logged [Alert sent]. *)
Definition is_sent (lg : alert_log) : bool :=
  match lg with
  | AlertSent => true
  | _ => false
  end.

(** The cooldown test: [true] when the call returns early. *)
Definition in_cooldown (cfg : config) (now : datetime)
  (last : gmap string datetime) (key : string) : bool :=
  match last !! key with
  | Some t =>
      Qlt_bool (total_minutes (sub now t))
               (inject_Z (alert_cooldown_minutes cfg))
  | None => false
  end.

Definition send_alert (cfg : config) (srv : smtp_server) (now : datetime)
  (subject message service_name : string) (st : alert_state)
  : alert_state * alert_log :=
  if negb (email_alerts_enabled cfg) then (st, AlertsDisabled)
  else
    let key := alert_key service_name subject in
    if in_cooldown cfg now (last_alert_times st) key then (st, CooldownActive)
    else
      let '(accepted, r) :=
        smtp_session cfg srv
          (alert_message cfg now subject message service_name) in
      match r with
      | Return _ =>
          ({| last_alert_times := <[key := now]> (last_alert_times st);
              outbox := outbox st ++ accepted |}, AlertSent)
      | Raise e =>
          ({| last_alert_times := last_alert_times st;
              outbox := outbox st ++ accepted |}, SendFailed e)
      end.

(** One call of [send_alert] as the monitoring loop makes it. *)
Record attempt : Type := mk_attempt {
  at_server : smtp_server;
  at_now : datetime;
  at_subject : string;
  at_message : string;
  at_service : string
}.

Definition send_attempt (cfg : config) (a : attempt) (st : alert_state)
  : alert_state * alert_log :=
  send_alert cfg (at_server a) (at_now a) (at_subject a) (at_message a)
             (at_service a) st.

(** A sequence of calls, oldest first, with what each one logged. *)
Fixpoint send_alerts (cfg : config) (l : list attempt) (st : alert_state)
  : alert_state * list (attempt * alert_log) :=
  match l with
  | [] => (st, [])
  | a :: r =>
      let '(st1, lg) := send_attempt cfg a st in
      let '(st2, tr) := send_alerts cfg r st1 in
      (st2, (a, lg) :: tr)
  end.

End Alerts.
(** ** [monitoring_service_api_only.py] *)

Module ApiOnly.
Import Py.

(** The JSON object of a status endpoint.  A field is [None] when the key
    is absent (or [null], for the string fields); [other_keys] tells
    whether the object has keys besides these. *)
Record api_status : Type := mk_api_status {
  api_state : option string;
  api_recent_runs : option Z;
  api_success_rate : option Q;
  api_last_run : option string;
  api_recent_newsletters : option Z;
  api_last_generation : option string;
  api_issues : option (list string);
  other_keys : bool
}.

(** Truth value of the dictionary: an empty one is false. *)
Definition nonempty (r : api_status) : bool :=
  bool_decide (is_Some (api_state r))
  || bool_decide (is_Some (api_recent_runs r))
  || bool_decide (is_Some (api_success_rate r))
  || bool_decide (is_Some (api_last_run r))
  || bool_decide (is_Some (api_recent_newsletters r))
  || bool_decide (is_Some (api_last_generation r))
  || bool_decide (is_Some (api_issues r))
  || other_keys r.

(** The dictionary the health checks return. *)
Record health_status : Type := mk_health_status {
  service : string;
  status : string;
  recent_runs : option Z;
  success_rate : option Q;
  last_run : option string;
  recent_newsletters : option Z;
  last_generation : option string;
  issues : list string;
  error : option string;
  api_accessible : bool
}.

Definition set_status (h : health_status) (s : string) : health_status :=
  mk_health_status (service h) s (recent_runs h) (success_rate h) (last_run h)
    (recent_newsletters h) (last_generation h) (issues h) (error h)
    (api_accessible h).

(** [health_status['issues'].append(i)]. *)
Definition append_issue (h : health_status) (i : string) : health_status :=
  mk_health_status (service h) (status h) (recent_runs h) (success_rate h)
    (last_run h) (recent_newsletters h) (last_generation h)
    (issues h ++ [i]) (error h) (api_accessible h).

Definition api_failed (svc issue : string) : health_status :=
  {| service := svc; status := "error"; recent_runs := None;
     success_rate := None; last_run := None; recent_newsletters := None;
     last_generation := None; issues := [issue]; error := None;
     api_accessible := false |}.

Definition check_failed (svc e : string) : health_status :=
  {| service := svc; status := "error"; recent_runs := None;
     success_rate := None; last_run := None; recent_newsletters := None;
     last_generation := None; issues := ["Health check failed: " +:+ e];
     error := Some e; api_accessible := false |}.

(** The URL [make_api_request] asks for. *)
Definition request_url (flask_api_url endpoint : string) : string :=
  rstrip_slash flask_api_url +:+ "/" +:+ lstrip_slash endpoint.

Definition low_success_rate (rate : Q) : string :=
  "Low success rate: " +:+ format_1f rate +:+ "%".

(** The dictionary built from the response of the worker endpoint. *)
Definition worker_status_of (r : api_status) : health_status :=
  {| service := "worker";
     status := default "unknown" (api_state r);
     recent_runs := Some (default 0 (api_recent_runs r));
     success_rate := Some (default 0%Q (api_success_rate r));
     last_run := api_last_run r;
     recent_newsletters := None;
     last_generation := None;
     issues := default [] (api_issues r);
     error := None;
     api_accessible := true |}.

(** The two [if] statements under [# Additional health checks]. *)
Definition worker_checks (h : health_status) : health_status :=
  let rate := default 0%Q (success_rate h) in
  let h1 :=
    if Qlt_bool rate 80
    then append_issue (set_status h "degraded") (low_success_rate rate)
    else h in
  if default 0 (recent_runs h1) =? 0
  then append_issue (set_status h1 "inactive") "No recent worker runs"
  else h1.

(** [check_worker_health]; [response] is what [make_api_request] gives:
    [Return None] after a failed request. *)
Definition check_worker_health (response : outcome (option api_status))
  : health_status :=
  match response with
  | Raise e => check_failed "worker" e
  | Return None => api_failed "worker" "Failed to get worker status from API"
  | Return (Some r) =>
      if negb (nonempty r)
      then api_failed "worker" "Failed to get worker status from API"
      else worker_checks (worker_status_of r)
  end.

Definition publisher_status_of (r : api_status) : health_status :=
  {| service := "publisher";
     status := default "unknown" (api_state r);
     recent_runs := None;
     success_rate := None;
     last_run := None;
     recent_newsletters := Some (default 0 (api_recent_newsletters r));
     last_generation := api_last_generation r;
     issues := default [] (api_issues r);
     error := None;
     api_accessible := true |}.

(** [hours_since_last]: the clock value is given the [tzinfo] of the
    parsed timestamp before the subtraction. *)
Definition hours_since (now last_gen_time : datetime) : Q :=
  total_hours (sub (replace_tzinfo now (tzinfo last_gen_time)) last_gen_time).

Definition no_generation (hours_since_last : Q) : string :=
  "No generation in " +:+ format_1f hours_since_last +:+ " hours".

(** The [if health_status['last_generation']:] block with its inner
    [try]. *)
Definition freshness_check (now : datetime) (h : health_status)
  : health_status :=
  match last_generation h with
  | None => h
  | Some "" => h
  | Some s =>
      match fromisoformat (replace_Z s) with
      | Return last_gen_time =>
          let hours_since_last := hours_since now last_gen_time in
          if Qlt_bool 25 hours_since_last
          then append_issue (set_status h "degraded")
                            (no_generation hours_since_last)
          else h
      | Raise e => append_issue h ("Invalid generation timestamp: " +:+ e)
      end
  end.

Definition inactivity_check (h : health_status) : health_status :=
  if default 0 (recent_newsletters h) =? 0
  then append_issue (set_status h "inactive") "No recent newsletter generation"
  else h.

Definition check_publisher_health (response : outcome (option api_status))
  (now : datetime) : health_status :=
  match response with
  | Raise e => check_failed "publisher" e
  | Return None =>
      api_failed "publisher" "Failed to get publisher status from API"
  | Return (Some r) =>
      if negb (nonempty r)
      then api_failed "publisher" "Failed to get publisher status from API"
      else inactivity_check (freshness_check now (publisher_status_of r))
  end.

Definition send_alert := Alerts.send_alert.

Definition footer : string :=
  "Newsletter System Monitoring Service (API Only)" +:+ Alerts.nl
  +:+ "Architecture: Separation of Concerns Compliant" +:+ Alerts.nl.

(** [load_config] with the defaults of the environment: alerts enabled,
    a 30-minute cooldown, STARTTLS. *)
Definition load_config (email_from email_to : string) : Alerts.config :=
  {| Alerts.email_alerts_enabled := true;
     Alerts.alert_cooldown_minutes := 30;
     Alerts.smtp_use_tls := true;
     Alerts.alert_email_from := email_from;
     Alerts.alert_email_to := email_to;
     Alerts.alert_subject_prefix := "[Newsletter System Alert]";
     Alerts.body_footer := footer |}.

End ApiOnly.
(** ** [monitoring_service_updated.py] *)

Module Updated.
Import Py.

(** *** The database

    Rows carry the columns the service reads.  A query takes its time
    bounds as instants (microseconds of UTC): the service sends them as
    [isoformat() + 'Z'] of a naive UTC value, and the sums of a
    [datetime] and a [timedelta] that produce them are kept as
    microsecond counts.  A query that fails raises. *)

Record worker_run : Type := mk_worker_run {
  run_status : string;
  started_at : string
}.

Record newsletter : Type := mk_newsletter {
  uuid : string;
  generated_at : option string
}.

Record supabase : Type := mk_supabase {
  (** [worker_runs], [started_at >= cutoff], latest first *)
  worker_runs_since : Z -> outcome (list worker_run);
  (** [workers], [registered_at >= cutoff]: the ids *)
  workers_since : Z -> outcome (list string);
  (** [worker_runs], [window_start <= started_at <= window_end]: the ids *)
  worker_runs_between : Z -> Z -> outcome (list Z);
  (** [newsletters] but [CONFIG_%] and [PROMPT_%],
      [generated_at >= cutoff], latest first *)
  newsletters_since : Z -> outcome (list newsletter);
  (** the same rows with [window_start <= generated_at <= window_end] *)
  newsletters_between : Z -> Z -> outcome (list string)
}.

Record schedule : Type := mk_schedule {
  frequency : string;
  times : list string;
  max_delay_minutes : Z
}.

(** [load_config]. *)
Definition worker_schedule : schedule :=
  {| frequency := "4x_daily";
     times := ["06:00"; "12:00"; "18:00"; "00:00"];
     max_delay_minutes := 30 |}.

Definition publisher_schedule : schedule :=
  {| frequency := "1x_daily"; times := ["08:00"]; max_delay_minutes := 60 |}.

(** *** Schedule adherence *)

(** [hour, minute = map(int, scheduled_time.split(':'))]. *)
Definition parse_hour_minute (scheduled_time : string) : outcome (Z * Z) :=
  match split_colon scheduled_time with
  | [] => Raise "not enough values to unpack (expected 2, got 0)"
  | [a] =>
      _ ← int_of_str a;
      Raise "not enough values to unpack (expected 2, got 1)"
  | [a; b] => h ← int_of_str a; mi ← int_of_str b; Return (h, mi)
  | a :: b :: c :: _ =>
      _ ← int_of_str a; _ ← int_of_str b; _ ← int_of_str c;
      Raise "too many values to unpack (expected 2)"
  end.

(** A schedule entry that [check_worker_schedule] can read: [HH:MM] with
    the hour and the minute in range. *)
Definition well_formed_time (scheduled_time : string) : bool :=
  match parse_hour_minute scheduled_time with
  | Return (h, mi) => in_range 0 h 23 && in_range 0 mi 59
  | Raise _ => false
  end.

Definition missed_run (scheduled_time : string) : string :=
  "Missed scheduled run at " +:+ scheduled_time +:+ " UTC".

Definition missed_generation (scheduled_time : string) : string :=
  "Missed scheduled generation at " +:+ scheduled_time +:+ " UTC".

(** The test [now > scheduled_datetime + timedelta(minutes=max_delay)]. *)
Definition past_deadline (now scheduled : datetime) (max_delay : Z) : bool :=
  to_us scheduled + minutes max_delay <? to_us now.

(** One turn of the loop of [check_worker_schedule]: the issue list after
    it. *)
Definition worker_schedule_step (db : supabase) (sch : schedule)
  (now today_start : datetime) (scheduled_time : string)
  (issues : list string) : outcome (list string) :=
  '(h, mi) ← parse_hour_minute scheduled_time;
  scheduled_datetime ← replace_hm today_start h mi;
  if past_deadline now scheduled_datetime (max_delay_minutes sch) then
    let window_start := to_us scheduled_datetime - minutes 15 in
    let window_end :=
      to_us scheduled_datetime + minutes (max_delay_minutes sch) in
    runs_in_window ← worker_runs_between db window_start window_end;
    match runs_in_window with
    | [] => Return (issues ++ [missed_run scheduled_time])
    | _ => Return issues
    end
  else Return issues.

(** The loop: the issue list when it stops, and the exception that
    stopped it if one did. *)
Fixpoint worker_schedule_loop (db : supabase) (sch : schedule)
  (now today_start : datetime) (ts : list string) (issues : list string)
  : list string * option string :=
  match ts with
  | [] => (issues, None)
  | scheduled_time :: rest =>
      match
        worker_schedule_step db sch now today_start scheduled_time issues
      with
      | Return issues' =>
          worker_schedule_loop db sch now today_start rest issues'
      | Raise e => (issues, Some e)
      end
  end.

(** What stands behind a reported missed run: an entry of [ts] that is
    past its deadline and whose window query returned no run. *)
Definition justified (db : supabase) (sch : schedule) (now : datetime)
  (ts : list string) (i : string) : Prop :=
  exists t h mi,
    i = missed_run t /\ In t ts
    /\ parse_hour_minute t = Return (h, mi)
    /\ past_deadline now (with_time now h mi 0 0) (max_delay_minutes sch)
       = true
    /\ worker_runs_between db
         (to_us (with_time now h mi 0 0) - minutes 15)
         (to_us (with_time now h mi 0 0) + minutes (max_delay_minutes sch))
       = Return [].

Definition schedule_check_failed (e : string) : string :=
  "Schedule check failed: " +:+ e.

Definition check_worker_schedule (db : supabase) (sch : schedule)
  (now : datetime) : list string :=
  match replace_time now 0 0 0 0 with
  | Raise e => [schedule_check_failed e]
  | Return today_start =>
      match worker_schedule_loop db sch now today_start (times sch) [] with
      | (issues, None) => issues
      | (issues, Some e) => issues ++ [schedule_check_failed e]
      end
  end.

Definition publisher_schedule_body (db : supabase) (sch : schedule)
  (now : datetime) : outcome (list string) :=
  today_start ← replace_time now 0 0 0 0;
  scheduled_time ←
    match times sch with
    | [] => Raise "list index out of range"
    | t :: _ => Return t
    end;
  '(h, mi) ← parse_hour_minute scheduled_time;
  scheduled_datetime ← replace_hm today_start h mi;
  if past_deadline now scheduled_datetime (max_delay_minutes sch) then
    let window_start := to_us scheduled_datetime - minutes 30 in
    let window_end :=
      to_us scheduled_datetime + minutes (max_delay_minutes sch) in
    newsletters_in_window ← newsletters_between db window_start window_end;
    match newsletters_in_window with
    | [] => Return [missed_generation scheduled_time]
    | _ => Return []
    end
  else Return [].

Definition check_publisher_schedule (db : supabase) (sch : schedule)
  (now : datetime) : list string :=
  match publisher_schedule_body db sch now with
  | Return issues => issues
  | Raise e => [schedule_check_failed e]
  end.

(** *** Health *)

Record health_status : Type := mk_health_status {
  service : string;
  status : string;
  recent_runs : option Z;
  recent_workers : option Z;
  success_rate : option Q;
  last_run : option string;
  recent_newsletters : option Z;
  last_generation : option string;
  issues : list string;
  error : option string
}.

Definition set_status (h : health_status) (s : string) : health_status :=
  mk_health_status (service h) s (recent_runs h) (recent_workers h)
    (success_rate h) (last_run h) (recent_newsletters h) (last_generation h)
    (issues h) (error h).

(** [health_status['issues'].extend(l)]; [append] is the case [[i]]. *)
Definition extend_issues (h : health_status) (l : list string)
  : health_status :=
  mk_health_status (service h) (status h) (recent_runs h) (recent_workers h)
    (success_rate h) (last_run h) (recent_newsletters h) (last_generation h)
    (issues h ++ l) (error h).

Definition check_failed (svc e : string) : health_status :=
  {| service := svc; status := "error"; recent_runs := None;
     recent_workers := None; success_rate := None; last_run := None;
     recent_newsletters := None; last_generation := None;
     issues := ["Health check failed: " +:+ e]; error := Some e |}.

Definition low_success_rate (rate : Q) : string :=
  "Low success rate: " +:+ format_1f rate +:+ "%".

Definition successful_runs (runs : list worker_run) : Z :=
  Z.of_nat (length (filter (fun r => run_status r = "completed") runs)).

(** [(successful_runs / len(recent_runs.data)) * 100]. *)
Definition rate_of (runs : list worker_run) : Q :=
  (inject_Z (successful_runs runs) / inject_Z (Z.of_nat (length runs))) * 100.

(** [# Analyze health] of [check_worker_health]: the dictionary before the
    schedule check. *)
Definition analyze_worker (runs : list worker_run) (workers : list string)
  : health_status :=
  let h :=
    {| service := "worker"; status := "healthy";
       recent_runs := Some (Z.of_nat (length runs));
       recent_workers := Some (Z.of_nat (length workers));
       success_rate := Some 0%Q; last_run := None;
       recent_newsletters := None; last_generation := None;
       issues := []; error := None |} in
  match runs with
  | [] =>
      extend_issues (set_status h "inactive") ["No recent worker runs found"]
  | first :: _ =>
      let rate := rate_of runs in
      let h1 :=
        mk_health_status (service h) (status h) (recent_runs h)
          (recent_workers h) (Some rate) (Some (started_at first))
          (recent_newsletters h) (last_generation h) (issues h) (error h) in
      if Qlt_bool rate 80
      then extend_issues (set_status h1 "degraded") [low_success_rate rate]
      else h1
  end.

(** [# Check schedule adherence]. *)
Definition apply_schedule_issues (h : health_status)
  (schedule_issues : list string) : health_status :=
  match schedule_issues with
  | [] => h
  | _ =>
      let h1 := extend_issues h schedule_issues in
      if String.eqb (status h1) "healthy" then set_status h1 "degraded" else h1
  end.

(** [check_worker_health]; [now] is its own clock read, [now_s] the one of
    [check_worker_schedule]. *)
Definition check_worker_health (db : supabase) (sch : schedule)
  (now now_s : datetime) : health_status :=
  let cutoff := to_us now - hours 2 in
  match worker_runs_since db cutoff with
  | Raise e => check_failed "worker" e
  | Return runs =>
      match workers_since db cutoff with
      | Raise e => check_failed "worker" e
      | Return workers =>
          apply_schedule_issues (analyze_worker runs workers)
                                (check_worker_schedule db sch now_s)
      end
  end.

Definition hours_since (now last_gen_time : datetime) : Q :=
  total_hours (sub (replace_tzinfo now (tzinfo last_gen_time)) last_gen_time).

Definition no_generation (hours_since_last : Q) : string :=
  "No generation in " +:+ format_1f hours_since_last +:+ " hours".

(** [# Analyze health] of [check_publisher_health]; [now] is the clock
    read of the freshness test.  The timestamp is parsed outside any inner
    [try], so a failure leaves the function through its outer handler. *)
Definition analyze_publisher (rows : list newsletter) (now : datetime)
  : outcome health_status :=
  let h :=
    {| service := "publisher"; status := "healthy"; recent_runs := None;
       recent_workers := None; success_rate := None; last_run := None;
       recent_newsletters := Some (Z.of_nat (length rows));
       last_generation := None; issues := []; error := None |} in
  match rows with
  | [] =>
      Return (extend_issues (set_status h "inactive")
                            ["No recent newsletter generation"])
  | first :: _ =>
      let h1 :=
        mk_health_status (service h) (status h) (recent_runs h)
          (recent_workers h) (success_rate h) (last_run h)
          (recent_newsletters h) (generated_at first) (issues h) (error h) in
      match generated_at first with
      | None | Some "" =>
          Return (extend_issues (set_status h1 "degraded")
                    ["Recent newsletters have no generation timestamp"])
      | Some s =>
          last_gen_time ← fromisoformat (replace_Z s);
          let hours_since_last := hours_since now last_gen_time in
          if Qlt_bool 25 hours_since_last
          then Return (extend_issues (set_status h1 "degraded")
                                     [no_generation hours_since_last])
          else Return h1
      end
  end.

(** [check_publisher_health]; [now] is the clock read of the query cutoff,
    [now_f] the one of the freshness test and [now_s] the one of
    [check_publisher_schedule]. *)
Definition check_publisher_health (db : supabase) (sch : schedule)
  (now now_f now_s : datetime) : health_status :=
  let cutoff := to_us now - hours 24 in
  match newsletters_since db cutoff with
  | Raise e => check_failed "publisher" e
  | Return rows =>
      match analyze_publisher rows now_f with
      | Raise e => check_failed "publisher" e
      | Return h =>
          apply_schedule_issues h (check_publisher_schedule db sch now_s)
      end
  end.

Definition send_alert := Alerts.send_alert.

Definition footer : string :=
  "Newsletter System Monitoring Service" +:+ Alerts.nl.

(** [load_config] with the defaults of the environment: alerts enabled,
    a 30-minute cooldown, STARTTLS. *)
Definition load_config (email_from email_to : string) : Alerts.config :=
  {| Alerts.email_alerts_enabled := true;
     Alerts.alert_cooldown_minutes := 30;
     Alerts.smtp_use_tls := true;
     Alerts.alert_email_from := email_from;
     Alerts.alert_email_to := email_to;
     Alerts.alert_subject_prefix := "[Newsletter System Alert]";
     Alerts.body_footer := footer |}.

(** The statuses a verdict of this service takes. *)
Definition known_status (s : string) : Prop :=
  s = "healthy" \/ s = "degraded" \/ s = "inactive" \/ s = "error".

(** *** The monitoring cycle *)

(** A row of [process_monitoring]. *)
Record monitoring_event : Type := mk_monitoring_event {
  service_name : string;
  event_status : string;
  last_check : string;
  metadata : health_status
}.

(** The insert into [process_monitoring]: it returns or raises. *)
Definition status_sink : Type := monitoring_event -> outcome unit.

(** [record_monitoring_event]: the rows inserted so far, with the new one
    when the insert went through; a failure is logged and dropped. *)
Definition record_monitoring_event (sink : status_sink) (now : datetime)
  (name st : string) (h : health_status)
  (recorded : list monitoring_event) : list monitoring_event :=
  let ev :=
    {| service_name := name; event_status := st;
       last_check := isoformat now +:+ "Z"; metadata := h |} in
  match sink ev with
  | Return _ => recorded ++ [ev]
  | Raise _ => recorded
  end.

(** [status in ['degraded', 'error', 'inactive']]. *)
Definition needs_alert (st : string) : bool :=
  String.eqb st "degraded" || String.eqb st "error"
  || String.eqb st "inactive".

(** The clock reads of one cycle, in program order. *)
Record cycle_clock : Type := mk_cycle_clock {
  at_worker_check : datetime;
  at_worker_schedule : datetime;
  at_worker_event : datetime;
  at_worker_alert : datetime;
  at_publisher_check : datetime;
  at_publisher_freshness : datetime;
  at_publisher_schedule : datetime;
  at_publisher_event : datetime;
  at_publisher_alert : datetime
}.

(** What one cycle meets outside the process. *)
Record world : Type := mk_world {
  database : supabase;
  sink : status_sink;
  clock : cycle_clock;
  worker_smtp : Alerts.smtp_server;
  publisher_smtp : Alerts.smtp_server
}.

(** What the daemon keeps and what it has written. *)
Record service_state : Type := mk_service_state {
  alert_state : Alerts.alert_state;
  recorded : list monitoring_event
}.

(** The [if ...['status'] in [...]: self.send_alert(...)] of a service
    whose name in the subject is [label]. *)
Definition alert_on (cfg : Alerts.config) (srv : Alerts.smtp_server)
  (now : datetime) (label name : string) (h : health_status)
  (st : Alerts.alert_state) : Alerts.alert_state * option Alerts.alert_log :=
  if needs_alert (status h) then
    let '(st', lg) :=
      Alerts.send_alert cfg srv now
        (label +:+ " Service " +:+ title (status h))
        (label +:+ " service issues detected:" +:+ Alerts.nl +:+ Alerts.nl
         +:+ join Alerts.nl (issues h))
        name st in
    (st', Some lg)
  else (st, None).

(** [run_monitoring_cycle], with what the two alert calls logged.  No
    statement of its [try] block raises on these values, so the handler
    never runs. *)
Definition run_monitoring_cycle (cfg : Alerts.config) (w : world)
  (st : service_state)
  : service_state * (option Alerts.alert_log * option Alerts.alert_log) :=
  let c := clock w in
  let worker_health :=
    check_worker_health (database w) worker_schedule
      (at_worker_check c) (at_worker_schedule c) in
  let rec1 :=
    record_monitoring_event (sink w) (at_worker_event c) "worker"
      (status worker_health) worker_health (recorded st) in
  let '(a1, lg1) :=
    alert_on cfg (worker_smtp w) (at_worker_alert c) "Worker" "worker"
      worker_health (alert_state st) in
  let publisher_health :=
    check_publisher_health (database w) publisher_schedule
      (at_publisher_check c) (at_publisher_freshness c)
      (at_publisher_schedule c) in
  let rec2 :=
    record_monitoring_event (sink w) (at_publisher_event c) "publisher"
      (status publisher_health) publisher_health rec1 in
  let '(a2, lg2) :=
    alert_on cfg (publisher_smtp w) (at_publisher_alert c) "Publisher"
      "publisher" publisher_health a1 in
  ({| alert_state := a2; recorded := rec2 |}, (lg1, lg2)).

End Updated.
(** ** An in-memory database

    Each row is stored with the instant the database holds for it; the
    text of the timestamp column is what the database sends back. *)

Module MemDb.
Import Py Updated.

Record tables : Type := mk_tables {
  worker_runs : list (Z * worker_run);
  workers : list (Z * string);
  newsletters : list (option Z * newsletter)
}.

Fixpoint insert_desc {A : Type} (x : Z * A) (l : list (Z * A)) : list (Z * A) :=
  match l with
  | [] => [x]
  | y :: r => if y.1 <=? x.1 then x :: l else y :: insert_desc x r
  end.

(** [order(column, desc=True)]. *)
Definition order_desc {A : Type} (l : list (Z * A)) : list (Z * A) :=
  foldr insert_desc [] l.

(** [gte(column, lo)], and [lte(column, hi)] when there is a bound. *)
Definition select {A : Type} (lo : Z) (hi : option Z) (l : list (Z * A))
  : list (Z * A) :=
  List.filter
    (fun x => (lo <=? x.1)
              && match hi with Some h => x.1 <=? h | None => true end) l.

(** Rows with a [NULL] timestamp satisfy no comparison. *)
Definition dated {A : Type} (l : list (option Z * A)) : list (Z * A) :=
  omap (fun x => t ← x.1; Some (t, x.2)) l.

Definition connect (t : tables) : supabase :=
  {| worker_runs_since := fun lo =>
       Return (snd <$> order_desc (select lo None (worker_runs t)));
     workers_since := fun lo =>
       Return (snd <$> order_desc (select lo None (workers t)));
     worker_runs_between := fun lo hi =>
       Return (fst <$> select lo (Some hi) (worker_runs t));
     newsletters_since := fun lo =>
       Return (snd <$> order_desc (select lo None (dated (newsletters t))));
     newsletters_between := fun lo hi =>
       Return ((fun x => uuid x.2)
                 <$> select lo (Some hi) (dated (newsletters t))) |}.

(** The instant a timestamp text denotes, when it can be read. *)
Definition instant_of (s : string) : option Z :=
  match fromisoformat (replace_Z s) with
  | Return d => Some (instant d)
  | Raise _ => None
  end.

Definition run_at (s : string) (st : string) : Z * worker_run :=
  (default 0 (instant_of s), {| run_status := st; started_at := s |}).

Definition newsletter_at (id s : string) : option Z * newsletter :=
  (instant_of s, {| uuid := id; generated_at := Some s |}).

End MemDb.

(** ** Verdicts

    What the monitoring cycle reads of a verdict: its ['status'] and
    [verdict.get('issues', [])]. *)

Class HealthVerdict (A : Type) : Type := {
  verdict_status : A -> string;
  verdict_issues : A -> list string
}.


#[global] Instance api_verdict : HealthVerdict ApiOnly.health_status :=
  {| verdict_status := ApiOnly.status; verdict_issues := ApiOnly.issues |}.

#[global] Instance db_verdict : HealthVerdict Updated.health_status :=
  {| verdict_status := Updated.status; verdict_issues := Updated.issues |}.


(** A naive UTC clock value. *)
Definition utc (y m d h mi s : Z) : Py.datetime :=
  Py.mkdatetime y m d h mi s 0 None.

(** * Properties *)

(** ** Exact arithmetic *)

Section Arithmetic.
Import Py.

Lemma Qlt_bool_true (a b : Q) : Qlt_bool a b = true <-> (a < b)%Q.
Proof.
  unfold Qlt_bool. rewrite negb_true_iff, <- not_true_iff_false, Qle_bool_iff.
  split; [apply Qnot_le_lt | apply Qlt_not_le].
Qed.

Lemma Qlt_bool_false (a b : Q) : Qlt_bool a b = false <-> (b <= a)%Q.
Proof.
  unfold Qlt_bool. rewrite negb_false_iff. apply Qle_bool_iff.
Qed.

Lemma total_minutes_gt (n : Z) (td : timedelta) :
  (inject_Z n < total_minutes td)%Q <-> minutes n < td.
Proof. unfold Qlt, total_minutes, minutes; simpl. lia. Qed.

Lemma total_minutes_lt (n : Z) (td : timedelta) :
  (total_minutes td < inject_Z n)%Q <-> td < minutes n.
Proof. unfold Qlt, total_minutes, minutes; simpl. lia. Qed.

Lemma total_hours_gt (n : Z) (td : timedelta) :
  (inject_Z n < total_hours td)%Q <-> hours n < td.
Proof. unfold Qlt, total_hours, hours; simpl. lia. Qed.

Lemma total_hours_le (n : Z) (td : timedelta) :
  (total_hours td <= inject_Z n)%Q <-> td <= hours n.
Proof. unfold Qle, total_hours, hours; simpl. lia. Qed.

(** Whole minutes of a non-negative duration. *)
Lemma int_of_total_minutes (m rest : Z) :
  0 <= m -> 0 <= rest < 60000000 ->
  int_of_Q (total_minutes (m * 60000000 + rest)) = m.
Proof.
  intros Hm Hr. unfold int_of_Q, total_minutes; simpl.
  rewrite Z.quot_div_nonneg by lia.
  symmetry. apply (Z.div_unique _ _ _ rest); lia.
Qed.

End Arithmetic.

(** ** The calendar *)

Section Calendar.
Import Py.

Lemma days_before_next_month (y m : Z) :
  1 <= m ->
  days_before_month y (m + 1) = days_before_month y m + days_in_month y m.
Proof.
  intros Hm. unfold days_before_month.
  replace (Z.to_nat (m + 1 - 1)) with (S (Z.to_nat (m - 1))) by lia.
  cbn [days_in_first_months]. do 2 f_equal. lia.
Qed.

Lemma days_before_december (y : Z) :
  days_before_month y 12 = if is_leap y then 335 else 334.
Proof.
  unfold days_before_month.
  replace (Z.to_nat (12 - 1)) with 11%nat by reflexivity.
  cbn [days_in_first_months].
  unfold days_in_month.
  cbn [Z.of_nat Pos.of_succ_nat Pos.succ Z.eqb Pos.eqb orb].
  destruct (is_leap y); reflexivity.
Qed.

Lemma days_before_next_year (y : Z) :
  days_before_year (y + 1)
  = days_before_year y + days_before_month y 12 + 31.
Proof.
  rewrite days_before_december.
  unfold days_before_year, is_leap.
  replace (y + 1 - 1) with y by lia. cbv zeta.
  destruct (y mod 4 =? 0) eqn:E4; destruct (y mod 100 =? 0) eqn:E100;
    destruct (y mod 400 =? 0) eqn:E400; cbn [andb orb negb];
    rewrite ?Z.eqb_eq, ?Z.eqb_neq in *;
    Z.div_mod_to_equations; lia.
Qed.

(** [d + timedelta(days=1)] is one day later. *)
Lemma add_one_day_later (d d' : datetime) :
  valid d = true -> add_one_day d = Return d' ->
  to_us d' = to_us d + days 1.
Proof.
  intros Hv. unfold add_one_day.
  assert (Hd : 1 <= month d <= 12 /\ day d <= days_in_month (year d) (month d))
    by (unfold valid, in_range in Hv; lia).
  destruct (day d <? days_in_month (year d) (month d)) eqn:E1.
  { intros [= <-]. unfold to_us, ymd2ord, days; simpl. lia. }
  destruct (month d <? 12) eqn:E2.
  { intros [= <-]. unfold to_us, ymd2ord, days; simpl.
    rewrite days_before_next_month by lia.
    assert (Hday : day d = days_in_month (year d) (month d)) by lia.
    rewrite Hday. lia. }
  destruct (year d <? 9999); [|discriminate].
  intros [= <-]. unfold to_us, ymd2ord, days; simpl.
  assert (Hm : month d = 12) by lia.
  assert (Hday : day d = 31).
  { rewrite Hm in Hd, E1. unfold days_in_month in Hd, E1.
    simpl in Hd, E1. lia. }
  rewrite days_before_next_year, Hm, Hday.
  replace (days_before_month (year d + 1) 1) with 0 by reflexivity. lia.
Qed.

End Calendar.
(** ** The schedule evaluator of the background service *)

Section BackgroundSchedule.
Import Py Background.

Lemma valid_time_fields (now : datetime) :
  valid now = true ->
  0 <= hour now <= 23 /\ 0 <= minute now <= 59
  /\ 0 <= second now <= 59 /\ 0 <= microsecond now <= 999999.
Proof. unfold valid, in_range. lia. Qed.

Lemma replace_time_hour (d : datetime) (h : Z) :
  0 <= h <= 23 -> replace_time d h 0 0 0 = Return (with_time d h 0 0 0).
Proof.
  intros Hh. unfold replace_time, check_time_fields, in_range.
  replace (0 <=? h) with true by lia. replace (h <=? 23) with true by lia.
  reflexivity.
Qed.

(** The time elapsed since an hour of the same day. *)
Lemma sub_with_time (now : datetime) (h : Z) :
  sub now (with_time now h 0 0 0)
  = ((hour now - h) * 60 + minute now) * 60000000
    + (second now * 1000000 + microsecond now).
Proof. unfold sub, to_us, with_time; simpl. lia. Qed.

(** Entries whose hour is still to come today are passed over. *)
Lemma schedule_loop_later (now : datetime) (tol : Z) (pre rest : list Z) :
  Forall (fun x => hour now < x <= 23) pre -> 0 <= hour now ->
  schedule_loop now tol (pre ++ rest) = schedule_loop now tol rest.
Proof.
  intros Hpre Hnow. induction Hpre as [|x pre [Hx1 Hx2] _ IH]; [reflexivity|].
  cbn [app schedule_loop]. rewrite replace_time_hour by lia.
  cbn [mbind outcome_bind].
  replace (x <? hour now) with false by lia.
  replace (x =? hour now) with false by lia. exact IH.
Qed.

(** The guard of the [overdue] return, for the entry [h]. *)
Lemma schedule_loop_overdue (now : datetime) (tol h : Z) (post : list Z) :
  valid now = true -> 0 <= h ->
  (h < hour now /\ minutes tol < sub now (with_time now h 0 0 0))
  \/ (h = hour now /\ tol < minute now) ->
  schedule_loop now tol (h :: post)
  = Return (Some (overdue_status (with_time now h 0 0 0)
                                 (sub now (with_time now h 0 0 0)))).
Proof.
  intros Hv Hh Hg. apply valid_time_fields in Hv.
  cbn [schedule_loop]. rewrite replace_time_hour by lia.
  cbn [mbind outcome_bind].
  assert (Hlate : minutes tol < sub now (with_time now h 0 0 0)).
  { destruct Hg as [[_ ?]|[-> Hm]]; [assumption|].
    rewrite sub_with_time. unfold minutes. lia. }
  replace ((h <? hour now) || (h =? hour now) && (tol <? minute now))
    with true by (symmetry; destruct Hg; lia).
  apply total_minutes_gt, Qlt_bool_true in Hlate. rewrite Hlate. reflexivity.
Qed.

Lemma minutes_overdue_whole (now : datetime) (h : Z) :
  valid now = true -> h <= hour now ->
  minutes_overdue (overdue_status (with_time now h 0 0 0)
                                  (sub now (with_time now h 0 0 0)))
  = Some ((hour now - h) * 60 + minute now).
Proof.
  intros Hv Hh. apply valid_time_fields in Hv. simpl.
  rewrite sub_with_time, int_of_total_minutes; [reflexivity|lia|lia].
Qed.

End BackgroundSchedule.
(** ** The schedule check of the database service *)

Section UpdatedSchedule.
Import Py Updated.

Variable db : supabase.
Variable sch : schedule.
Variable now : datetime.

Lemma well_formed_time_inv (t : string) :
  well_formed_time t = true ->
  exists h mi, parse_hour_minute t = Return (h, mi)
               /\ 0 <= h <= 23 /\ 0 <= mi <= 59.
Proof.
  unfold well_formed_time, in_range.
  destruct (parse_hour_minute t) as [[h mi]|e]; [|discriminate].
  intros H. exists h, mi. split; [reflexivity|lia].
Qed.

Lemma replace_hm_ok (d : datetime) (h mi : Z) :
  valid d = true -> 0 <= h <= 23 -> 0 <= mi <= 59 ->
  replace_hm d h mi = Return (with_time d h mi (second d) (microsecond d)).
Proof.
  intros Hv Hh Hmi. apply valid_time_fields in Hv.
  unfold replace_hm, replace_time, check_time_fields, in_range.
  replace (0 <=? h) with true by lia. replace (h <=? 23) with true by lia.
  replace (0 <=? mi) with true by lia. replace (mi <=? 59) with true by lia.
  replace (0 <=? second d) with true by lia.
  replace (second d <=? 59) with true by lia.
  replace (0 <=? microsecond d) with true by lia.
  replace (microsecond d <=? 999999) with true by lia.
  reflexivity.
Qed.

Lemma valid_today_start :
  valid now = true -> valid (with_time now 0 0 0 0) = true.
Proof. unfold valid, with_time, in_range; simpl. lia. Qed.

(** What one turn of the loop does with a readable entry. *)
Lemma worker_schedule_step_eq (t : string) (h mi : Z) (issues : list string) :
  valid now = true ->
  parse_hour_minute t = Return (h, mi) -> 0 <= h <= 23 -> 0 <= mi <= 59 ->
  let scheduled := with_time now h mi 0 0 in
  worker_schedule_step db sch now (with_time now 0 0 0 0) t issues
  = if past_deadline now scheduled (max_delay_minutes sch) then
      runs ← worker_runs_between db
                (to_us scheduled - minutes 15)
                (to_us scheduled + minutes (max_delay_minutes sch));
      match runs with
      | [] => Return (issues ++ [missed_run t])
      | _ => Return issues
      end
    else Return issues.
Proof.
  intros Hv Hp Hh Hmi scheduled. unfold worker_schedule_step.
  rewrite Hp. cbn [mbind outcome_bind].
  rewrite (replace_hm_ok _ h mi (valid_today_start Hv) Hh Hmi).
  reflexivity.
Qed.

Hypothesis db_answers :
  forall lo hi, exists l, worker_runs_between db lo hi = Return l.

(** With readable entries and a database that answers, the loop runs to
    its end, keeps the issues it had, and reports every entry that is past
    its deadline with no run in its window. *)
Lemma worker_schedule_loop_spec (ts : list string) (issues : list string) :
  valid now = true ->
  Forall (fun t => well_formed_time t = true) ts ->
  exists issues',
    worker_schedule_loop db sch now (with_time now 0 0 0 0) ts issues
    = (issues', None)
    /\ (forall i, In i issues -> In i issues')
    /\ (forall t h mi,
          In t ts -> parse_hour_minute t = Return (h, mi) ->
          past_deadline now (with_time now h mi 0 0) (max_delay_minutes sch)
          = true ->
          worker_runs_between db
            (to_us (with_time now h mi 0 0) - minutes 15)
            (to_us (with_time now h mi 0 0) + minutes (max_delay_minutes sch))
          = Return [] ->
          In (missed_run t) issues').
Proof.
  intros Hv Hwf. revert issues.
  induction Hwf as [|t ts Ht _ IH]; intros issues.
  - exists issues. repeat split; [tauto|]. intros t h mi [].
  - destruct (well_formed_time_inv t Ht) as (h & mi & Hp & Hh & Hmi).
    cbn [worker_schedule_loop].
    rewrite (worker_schedule_step_eq t h mi issues Hv Hp Hh Hmi).
    destruct (past_deadline now (with_time now h mi 0 0)
                            (max_delay_minutes sch)) eqn:Hpast.
    + destruct (db_answers (to_us (with_time now h mi 0 0) - minutes 15)
                  (to_us (with_time now h mi 0 0)
                   + minutes (max_delay_minutes sch))) as [runs Hruns].
      rewrite Hruns. cbn [mbind outcome_bind].
      destruct runs as [|r runs].
      * destruct (IH (issues ++ [missed_run t]))
          as (issues' & -> & Hkeep & Hrep).
        exists issues'. split; [reflexivity|]. split.
        { intros i Hi. apply Hkeep, in_or_app. left. exact Hi. }
        intros t' h' mi' [<-|Hin] Hp' Hpast' Hruns'.
        { apply Hkeep, in_or_app. right. left. reflexivity. }
        exact (Hrep t' h' mi' Hin Hp' Hpast' Hruns').
      * destruct (IH issues) as (issues' & -> & Hkeep & Hrep).
        exists issues'. split; [reflexivity|]. split; [exact Hkeep|].
        intros t' h' mi' [<-|Hin] Hp' Hpast' Hruns'.
        { rewrite Hp in Hp'. injection Hp' as <- <-.
          rewrite Hruns in Hruns'. discriminate. }
        exact (Hrep t' h' mi' Hin Hp' Hpast' Hruns').
    + destruct (IH issues) as (issues' & -> & Hkeep & Hrep).
      exists issues'. split; [reflexivity|]. split; [exact Hkeep|].
      intros t' h' mi' [<-|Hin] Hp' Hpast' Hruns'.
      { rewrite Hp in Hp'. injection Hp' as <- <-.
        rewrite Hpast in Hpast'. discriminate. }
      exact (Hrep t' h' mi' Hin Hp' Hpast' Hruns').
Qed.

Lemma check_worker_schedule_missed (t : string) (h mi : Z) :
  valid now = true ->
  Forall (fun t => well_formed_time t = true) (times sch) ->
  In t (times sch) -> parse_hour_minute t = Return (h, mi) ->
  past_deadline now (with_time now h mi 0 0) (max_delay_minutes sch) = true ->
  worker_runs_between db
    (to_us (with_time now h mi 0 0) - minutes 15)
    (to_us (with_time now h mi 0 0) + minutes (max_delay_minutes sch))
  = Return [] ->
  In (missed_run t) (check_worker_schedule db sch now).
Proof.
  intros Hv Hwf Hin Hp Hpast Hruns. unfold check_worker_schedule.
  assert (Hr : replace_time now 0 0 0 0 = Return (with_time now 0 0 0 0))
    by reflexivity.
  rewrite Hr.
  destruct (worker_schedule_loop_spec (times sch) [] Hv Hwf)
    as (issues' & -> & _ & Hrep).
  exact (Hrep t h mi Hin Hp Hpast Hruns).
Qed.

End UpdatedSchedule.

(** A reported schedule issue never leaves the status [healthy]. *)
Lemma apply_schedule_issues_unhealthy (h : Updated.health_status)
  (schedule_issues : list string) :
  schedule_issues <> [] ->
  Updated.status (Updated.apply_schedule_issues h schedule_issues) <> "healthy".
Proof.
  intros Hne. unfold Updated.apply_schedule_issues.
  destruct schedule_issues as [|i l]; [congruence|].
  destruct (String.eqb _ _) eqn:E; [simpl; discriminate|].
  apply String.eqb_neq in E. exact E.
Qed.
(** ** C1: the overdue rule *)

(** C1, as amended.  Background service: the verdict is [overdue] for the
    first entry of the schedule, in list order, whose hour has been reached
    today, as soon as [now > scheduled_time + tolerance] (within the
    scheduled hour itself the test is on the minute of the hour); it names
    that entry and [minutes_overdue] is the whole minutes elapsed since
    it.  Observed runs are not consulted.  Database service: every
    scheduled time with [now > scheduled_time + tolerance] and no run
    started in [[scheduled_time - 15 min, scheduled_time + tolerance]] is
    reported as an issue [Missed scheduled run at HH:MM UTC], and the
    status of the health verdict is then not [healthy]. *)
Theorem overdue_rule
  (now now' : Py.datetime) (process_type : string) (tolerance : Z)
  (pre : list Z) (h : Z) (post : list Z)
  (db : Updated.supabase) (sch : Updated.schedule) (now_s : Py.datetime)
  (t : string) (th tmi : Z) :
  Py.valid now = true ->
  Forall (fun x => Py.hour now < x <= 23) pre ->
  0 <= h ->
  (h < Py.hour now
   /\ Py.minutes tolerance < Py.sub now (Py.with_time now h 0 0 0))
  \/ (h = Py.hour now /\ tolerance < Py.minute now) ->
  Py.valid now_s = true ->
  Forall (fun x => Updated.well_formed_time x = true) (Updated.times sch) ->
  (forall lo hi, exists l, Updated.worker_runs_between db lo hi = Return l) ->
  In t (Updated.times sch) ->
  Updated.parse_hour_minute t = Return (th, tmi) ->
  Py.to_us (Py.with_time now_s th tmi 0 0)
  + Py.minutes (Updated.max_delay_minutes sch) < Py.to_us now_s ->
  Updated.worker_runs_between db
    (Py.to_us (Py.with_time now_s th tmi 0 0) - Py.minutes 15)
    (Py.to_us (Py.with_time now_s th tmi 0 0)
     + Py.minutes (Updated.max_delay_minutes sch)) = Return [] ->
  (exists st,
      Background.check_process_schedule now now' process_type
        (pre ++ h :: post) tolerance = Return st
      /\ Background.status st = "overdue"
      /\ Background.scheduled_time st
         = Some (Py.isoformat (Py.with_time now h 0 0 0))
      /\ Background.minutes_overdue st
         = Some ((Py.hour now - h) * 60 + Py.minute now))
  /\ In (Updated.missed_run t) (Updated.check_worker_schedule db sch now_s)
  /\ forall h0,
      Updated.status
        (Updated.apply_schedule_issues h0
           (Updated.check_worker_schedule db sch now_s)) <> "healthy".
Proof.
  intros Hv Hpre Hh Hg Hvs Hwf Hdb Hin Hp Hpast Hruns.
  assert (Hmiss : In (Updated.missed_run t)
                     (Updated.check_worker_schedule db sch now_s)).
  { apply (check_worker_schedule_missed db sch now_s Hdb t th tmi);
      try assumption.
    unfold Updated.past_deadline. lia. }
  split; [|split; [exact Hmiss|]].
  - eexists. unfold Background.check_process_schedule.
    rewrite schedule_loop_later
      by (try assumption; apply valid_time_fields in Hv; lia).
    rewrite schedule_loop_overdue by assumption.
    cbn [mbind outcome_bind]. split; [reflexivity|].
    split; [reflexivity|]. split; [reflexivity|].
    apply minutes_overdue_whole; [assumption|]. destruct Hg; lia.
  - intros h0. apply apply_schedule_issues_unhealthy.
    intros E. rewrite E in Hmiss. destruct Hmiss.
Qed.

(** At 06:45 UTC with the Worker schedule, a 30-minute tolerance and an
    empty [worker_runs] table: overdue by 45 minutes for today's 06:00,
    and the 06:00 run is reported as missed. *)
Lemma overdue_rule_witness :
  (exists st,
      Background.check_process_schedule
        (utc 2024 5 2 6 45 0) (utc 2024 5 2 6 45 0) "worker"
        Background.worker_schedule Background.worker_tolerance = Return st
      /\ Background.status st = "overdue"
      /\ Background.scheduled_time st = Some "2024-05-02T06:00:00"
      /\ Background.minutes_overdue st = Some 45)
  /\ In "Missed scheduled run at 06:00 UTC"
        (Updated.check_worker_schedule
           (MemDb.connect (MemDb.mk_tables [] [] []))
           Updated.worker_schedule (utc 2024 5 2 6 45 0))
  /\ forall h0,
      Updated.status
        (Updated.apply_schedule_issues h0
           (Updated.check_worker_schedule
              (MemDb.connect (MemDb.mk_tables [] [] []))
              Updated.worker_schedule (utc 2024 5 2 6 45 0))) <> "healthy".
Proof.
  apply (overdue_rule (utc 2024 5 2 6 45 0) (utc 2024 5 2 6 45 0) "worker"
           30 [] 6 [12; 18; 0]
           (MemDb.connect (MemDb.mk_tables [] [] []))
           Updated.worker_schedule (utc 2024 5 2 6 45 0) "06:00" 6 0).
  - reflexivity.
  - constructor.
  - discriminate.
  - right. split; reflexivity.
  - reflexivity.
  - repeat constructor.
  - intros lo hi. eexists. reflexivity.
  - left. reflexivity.
  - reflexivity.
  - reflexivity.
  - reflexivity.
Defined.

(** The rule as stated fails at 13:00 UTC: 12:00 is a scheduled time,
    more than 30 minutes past, 60 minutes before now, yet the verdict
    counts 420 minutes, from 06:00.  The database service has no
    [overdue] status: on the input of the example it reports [inactive]. *)
Lemma overdue_rule_counterexample :
  In 12 Background.worker_schedule
  /\ Py.to_us (utc 2024 5 2 12 0 0) + Py.minutes 30
     < Py.to_us (utc 2024 5 2 13 0 0)
  /\ Py.int_of_Q (Py.total_minutes
                    (Py.sub (utc 2024 5 2 13 0 0) (utc 2024 5 2 12 0 0))) = 60
  /\ Background.check_process_schedule
       (utc 2024 5 2 13 0 0) (utc 2024 5 2 13 0 0) "worker"
       Background.worker_schedule Background.worker_tolerance
     = Return {| Background.status := "overdue";
                 Background.scheduled_time := Some "2024-05-02T06:00:00";
                 Background.minutes_overdue := Some 420;
                 Background.next_scheduled := None;
                 Background.healthy := false |}
  /\ Updated.status
       (Updated.check_worker_health
          (MemDb.connect (MemDb.mk_tables [] [] []))
          Updated.worker_schedule
          (utc 2024 5 2 6 45 0) (utc 2024 5 2 6 45 0)) = "inactive".
Proof.
  split; [right; left; reflexivity|].
  split; [reflexivity|]. split; [reflexivity|].
  split; reflexivity.
Qed.
(** ** C2: the midnight entry *)

Section Midnight.
Import Py.

Lemma schedule_loop_on_schedule (now : datetime) (tol h : Z) (post : list Z) :
  valid now = true -> h = hour now -> minute now <= tol ->
  Background.schedule_loop now tol (h :: post)
  = Return (Some (Background.on_schedule_status (with_time now h 0 0 0))).
Proof.
  intros Hv -> Hm. apply valid_time_fields in Hv.
  cbn [Background.schedule_loop]. rewrite replace_time_hour by lia.
  cbn [mbind outcome_bind].
  replace (hour now <? hour now) with false by lia.
  replace (tol <? minute now) with false by lia.
  replace (hour now =? hour now) with true by lia.
  replace (minute now <=? tol) with true by lia.
  reflexivity.
Qed.

(** During the first hour of the day no other entry of the day is due. *)
Lemma not_past_deadline_later (now : datetime) (h mi delay : Z) :
  valid now = true -> hour now < h -> 0 <= mi -> 0 <= delay ->
  Updated.past_deadline now (with_time now h mi 0 0) delay = false.
Proof.
  intros Hv Hh Hmi Hd. apply valid_time_fields in Hv.
  unfold Updated.past_deadline, to_us, with_time, minutes; simpl. lia.
Qed.

End Midnight.

(** One turn of the loop of [check_worker_schedule] on the entry [t], which
    reads as the hour [h]. *)
Ltac read_entry db now t h :=
  rewrite (worker_schedule_step_eq db _ now t h 0)
    by (try assumption; try reflexivity; lia);
  cbv zeta.

(** C2, as amended.  Whenever the clock reads an hour of 0, the entry
    00:00 of the Worker schedule is compared with 00:00 of the date of
    [now]: the background service answers [on_schedule] for it up to
    minute 30 (so at 00:10) and [overdue] after, counting the minutes
    since today's 00:00; the database service reports nothing up to 00:30
    and after that a missed 00:00 run when no run started between 23:45
    of the day before and 00:30 of today. *)
Theorem midnight_entry (now now' : Py.datetime) (process_type : string)
  (db : Updated.supabase) :
  Py.valid now = true ->
  Py.hour now = 0 ->
  let midnight := Py.with_time now 0 0 0 0 in
  Background.check_process_schedule now now' process_type
    Background.worker_schedule Background.worker_tolerance
  = Return (if Py.minute now <=? 30
            then Background.on_schedule_status midnight
            else Background.overdue_status midnight (Py.sub now midnight))
  /\ Background.minutes_overdue
       (Background.overdue_status midnight (Py.sub now midnight))
     = Some (Py.minute now)
  /\ Updated.check_worker_schedule db Updated.worker_schedule now
     = if Py.to_us midnight + Py.minutes 30 <? Py.to_us now
       then match Updated.worker_runs_between db
                    (Py.to_us midnight - Py.minutes 15)
                    (Py.to_us midnight + Py.minutes 30) with
            | Return [] => [Updated.missed_run "00:00"]
            | Return (_ :: _) => []
            | Raise e => [Updated.schedule_check_failed e]
            end
       else [].
Proof.
  intros Hv H0 midnight. split; [|split].
  - unfold Background.check_process_schedule, Background.worker_schedule.
    change [6; 12; 18; 0] with ([6; 12; 18] ++ [0]).
    rewrite schedule_loop_later
      by (rewrite ?H0; first [lia | repeat constructor; lia]).
    destruct (Py.minute now <=? 30) eqn:Hm.
    + rewrite schedule_loop_on_schedule
        by (first [assumption | congruence
                  | unfold Background.worker_tolerance; lia]).
      reflexivity.
    + rewrite schedule_loop_overdue
        by (first [assumption | lia
                  | right; unfold Background.worker_tolerance; lia]).
      reflexivity.
  - unfold midnight. rewrite minutes_overdue_whole by (try assumption; lia).
    f_equal. lia.
  - unfold Updated.check_worker_schedule.
    change (Py.replace_time now 0 0 0 0) with (Return midnight).
    cbn [Updated.times Updated.worker_schedule Updated.worker_schedule_loop].
    read_entry db now "06:00" 6.
    rewrite not_past_deadline_later by (try assumption; cbn; lia).
    read_entry db now "12:00" 12.
    rewrite not_past_deadline_later by (try assumption; cbn; lia).
    read_entry db now "18:00" 18.
    rewrite not_past_deadline_later by (try assumption; cbn; lia).
    read_entry db now "00:00" 0.
    unfold Updated.past_deadline.
    cbn [Updated.max_delay_minutes Updated.worker_schedule].
    fold midnight.
    destruct (Py.to_us midnight + Py.minutes 30 <? Py.to_us now);
      [|reflexivity].
    destruct (Updated.worker_runs_between db _ _) as [[|r l]|e]; reflexivity.
Qed.

(** At 00:45 UTC with no run on record: overdue by 45 minutes for 00:00
    of the same date, and the 00:00 run is reported as missed. *)
Lemma midnight_entry_witness :
  Background.check_process_schedule
    (utc 2024 5 2 0 45 0) (utc 2024 5 2 0 45 0) "worker"
    Background.worker_schedule Background.worker_tolerance
  = Return {| Background.status := "overdue";
              Background.scheduled_time := Some "2024-05-02T00:00:00";
              Background.minutes_overdue := Some 45;
              Background.next_scheduled := None;
              Background.healthy := false |}
  /\ Updated.check_worker_schedule
       (MemDb.connect (MemDb.mk_tables [] [] []))
       Updated.worker_schedule (utc 2024 5 2 0 45 0)
     = ["Missed scheduled run at 00:00 UTC"].
Proof.
  destruct (midnight_entry (utc 2024 5 2 0 45 0) (utc 2024 5 2 0 45 0)
              "worker" (MemDb.connect (MemDb.mk_tables [] [] []))
              eq_refl eq_refl) as (Hb & _ & Hu).
  split; [exact Hb | exact Hu].
Defined.

(** At 00:10 UTC with no run on record the verdict is not [overdue]: the
    background service answers [on_schedule] for today's 00:00 and the
    database service reports no missed run. *)
Lemma midnight_entry_counterexample :
  Background.check_process_schedule
    (utc 2024 5 2 0 10 0) (utc 2024 5 2 0 10 0) "worker"
    Background.worker_schedule Background.worker_tolerance
  = Return {| Background.status := "on_schedule";
              Background.scheduled_time := Some "2024-05-02T00:00:00";
              Background.minutes_overdue := None;
              Background.next_scheduled := None;
              Background.healthy := true |}
  /\ Updated.check_worker_schedule
       (MemDb.connect (MemDb.mk_tables [] [] []))
       Updated.worker_schedule (utc 2024 5 2 0 10 0) = [].
Proof. split; reflexivity. Qed.
(** ** C3: the waiting verdict *)

Section Waiting.
Import Py Background.

Lemma insert_sorted_In (x y : Z) (l : list Z) :
  In y (insert_sorted x l) <-> y = x \/ In y l.
Proof.
  induction l as [|z l IH]; simpl; [intuition congruence|].
  destruct (x <=? z); simpl; [intuition congruence|].
  rewrite IH. intuition congruence.
Qed.

Lemma sorted_In (y : Z) (l : list Z) : In y (sorted l) <-> In y l.
Proof.
  unfold sorted. induction l as [|x l IH]; simpl; [tauto|].
  rewrite insert_sorted_In, IH. intuition congruence.
Qed.

Lemma insert_sorted_ascending (x : Z) (l : list Z) :
  StronglySorted Z.le l -> StronglySorted Z.le (insert_sorted x l).
Proof.
  induction 1 as [|z l Hs IH Hz]; simpl.
  - repeat constructor.
  - destruct (x <=? z) eqn:E.
    + constructor; [constructor; assumption|].
      constructor; [lia|]. eapply Forall_impl; [exact Hz|].
      simpl. intros; lia.
    + constructor; [exact IH|].
      apply Forall_forall. intros y Hy.
      apply list_elem_of_In, insert_sorted_In in Hy.
      destruct Hy as [->|Hy]; [lia|].
      rewrite Forall_forall in Hz. apply Hz.
      apply list_elem_of_In. exact Hy.
Qed.

Lemma sorted_ascending (l : list Z) : StronglySorted Z.le (sorted l).
Proof.
  unfold sorted. induction l as [|x l IH]; simpl; [constructor|].
  apply insert_sorted_ascending, IH.
Qed.

(** In an ascending list the loop stops at the least hour after the
    current one. *)
Lemma first_hour_after_least (current m : Z) (l : list Z) :
  StronglySorted Z.le l -> In m l -> current < m ->
  (forall x, In x l -> current < x -> m <= x) ->
  first_hour_after current l = Some m.
Proof.
  induction 1 as [|y l Hs IH Hy]; intros Hin Hm Hleast; [destruct Hin|].
  simpl. destruct (current <? y) eqn:E.
  - f_equal. apply Z.le_antisymm.
    + destruct Hin as [->|Hin]; [lia|].
      rewrite Forall_forall in Hy. apply Hy, list_elem_of_In, Hin.
    + apply Hleast; [left; reflexivity | lia].
  - destruct Hin as [->|Hin]; [lia|].
    apply IH; [assumption..|]. intros x Hx. apply Hleast. right. exact Hx.
Qed.

Lemma first_hour_after_none (current : Z) (l : list Z) :
  (forall x, In x l -> x <= current) -> first_hour_after current l = None.
Proof.
  induction l as [|y l IH]; intros Hall; [reflexivity|].
  simpl. replace (current <? y) with false
    by (symmetry; apply Z.ltb_ge, Hall; left; reflexivity).
  apply IH. intros x Hx. apply Hall. right. exact Hx.
Qed.

Lemma foldr_min_spec (x : Z) (r : list Z) :
  In (foldr Z.min x r) (x :: r)
  /\ forall y, In y (x :: r) -> foldr Z.min x r <= y.
Proof.
  induction r as [|z r [IHin IHle]]; simpl.
  - split; [left; reflexivity|]. intros y [->|[]]. lia.
  - split.
    + destruct (Z.min_spec z (foldr Z.min x r)) as [[_ ->]|[_ ->]].
      * right. left. reflexivity.
      * destruct IHin as [E|Hin]; [left; exact E | right; right; exact Hin].
    + intros y [->|[->|Hy]].
      * pose proof (IHle y (or_introl eq_refl)). lia.
      * lia.
      * pose proof (IHle y (or_intror Hy)). lia.
Qed.

Lemma min_list_least (m : Z) (l : list Z) :
  In m l -> (forall x, In x l -> m <= x) -> min_list l = Return m.
Proof.
  destruct l as [|x r]; intros Hin Hle; [destruct Hin|].
  unfold min_list. f_equal.
  destruct (foldr_min_spec x r) as [Hin' Hle'].
  apply Z.le_antisymm; [apply Hle', Hin | apply Hle, Hin'].
Qed.

(** Entries that are neither overdue nor on schedule let the loop run to
    its end. *)
Lemma schedule_loop_none (now : datetime) (tol : Z) (l : list Z) :
  valid now = true ->
  Forall (fun x => 0 <= x <= 23
                   /\ (hour now < x
                       \/ (x < hour now
                           /\ sub now (with_time now x 0 0 0) <= minutes tol)))
         l ->
  schedule_loop now tol l = Return None.
Proof.
  intros Hv Hall. induction Hall as [|x l [Hx Hc] _ IH]; [reflexivity|].
  cbn [schedule_loop]. rewrite replace_time_hour by lia.
  cbn [mbind outcome_bind].
  destruct Hc as [Hlater|[Hearlier Hdiff]].
  - replace (x <? hour now) with false by lia.
    replace (x =? hour now) with false by lia. exact IH.
  - replace (x <? hour now) with true by lia. cbn [orb].
    replace (Qlt_bool (inject_Z tol)
               (total_minutes (sub now (with_time now x 0 0 0)))) with false.
    + exact IH.
    + symmetry. apply not_true_iff_false. rewrite Qlt_bool_true.
      rewrite total_minutes_gt. lia.
Qed.

Lemma get_next_today (now : datetime) (l : list Z) (m : Z) :
  0 <= m <= 23 -> In m l -> hour now < m ->
  (forall x, In x l -> hour now < x -> m <= x) ->
  get_next_scheduled_time now l = Return (with_time now m 0 0 0).
Proof.
  intros Hr Hin Hm Hleast. unfold get_next_scheduled_time.
  rewrite (first_hour_after_least (hour now) m).
  - apply replace_time_hour, Hr.
  - apply sorted_ascending.
  - apply sorted_In, Hin.
  - exact Hm.
  - intros x Hx. apply Hleast, sorted_In, Hx.
Qed.

Lemma get_next_tomorrow (now tomorrow : datetime) (l : list Z) (m : Z) :
  0 <= m <= 23 -> In m l -> (forall x, In x l -> m <= x) ->
  (forall x, In x l -> x <= hour now) ->
  add_one_day now = Return tomorrow ->
  get_next_scheduled_time now l = Return (with_time tomorrow m 0 0 0).
Proof.
  intros Hr Hin Hleast Hpast Hday. unfold get_next_scheduled_time.
  rewrite first_hour_after_none
    by (intros x Hx; apply Hpast, sorted_In, Hx).
  rewrite Hday. cbn [mbind outcome_bind].
  rewrite (min_list_least m l Hin Hleast). cbn [mbind outcome_bind].
  apply replace_time_hour, Hr.
Qed.

End Waiting.

(** C3, as amended.  When no entry of the schedule is overdue or on
    schedule (every listed hour is still to come today, or is past by no
    more than the tolerance), the background service answers [waiting]
    and carries the least listed hour after the current hour, on the date
    of the clock, or else the least listed hour on the next calendar
    day.  With the Worker schedule this never applies at 03:00, where
    today's 00:00 entry is overdue; with the Publisher schedule 03:00
    gives [waiting] for today's 08:00. *)
Theorem waiting_verdict (now now' base : Py.datetime) (process_type : string)
  (schedule_hours : list Z) (tolerance m : Z) :
  Py.valid now = true ->
  Forall (fun x =>
            0 <= x <= 23
            /\ (Py.hour now < x
                \/ (x < Py.hour now
                    /\ Py.sub now (Py.with_time now x 0 0 0)
                       <= Py.minutes tolerance)))
         schedule_hours ->
  In m schedule_hours ->
  (base = now' /\ Py.hour now' < m
   /\ forall x, In x schedule_hours -> Py.hour now' < x -> m <= x)
  \/ (Py.add_one_day now' = Return base
      /\ (forall x, In x schedule_hours -> x <= Py.hour now')
      /\ forall x, In x schedule_hours -> m <= x) ->
  Background.check_process_schedule now now' process_type schedule_hours
    tolerance
  = Return {| Background.status := "waiting";
              Background.scheduled_time := None;
              Background.minutes_overdue := None;
              Background.next_scheduled :=
                Some (Py.isoformat (Py.with_time base m 0 0 0));
              Background.healthy := true |}.
Proof.
  intros Hv Hall Hin Hnext.
  assert (Hm : 0 <= m <= 23).
  { rewrite Forall_forall in Hall.
    apply list_elem_of_In, Hall in Hin. tauto. }
  unfold Background.check_process_schedule.
  rewrite (schedule_loop_none now tolerance schedule_hours Hv Hall).
  cbn [mbind outcome_bind].
  destruct Hnext as [(-> & Hlt & Hleast)|(Hday & Hpast & Hleast)].
  - rewrite (get_next_today now' schedule_hours m Hm Hin Hlt Hleast).
    reflexivity.
  - rewrite (get_next_tomorrow now' base schedule_hours m Hm Hin Hleast
               Hpast Hday).
    reflexivity.
Qed.

(** The Publisher schedule at 03:00 UTC: waiting for today's 08:00. *)
Lemma waiting_verdict_witness :
  Background.check_process_schedule
    (utc 2024 5 2 3 0 0) (utc 2024 5 2 3 0 0) "publisher"
    Background.publisher_schedule Background.publisher_tolerance
  = Return {| Background.status := "waiting";
              Background.scheduled_time := None;
              Background.minutes_overdue := None;
              Background.next_scheduled := Some "2024-05-02T08:00:00";
              Background.healthy := true |}.
Proof.
  apply (waiting_verdict (utc 2024 5 2 3 0 0) (utc 2024 5 2 3 0 0)
           (utc 2024 5 2 3 0 0) "publisher" [8] 60 8).
  - reflexivity.
  - constructor; [|constructor].
    split; [split; discriminate | left; reflexivity].
  - left. reflexivity.
  - left. split; [reflexivity|]. split; [reflexivity|].
    intros x [<-|[]] _. discriminate.
Defined.

(** The Worker schedule at 03:00 UTC: the verdict is [overdue], for
    today's 00:00, and not [waiting] for 06:00. *)
Lemma waiting_verdict_counterexample :
  Background.check_process_schedule
    (utc 2024 5 2 3 0 0) (utc 2024 5 2 3 0 0) "worker"
    Background.worker_schedule Background.worker_tolerance
  = Return {| Background.status := "overdue";
              Background.scheduled_time := Some "2024-05-02T00:00:00";
              Background.minutes_overdue := Some 180;
              Background.next_scheduled := None;
              Background.healthy := false |}.
Proof. reflexivity. Qed.
(** ** C4: the success-rate threshold *)

(** C4.  The Worker success rate is compared with 80 by a strict [<].
    Database service, for a non-empty set of observed runs: at exactly 80%
    the aggregation leaves the status [healthy] with no issue (and the
    verdict stays [healthy] when the schedule check reports nothing);
    strictly below 80% the status is [degraded], the issue
    [Low success rate: X%] is appended, and the schedule check cannot
    change that status.  API service, with a non-zero run count: at
    exactly 80% the checks change nothing in the reported verdict;
    strictly below 80% the status is [degraded] and the issue is appended
    to the reported ones. *)
Theorem success_rate_threshold
  (runs : list Updated.worker_run) (workers schedule_issues : list string)
  (h : ApiOnly.health_status) :
  runs <> [] ->
  default 0 (ApiOnly.recent_runs h) <> 0 ->
  let rate := Updated.rate_of runs in
  let api_rate := default 0%Q (ApiOnly.success_rate h) in
  let a := Updated.analyze_worker runs workers in
  ((rate == 80)%Q ->
     Updated.status a = "healthy" /\ Updated.issues a = []
     /\ Updated.status (Updated.apply_schedule_issues a []) = "healthy")
  /\ ((rate < 80)%Q ->
        Updated.status a = "degraded"
        /\ Updated.issues a = [Updated.low_success_rate rate]
        /\ Updated.status (Updated.apply_schedule_issues a schedule_issues)
           = "degraded"
        /\ In (Updated.low_success_rate rate)
              (Updated.issues
                 (Updated.apply_schedule_issues a schedule_issues)))
  /\ ((api_rate == 80)%Q -> ApiOnly.worker_checks h = h)
  /\ ((api_rate < 80)%Q ->
        ApiOnly.status (ApiOnly.worker_checks h) = "degraded"
        /\ ApiOnly.issues (ApiOnly.worker_checks h)
           = ApiOnly.issues h ++ [ApiOnly.low_success_rate api_rate]).
Proof.
  intros Hruns Hcount rate api_rate a.
  destruct runs as [|first rest]; [congruence|].
  split; [|split; [|split]].
  - intros Heq.
    assert (E : Py.Qlt_bool rate 80 = false).
    { apply Qlt_bool_false. rewrite Heq. apply Qle_refl. }
    subst a. unfold Updated.analyze_worker. fold rate. rewrite E.
    repeat split.
  - intros Hlt. apply Qlt_bool_true in Hlt.
    subst a. unfold Updated.analyze_worker. fold rate. rewrite Hlt.
    split; [reflexivity|]. split; [reflexivity|].
    destruct schedule_issues as [|i l].
    + split; [reflexivity | left; reflexivity].
    + split; [reflexivity | left; reflexivity].
  - intros Heq.
    assert (E : Py.Qlt_bool api_rate 80 = false).
    { apply Qlt_bool_false. rewrite Heq. apply Qle_refl. }
    unfold ApiOnly.worker_checks. fold api_rate. rewrite E.
    replace (default 0 (ApiOnly.recent_runs h) =? 0) with false by lia.
    reflexivity.
  - intros Hlt. apply Qlt_bool_true in Hlt.
    unfold ApiOnly.worker_checks. fold api_rate. rewrite Hlt.
    cbn [ApiOnly.recent_runs ApiOnly.append_issue ApiOnly.set_status].
    replace (default 0 (ApiOnly.recent_runs h) =? 0) with false by lia.
    split; reflexivity.
Qed.

(** Four completed runs out of five are not degraded; two out of three
    are; and a reported rate of 79.9% is. *)
Lemma success_rate_threshold_witness :
  let ok := Updated.mk_worker_run "completed" "2024-05-02T06:05:00+00:00" in
  let ko := Updated.mk_worker_run "failed" "2024-05-02T05:05:00+00:00" in
  let reported (rate : Q) :=
    ApiOnly.worker_status_of
      (ApiOnly.mk_api_status (Some "healthy") (Some 10) (Some rate)
                             None None None None false) in
  (Updated.status (Updated.analyze_worker [ok; ok; ko; ok; ok] []) = "healthy"
   /\ Updated.issues (Updated.analyze_worker [ok; ok; ko; ok; ok] []) = [])
  /\ (Updated.status (Updated.analyze_worker [ok; ko; ok] []) = "degraded"
      /\ Updated.issues (Updated.analyze_worker [ok; ko; ok] [])
         = ["Low success rate: 66.7%"])
  /\ ApiOnly.worker_checks (reported 80%Q) = reported 80%Q
  /\ (ApiOnly.status (ApiOnly.worker_checks (reported (799 # 10))) = "degraded"
      /\ ApiOnly.issues (ApiOnly.worker_checks (reported (799 # 10)))
         = ["Low success rate: 79.9%"]).
Proof.
  intros ok ko reported.
  destruct (success_rate_threshold [ok; ok; ko; ok; ok] [] [] (reported 80%Q))
    as (Heq & _ & Hapi & _); [discriminate | discriminate |].
  destruct (success_rate_threshold [ok; ko; ok] [] [] (reported (799 # 10)))
    as (_ & Hlt & _ & Hapi_lt); [discriminate | discriminate |].
  split; [|split; [|split]].
  - destruct Heq as (Hs & Hi & _); [vm_compute; reflexivity|].
    split; assumption.
  - destruct Hlt as (Hs & Hi & _); [vm_compute; reflexivity|].
    split; [exact Hs | exact Hi].
  - apply Hapi. vm_compute. reflexivity.
  - apply Hapi_lt. vm_compute. reflexivity.
Defined.
(** ** C5: the freshness threshold of the Publisher *)

(** For a timestamp without offset, or with a zero offset, the hours the
    services compute are the time elapsed between the two instants. *)
Lemma hours_since_utc (now t : Py.datetime) :
  Py.tzinfo now = None ->
  Py.tzinfo t = None \/ Py.tzinfo t = Some 0 ->
  Updated.hours_since now t = Py.total_hours (Py.instant now - Py.instant t).
Proof.
  intros Hn Ht. unfold Updated.hours_since, Py.sub, Py.instant.
  rewrite Hn. f_equal.
  replace (Py.to_us (Py.replace_tzinfo now (Py.tzinfo t))) with (Py.to_us now)
    by reflexivity.
  destruct Ht as [-> | ->]; simpl; lia.
Qed.



(** ** C6 and C9: the alert gate *)

Section AlertGate.
Import Py Alerts.

Variable cfg : config.

Lemma in_cooldown_true (now t : datetime) (last : gmap string datetime)
  (key : string) :
  last !! key = Some t ->
  sub now t < minutes (alert_cooldown_minutes cfg) ->
  in_cooldown cfg now last key = true.
Proof.
  intros Hl Hlt. unfold in_cooldown. rewrite Hl.
  apply Qlt_bool_true, total_minutes_lt, Hlt.
Qed.

Lemma in_cooldown_false (now t : datetime) (last : gmap string datetime)
  (key : string) :
  last !! key = Some t ->
  in_cooldown cfg now last key = false ->
  minutes (alert_cooldown_minutes cfg) <= sub now t.
Proof.
  unfold in_cooldown. intros ->. rewrite <- not_true_iff_false.
  rewrite Qlt_bool_true, total_minutes_lt. lia.
Qed.

Lemma in_cooldown_elapsed (now t : datetime) (last : gmap string datetime)
  (key : string) :
  last !! key = Some t ->
  minutes (alert_cooldown_minutes cfg) <= sub now t ->
  in_cooldown cfg now last key = false.
Proof.
  intros Hl Hge. unfold in_cooldown. rewrite Hl.
  apply not_true_iff_false. rewrite Qlt_bool_true, total_minutes_lt. lia.
Qed.

Lemma smtp_session_ok (srv : smtp_server) (msg : email) :
  (forall s, srv s = None) -> smtp_session cfg srv msg = ([msg], Return tt).
Proof.
  intros Hok. unfold smtp_session, step. rewrite !Hok.
  destruct (smtp_use_tls cfg); reflexivity.
Qed.

(** The session runs to its end only after the server took the message. *)
Lemma smtp_session_returns (srv : smtp_server) (msg : email)
  (accepted : list email) (u : unit) :
  smtp_session cfg srv msg = (accepted, Return u) ->
  accepted = [msg] /\ srv SendMessage = None /\ srv Quit = None.
Proof.
  unfold smtp_session, step.
  destruct (srv Connect); [intros [=]|].
  destruct (if smtp_use_tls cfg then _ else _); [|intros [=]].
  destruct (srv Login); [intros [=]|].
  destruct (srv SendMessage); [intros [=]|].
  destruct (srv Quit); [intros [=]|].
  intros [= <-]. repeat split.
Qed.

(** The two ways a call can end, seen from [last_alert_times]. *)
Lemma send_alert_cases (srv : smtp_server) (now : datetime)
  (subject message service_name : string) (st st' : alert_state)
  (lg : alert_log) :
  send_alert cfg srv now subject message service_name st = (st', lg) ->
  (lg = AlertSent
   /\ in_cooldown cfg now (last_alert_times st)
                  (alert_key service_name subject) = false
   /\ last_alert_times st'
      = <[alert_key service_name subject := now]> (last_alert_times st))
  \/ (lg <> AlertSent /\ last_alert_times st' = last_alert_times st).
Proof.
  unfold send_alert.
  destruct (negb (email_alerts_enabled cfg)).
  { intros [= <- <-]. right. split; [discriminate | reflexivity]. }
  destruct (in_cooldown cfg now _ _) eqn:Hc.
  { intros [= <- <-]. right. split; [discriminate | reflexivity]. }
  destruct (smtp_session cfg srv _) as [accepted [u|e]].
  - intros [= <- <-]. left. repeat split.
  - intros [= <- <-]. right. split; [discriminate | reflexivity].
Qed.

Hypothesis cooldown_nonneg : 0 <= alert_cooldown_minutes cfg.

(** [recorded st k t]: the time recorded for [k] is not before [t]. *)
Lemma recorded_step (a : attempt) (st st' : alert_state) (lg : alert_log)
  (k : string) (t : datetime) :
  send_attempt cfg a st = (st', lg) ->
  (exists t', last_alert_times st !! k = Some t' /\ to_us t <= to_us t') ->
  exists t', last_alert_times st' !! k = Some t' /\ to_us t <= to_us t'.
Proof.
  intros Hstep (t' & Hl & Hle).
  apply send_alert_cases in Hstep.
  destruct Hstep as [(_ & Hc & ->)|(_ & ->)]; [|exists t'; split; assumption].
  destruct (decide (alert_key (at_service a) (at_subject a) = k)) as [<-|Hne].
  - exists (at_now a). rewrite lookup_insert_eq. split; [reflexivity|].
    pose proof (in_cooldown_false _ _ _ _ Hl Hc) as Hge.
    unfold sub, minutes in Hge. lia.
  - exists t'. rewrite lookup_insert_ne by exact Hne. split; assumption.
Qed.

(** After a time [t] is recorded for a key, every later send for that key
    comes at least the cooldown after [t]. *)
Lemma later_sends_spaced (l : list attempt) (st : alert_state)
  (k : string) (t : datetime) (a : attempt) :
  (exists t', last_alert_times st !! k = Some t' /\ to_us t <= to_us t') ->
  In (a, AlertSent) (send_alerts cfg l st).2 ->
  alert_key (at_service a) (at_subject a) = k ->
  minutes (alert_cooldown_minutes cfg) <= sub (at_now a) t.
Proof.
  revert st. induction l as [|a0 r IH]; intros st Hrec Hin Hk; [destruct Hin|].
  cbn [send_alerts] in Hin.
  destruct (send_attempt cfg a0 st) as [st1 lg0] eqn:Hstep.
  destruct (send_alerts cfg r st1) as [st2 tr] eqn:Hrest.
  destruct Hin as [[= -> ->]|Hin].
  - destruct Hrec as (t' & Hl & Hle).
    apply send_alert_cases in Hstep.
    destruct Hstep as [(_ & Hc & _)|(Hne & _)]; [|congruence].
    rewrite Hk in Hc.
    pose proof (in_cooldown_false _ _ _ _ Hl Hc) as Hge.
    unfold sub in *. lia.
  - apply (IH st1); [|rewrite Hrest; exact Hin | exact Hk].
    eapply recorded_step; eassumption.
Qed.

Lemma sends_spaced (l : list attempt) (st : alert_state)
  (pre mid post : list (attempt * alert_log)) (a1 a2 : attempt) :
  (send_alerts cfg l st).2
  = pre ++ (a1, AlertSent) :: mid ++ (a2, AlertSent) :: post ->
  alert_key (at_service a1) (at_subject a1)
  = alert_key (at_service a2) (at_subject a2) ->
  minutes (alert_cooldown_minutes cfg) <= sub (at_now a2) (at_now a1).
Proof.
  revert l st. induction pre as [|e pre IH]; intros l st Htr Hk.
  - destruct l as [|a0 r]; [discriminate|].
    cbn [send_alerts] in Htr.
    destruct (send_attempt cfg a0 st) as [st1 lg0] eqn:Hstep.
    destruct (send_alerts cfg r st1) as [st2 tr] eqn:Hrest.
    injection Htr as -> -> ->.
    apply (later_sends_spaced r st1
             (alert_key (at_service a1) (at_subject a1))).
    + apply send_alert_cases in Hstep.
      destruct Hstep as [(_ & _ & ->)|(Hne & _)]; [|congruence].
      exists (at_now a1). rewrite lookup_insert_eq. split; [reflexivity|lia].
    + rewrite Hrest. cbn. apply in_or_app. right. left. reflexivity.
    + symmetry. exact Hk.
  - destruct l as [|a0 r]; [discriminate|].
    cbn [send_alerts] in Htr.
    destruct (send_attempt cfg a0 st) as [st1 lg0] eqn:Hstep.
    destruct (send_alerts cfg r st1) as [st2 tr] eqn:Hrest.
    injection Htr as _ Htr.
    apply (IH r st1); [rewrite Hrest; exact Htr | exact Hk].
Qed.

End AlertGate.

(** C6.  With alerts enabled and a cooldown of [alert_cooldown_minutes]
    (30 by default): once a send for a (service, subject) pair is recorded
    at [t], a call for the same pair less than the cooldown after [t]
    returns at the cooldown test and changes nothing, however often it is
    repeated; a call at or after the cooldown goes to the server and, when
    the server takes it, is sent and recorded at its own time.  In any
    sequence of calls, two sends for the same pair are at least the
    cooldown apart. *)
Theorem alert_cooldown (cfg : Alerts.config) (srv : Alerts.smtp_server)
  (now t : Py.datetime) (subject message service_name : string)
  (st st0 : Alerts.alert_state) (l : list Alerts.attempt)
  (pre mid post : list (Alerts.attempt * Alerts.alert_log))
  (a1 a2 : Alerts.attempt) :
  Alerts.email_alerts_enabled cfg = true ->
  0 <= Alerts.alert_cooldown_minutes cfg ->
  Alerts.last_alert_times st !! Alerts.alert_key service_name subject
  = Some t ->
  (Alerts.send_alerts cfg l st0).2
  = pre ++ (a1, Alerts.AlertSent) :: mid ++ (a2, Alerts.AlertSent) :: post ->
  Alerts.at_service a1 = Alerts.at_service a2 ->
  Alerts.at_subject a1 = Alerts.at_subject a2 ->
  (Py.sub now t < Py.minutes (Alerts.alert_cooldown_minutes cfg) ->
     Alerts.send_alert cfg srv now subject message service_name st
     = (st, Alerts.CooldownActive))
  /\ (Py.minutes (Alerts.alert_cooldown_minutes cfg) <= Py.sub now t ->
        (forall s, srv s = None) ->
        Alerts.send_alert cfg srv now subject message service_name st
        = ({| Alerts.last_alert_times :=
                <[Alerts.alert_key service_name subject := now]>
                  (Alerts.last_alert_times st);
              Alerts.outbox :=
                Alerts.outbox st
                ++ [Alerts.alert_message cfg now subject message service_name]
           |}, Alerts.AlertSent))
  /\ Py.minutes (Alerts.alert_cooldown_minutes cfg)
     <= Py.sub (Alerts.at_now a2) (Alerts.at_now a1).
Proof.
  intros Hen Hcd Hlast Htr Hsvc Hsubj. split; [|split].
  - intros Hlt. unfold Alerts.send_alert. rewrite Hen. cbn [negb].
    rewrite (in_cooldown_true cfg now t _ _ Hlast Hlt). reflexivity.
  - intros Hge Hok. unfold Alerts.send_alert. rewrite Hen. cbn [negb].
    rewrite (in_cooldown_elapsed cfg now t _ _ Hlast Hge).
    rewrite (smtp_session_ok cfg srv _ Hok). reflexivity.
  - apply (sends_spaced cfg Hcd l st0 pre mid post a1 a2 Htr).
    rewrite Hsvc, Hsubj. reflexivity.
Qed.

(** With the default 30 minutes and a send recorded at 12:00: a call at
    12:29 is suppressed, a call at 12:31 is sent; and of three calls at
    12:00, 12:10 and 12:31 the second is suppressed. *)
Lemma alert_cooldown_witness :
  let cfg := ApiOnly.load_config "monitor@example.org" "ops@example.org" in
  let srv : Alerts.smtp_server := fun _ => None in
  let subject := "Worker Service Degraded" in
  let st :=
    {| Alerts.last_alert_times :=
         {[ Alerts.alert_key "worker" subject := utc 2024 5 2 12 0 0 ]};
       Alerts.outbox := [] |} in
  let call (mi : Z) :=
    Alerts.mk_attempt srv (utc 2024 5 2 12 mi 0) subject "issues" "worker" in
  Alerts.send_alert cfg srv (utc 2024 5 2 12 29 0) subject "issues" "worker" st
  = (st, Alerts.CooldownActive)
  /\ (Alerts.send_alert cfg srv (utc 2024 5 2 12 31 0) subject "issues"
                        "worker" st).2 = Alerts.AlertSent
  /\ (Alerts.send_alerts cfg [call 0; call 10; call 31]
        {| Alerts.last_alert_times := ∅; Alerts.outbox := [] |}).2
     = [(call 0, Alerts.AlertSent); (call 10, Alerts.CooldownActive);
        (call 31, Alerts.AlertSent)]
  /\ Py.minutes 30 <= Py.sub (utc 2024 5 2 12 31 0) (utc 2024 5 2 12 0 0).
Proof.
  intros cfg srv subject st call.
  assert (Htrace :
    (Alerts.send_alerts cfg [call 0; call 10; call 31]
       {| Alerts.last_alert_times := ∅; Alerts.outbox := [] |}).2
    = [] ++ (call 0, Alerts.AlertSent)
         :: [(call 10, Alerts.CooldownActive)]
         ++ (call 31, Alerts.AlertSent) :: []) by (vm_compute; reflexivity).
  destruct (alert_cooldown cfg srv (utc 2024 5 2 12 29 0)
              (utc 2024 5 2 12 0 0) subject "issues" "worker" st _ _ _ _ _
              (call 0) (call 31) eq_refl ltac:(discriminate) eq_refl Htrace
              eq_refl eq_refl) as (Hearly & _ & Hapart).
  destruct (alert_cooldown cfg srv (utc 2024 5 2 12 31 0)
              (utc 2024 5 2 12 0 0) subject "issues" "worker" st _ _ _ _ _
              (call 0) (call 31) eq_refl ltac:(discriminate) eq_refl Htrace
              eq_refl eq_refl) as (_ & Hlate & _).
  split; [apply Hearly; reflexivity|].
  split; [rewrite Hlate; [reflexivity | discriminate | reflexivity]|].
  split; [exact Htrace | exact Hapart].
Defined.

(** C9.  [send_alert] records the time of a call only when every step of
    the SMTP session, [quit] included, ran without raising, hence after
    the server took the message; when a step that the call goes through
    raises, [last_alert_times] is left as it was and no cooldown starts. *)
Theorem failed_send_keeps_cooldown (cfg : Alerts.config)
  (srv : Alerts.smtp_server) (now : Py.datetime)
  (subject message service_name : string) (st st' : Alerts.alert_state)
  (lg : Alerts.alert_log) :
  Alerts.send_alert cfg srv now subject message service_name st = (st', lg) ->
  ((lg = Alerts.AlertSent
    /\ (forall s, Alerts.executed cfg s = true -> srv s = None)
    /\ Alerts.last_alert_times st'
       = <[Alerts.alert_key service_name subject := now]>
           (Alerts.last_alert_times st)
    /\ Alerts.outbox st'
       = Alerts.outbox st
         ++ [Alerts.alert_message cfg now subject message service_name])
   \/ (lg <> Alerts.AlertSent
       /\ Alerts.last_alert_times st' = Alerts.last_alert_times st))
  /\ forall s e,
      Alerts.executed cfg s = true -> srv s = Some e ->
      lg <> Alerts.AlertSent
      /\ Alerts.last_alert_times st' = Alerts.last_alert_times st
      /\ forall later,
          Alerts.in_cooldown cfg later (Alerts.last_alert_times st')
            (Alerts.alert_key service_name subject)
          = Alerts.in_cooldown cfg later (Alerts.last_alert_times st)
              (Alerts.alert_key service_name subject).
Proof.
  intros Hcall.
  assert (Hcases :
    (lg = Alerts.AlertSent
     /\ (forall s, Alerts.executed cfg s = true -> srv s = None)
     /\ Alerts.last_alert_times st'
        = <[Alerts.alert_key service_name subject := now]>
            (Alerts.last_alert_times st)
     /\ Alerts.outbox st'
        = Alerts.outbox st
          ++ [Alerts.alert_message cfg now subject message service_name])
    \/ (lg <> Alerts.AlertSent
        /\ Alerts.last_alert_times st' = Alerts.last_alert_times st)).
  { revert Hcall. unfold Alerts.send_alert.
    destruct (negb (Alerts.email_alerts_enabled cfg)).
    { intros [= <- <-]. right. split; [discriminate | reflexivity]. }
    destruct (Alerts.in_cooldown cfg now _ _).
    { intros [= <- <-]. right. split; [discriminate | reflexivity]. }
    unfold Alerts.smtp_session, Alerts.step.
    destruct (srv Alerts.Connect) eqn:Hc;
      [intros [= <- <-]; right; split; [discriminate | reflexivity]|].
    destruct (Alerts.smtp_use_tls cfg) eqn:Htls.
    - destruct (srv Alerts.StartTLS) eqn:Ht;
        [intros [= <- <-]; right; split; [discriminate | reflexivity]|].
      destruct (srv Alerts.Login) eqn:Hl;
        [intros [= <- <-]; right; split; [discriminate | reflexivity]|].
      destruct (srv Alerts.SendMessage) eqn:Hm;
        [intros [= <- <-]; right; split; [discriminate | reflexivity]|].
      destruct (srv Alerts.Quit) eqn:Hq;
        [intros [= <- <-]; right; split; [discriminate | reflexivity]|].
      intros [= <- <-]. left. split; [reflexivity|].
      split; [|split; reflexivity].
      intros [] Hex; assumption.
    - destruct (srv Alerts.Login) eqn:Hl;
        [intros [= <- <-]; right; split; [discriminate | reflexivity]|].
      destruct (srv Alerts.SendMessage) eqn:Hm;
        [intros [= <- <-]; right; split; [discriminate | reflexivity]|].
      destruct (srv Alerts.Quit) eqn:Hq;
        [intros [= <- <-]; right; split; [discriminate | reflexivity]|].
      intros [= <- <-]. left. split; [reflexivity|].
      split; [|split; reflexivity].
      intros [] Hex; try assumption.
      cbn [Alerts.executed] in Hex. congruence. }
  split; [exact Hcases|].
  intros s e Hex Hs.
  destruct Hcases as [(_ & Hok & _)|(Hne & Heq)].
  - rewrite (Hok s Hex) in Hs. discriminate.
  - split; [exact Hne|]. split; [exact Heq|].
    intros later. rewrite Heq. reflexivity.
Qed.

(** The server refuses the login: nothing is recorded, and so does a
    server that takes the message and then fails on [quit]. *)
Lemma failed_send_keeps_cooldown_witness :
  let cfg := Updated.load_config "monitor@example.org" "ops@example.org" in
  let refuses (failing : Alerts.smtp_step) : Alerts.smtp_server :=
    fun s =>
      match failing, s with
      | Alerts.Login, Alerts.Login | Alerts.Quit, Alerts.Quit =>
          Some "connection lost"
      | _, _ => None
      end in
  let st := {| Alerts.last_alert_times := ∅; Alerts.outbox := [] |} in
  let call srv :=
    Alerts.send_alert cfg srv (utc 2024 5 2 12 0 0)
      "Worker Service Degraded" "issues" "worker" st in
  ((call (refuses Alerts.Login)).2 <> Alerts.AlertSent
   /\ Alerts.last_alert_times (call (refuses Alerts.Login)).1 = ∅)
  /\ ((call (refuses Alerts.Quit)).2 <> Alerts.AlertSent
      /\ Alerts.last_alert_times (call (refuses Alerts.Quit)).1 = ∅).
Proof.
  intros cfg refuses st call.
  split.
  - destruct (failed_send_keeps_cooldown cfg (refuses Alerts.Login)
                (utc 2024 5 2 12 0 0) "Worker Service Degraded" "issues"
                "worker" st (call (refuses Alerts.Login)).1
                (call (refuses Alerts.Login)).2) as [_ Hfail].
    { unfold call. apply surjective_pairing. }
    destruct (Hfail Alerts.Login "connection lost" eq_refl eq_refl)
      as (Hlg & Hlast & _).
    split; [exact Hlg | exact Hlast].
  - destruct (failed_send_keeps_cooldown cfg (refuses Alerts.Quit)
                (utc 2024 5 2 12 0 0) "Worker Service Degraded" "issues"
                "worker" st (call (refuses Alerts.Quit)).1
                (call (refuses Alerts.Quit)).2) as [_ Hfail].
    { unfold call. apply surjective_pairing. }
    destruct (Hfail Alerts.Quit "connection lost" eq_refl eq_refl)
      as (Hlg & Hlast & _).
    split; [exact Hlg | exact Hlast].
Defined.

(** ** C7: issues and status *)

Section Invariant.







(** The schedule evaluator answers one of three statuses. *)
Lemma schedule_loop_status (now : Py.datetime) (tol : Z) (l : list Z)
  (st : Background.schedule_status) :
  Background.schedule_loop now tol l = Return (Some st) ->
  Background.status st = "overdue" \/ Background.status st = "on_schedule".
Proof.
  induction l as [|x l IH]; [discriminate|].
  cbn [Background.schedule_loop].
  destruct (Py.replace_time now x 0 0 0) as [d|e]; [|discriminate].
  cbn [mbind outcome_bind].
  destruct (_ || _).
  - destruct (Py.Qlt_bool _ _); [|exact IH].
    intros [= <-]. left. reflexivity.
  - destruct (_ && _); [|exact IH].
    intros [= <-]. right. reflexivity.
Qed.

End Invariant.




(** ** C8: timestamps that cannot be read *)

(** C8, as amended.  When the text of the latest generation timestamp
    cannot be read, both health checks return a verdict.  The database
    service returns status [error] with the issue
    [Health check failed: ...] carrying the message of the failure.  The
    API service appends the issue [Invalid generation timestamp: ...] and
    leaves the status the API reported, unless the reported count of
    recent newsletters is zero, which makes it [inactive]. *)
Theorem unreadable_timestamp
  (db : Updated.supabase) (sch : Updated.schedule)
  (now now_f now_s api_now : Py.datetime)
  (first : Updated.newsletter) (rest : list Updated.newsletter)
  (r : ApiOnly.api_status) (s e : string) :
  Updated.newsletters_since db (Py.to_us now - Py.hours 24)
  = Return (first :: rest) ->
  Updated.generated_at first = Some s ->
  ApiOnly.api_last_generation r = Some s ->
  s <> "" ->
  Py.fromisoformat (Py.replace_Z s) = Raise e ->
  let v := Updated.check_publisher_health db sch now now_f now_s in
  let w := ApiOnly.check_publisher_health (Return (Some r)) api_now in
  (Updated.status v = "error"
   /\ Updated.issues v = ["Health check failed: " +:+ e])
  /\ ApiOnly.status w
     = (if default 0 (ApiOnly.api_recent_newsletters r) =? 0
        then "inactive" else default "unknown" (ApiOnly.api_state r))
  /\ ApiOnly.issues w
     = (default [] (ApiOnly.api_issues r)
        ++ ["Invalid generation timestamp: " +:+ e])
       ++ (if default 0 (ApiOnly.api_recent_newsletters r) =? 0
           then ["No recent newsletter generation"] else []).
Proof.
  intros Hrows Hgen Hlast Hs Hparse v w.
  split.
  - subst v. unfold Updated.check_publisher_health. rewrite Hrows.
    unfold Updated.analyze_publisher. rewrite Hgen.
    destruct s as [|c s']; [congruence|]. rewrite Hparse.
    cbn [mbind outcome_bind]. split; reflexivity.
  - subst w. unfold ApiOnly.check_publisher_health.
    assert (Hne : ApiOnly.nonempty r = true).
    { unfold ApiOnly.nonempty. rewrite Hlast.
      rewrite (bool_decide_eq_true_2 (is_Some (Some s))) by eauto.
      rewrite !orb_true_r. reflexivity. }
    rewrite Hne. cbn [negb].
    unfold ApiOnly.freshness_check.
    cbn [ApiOnly.last_generation ApiOnly.publisher_status_of].
    rewrite Hlast. destruct s as [|c s']; [congruence|]. rewrite Hparse.
    unfold ApiOnly.inactivity_check.
    cbn [ApiOnly.recent_newsletters ApiOnly.append_issue
         ApiOnly.publisher_status_of].
    change (default 0 (Some (default 0 (ApiOnly.api_recent_newsletters r))))
      with (default 0 (ApiOnly.api_recent_newsletters r)).
    destruct (default 0 (ApiOnly.api_recent_newsletters r) =? 0).
    + split; reflexivity.
    + split; [reflexivity|]. cbn [ApiOnly.issues].
      rewrite app_nil_r. reflexivity.
Qed.

(** A timestamp with five fractional digits, which
    [datetime.fromisoformat] rejects. *)
Lemma unreadable_timestamp_witness :
  let s := "2024-05-02 09:00:00.12345+00" in
  let row :=
    (Some (Py.to_us (Py.mkdatetime 2024 5 2 9 0 0 123450 None)),
     Updated.mk_newsletter "n1" (Some s)) in
  let db := MemDb.connect (MemDb.mk_tables [] [] [row]) in
  let now := utc 2024 5 2 13 0 0 in
  let r :=
    ApiOnly.mk_api_status (Some "healthy") None None None (Some 3) (Some s)
                          None false in
  let v := Updated.check_publisher_health db Updated.publisher_schedule
             now now now in
  let w := ApiOnly.check_publisher_health (Return (Some r)) now in
  (Updated.status v = "error"
   /\ Updated.issues v
      = ["Health check failed: Invalid isoformat string: "
         +:+ Py.repr s])
  /\ ApiOnly.status w = "healthy"
  /\ ApiOnly.issues w
     = ["Invalid generation timestamp: Invalid isoformat string: "
        +:+ Py.repr s].
Proof.
  intros s row db now r v w.
  exact (unreadable_timestamp db Updated.publisher_schedule now now now now
           (Updated.mk_newsletter "n1" (Some s)) [] r s
           ("Invalid isoformat string: " +:+ Py.repr s)
           eq_refl eq_refl eq_refl ltac:(discriminate) eq_refl).
Defined.

(** The API reports a healthy Publisher with three recent newsletters and
    a timestamp that cannot be read: the verdict is returned with the
    status [healthy], neither [error] nor [degraded]. *)
Lemma unreadable_timestamp_counterexample :
  let r :=
    ApiOnly.mk_api_status (Some "healthy") None None None (Some 3)
                          (Some "not-a-date") None false in
  let w := ApiOnly.check_publisher_health (Return (Some r))
             (utc 2024 5 2 13 0 0) in
  Py.fromisoformat (Py.replace_Z "not-a-date")
  = Raise ("Invalid isoformat string: " +:+ Py.repr "not-a-date")
  /\ ApiOnly.status w = "healthy"
  /\ ApiOnly.status w <> "error" /\ ApiOnly.status w <> "degraded"
  /\ ApiOnly.issues w
     = ["Invalid generation timestamp: Invalid isoformat string: "
        +:+ Py.repr "not-a-date"].
Proof. repeat split; discriminate. Qed.

(** ** C10: freshness in the database service *)

Section Window.
Import Py Updated.

Lemma hours_since_wall (now t : datetime) :
  hours_since now t = total_hours (to_us now - to_us t).
Proof. reflexivity. Qed.

Lemma instant_utc (t : datetime) :
  tzinfo t = None \/ tzinfo t = Some 0 -> instant t = to_us t.
Proof. unfold instant. intros [-> | ->]; simpl; lia. Qed.

Lemma total_hours_plus (a b : Z) :
  (total_hours (a + b)%Z == total_hours a + total_hours b)%Q.
Proof. unfold total_hours, Qeq, Qplus; simpl. lia. Qed.

Lemma check_publisher_schedule_cases (db : supabase) (sch : schedule)
  (now : datetime) :
  check_publisher_schedule db sch now = []
  \/ (exists t, check_publisher_schedule db sch now = [missed_generation t])
  \/ (exists e,
         check_publisher_schedule db sch now = [schedule_check_failed e]).
Proof.
  unfold check_publisher_schedule, publisher_schedule_body.
  destruct (replace_time now 0 0 0 0) as [today|e]; [|right; right; eauto].
  cbn [mbind outcome_bind].
  destruct (times sch) as [|t ts]; [right; right; eauto|].
  cbn [mbind outcome_bind].
  destruct (parse_hour_minute t) as [[h mi]|e]; [|right; right; eauto].
  cbn [mbind outcome_bind].
  destruct (replace_hm today h mi) as [d|e]; [|right; right; eauto].
  cbn [mbind outcome_bind].
  destruct (past_deadline now d _); [|left; reflexivity].
  destruct (newsletters_between db _ _) as [[|n l]|e];
    [right; left; eauto | left; reflexivity | right; right; eauto].
Qed.

End Window.

(** C10, as amended.  In the database service, when the first row the
    query returns carries a timestamp with no offset or a zero offset
    that lies within the 24 hours before the clock read of the query, the
    hours since the last generation are at most 24 plus the time between
    that clock read and the one of the freshness test; if this is at most
    an hour the test [> 25] fails, the verdict is [healthy] unless the
    schedule check reports an issue, and no issue
    [No generation in X hours] is listed.  With no row in the window the
    status is [inactive]. *)
Theorem freshness_within_window
  (db db0 : Updated.supabase) (sch : Updated.schedule)
  (now now_f now_s : Py.datetime)
  (first : Updated.newsletter) (rest : list Updated.newsletter)
  (s : string) (t : Py.datetime) :
  Updated.newsletters_since db (Py.to_us now - Py.hours 24)
  = Return (first :: rest) ->
  Updated.generated_at first = Some s ->
  Py.fromisoformat (Py.replace_Z s) = Return t ->
  Py.to_us now - Py.hours 24 <= Py.instant t ->
  Py.tzinfo t = None \/ Py.tzinfo t = Some 0 ->
  Py.to_us now_f <= Py.to_us now + Py.hours 1 ->
  Updated.newsletters_since db0 (Py.to_us now - Py.hours 24) = Return [] ->
  let elapsed := Updated.hours_since now_f t in
  let v := Updated.check_publisher_health db sch now now_f now_s in
  let v0 := Updated.check_publisher_health db0 sch now now_f now_s in
  (elapsed <= 24 + Py.total_hours (Py.to_us now_f - Py.to_us now)%Z)%Q
  /\ (elapsed <= 25)%Q
  /\ Updated.status v
     = match Updated.check_publisher_schedule db sch now_s with
       | [] => "healthy"
       | _ => "degraded"
       end
  /\ Updated.issues v = Updated.check_publisher_schedule db sch now_s
  /\ (forall x, ~ In (Updated.no_generation x) (Updated.issues v))
  /\ Updated.status v0 = "inactive"
  /\ In "No recent newsletter generation" (Updated.issues v0).
Proof.
  intros Hrows Hgen Hparse Hwin Htz Hclock Hnone elapsed v v0.
  rewrite (instant_utc t Htz) in Hwin.
  assert (Hle : Py.to_us now_f - Py.to_us t <= Py.hours 25).
  { unfold Py.hours in *. lia. }
  assert (H25 : (elapsed <= 25)%Q).
  { apply (total_hours_le 25). exact Hle. }
  assert (Hv : v = Updated.apply_schedule_issues
                     (Updated.mk_health_status "publisher" "healthy" None None
                        None None (Some (Z.of_nat (length (first :: rest))))
                        (Some s) [] None)
                     (Updated.check_publisher_schedule db sch now_s)).
  { subst v. unfold Updated.check_publisher_health. rewrite Hrows.
    unfold Updated.analyze_publisher. rewrite Hgen.
    destruct s as [|c s']; [discriminate Hparse|]. rewrite Hparse.
    cbn [mbind outcome_bind]. fold elapsed.
    apply Qlt_bool_false in H25. rewrite H25. reflexivity. }
  split; [|split; [exact H25|]].
  - subst elapsed. rewrite hours_since_wall.
    replace (Py.to_us now_f - Py.to_us t)
      with (Py.hours 24 + (Py.to_us now_f - Py.to_us now
                           - (Py.to_us t - (Py.to_us now - Py.hours 24))))
      by lia.
    rewrite total_hours_plus.
    apply Qplus_le_compat.
    + apply (total_hours_le 24). lia.
    + unfold Qle, Py.total_hours; simpl. lia.
  - assert (Hv0 : Updated.status v0 = "inactive"
                  /\ In "No recent newsletter generation" (Updated.issues v0)).
    { subst v0. unfold Updated.check_publisher_health. rewrite Hnone.
      cbn [Updated.analyze_publisher]. unfold Updated.apply_schedule_issues.
      destruct (Updated.check_publisher_schedule db0 sch now_s);
        split; first [reflexivity | left; reflexivity]. }
    rewrite Hv.
    destruct (check_publisher_schedule_cases db sch now_s)
      as [E|[[m E]|[e E]]]; rewrite E.
    + split; [reflexivity|]. split; [reflexivity|].
      split; [intros x []|exact Hv0].
    + split; [reflexivity|]. split; [reflexivity|].
      split; [|exact Hv0]. intros x [Hx|[]]. discriminate Hx.
    + split; [reflexivity|]. split; [reflexivity|].
      split; [|exact Hv0]. intros x [Hx|[]]. discriminate Hx.
Qed.

(** A newsletter generated at 08:05 UTC, checked just after 13:00 UTC:
    [healthy], with no issue. *)
Lemma freshness_within_window_witness :
  let s := "2024-05-02T08:05:00+00:00" in
  let db :=
    MemDb.connect (MemDb.mk_tables [] [] [MemDb.newsletter_at "n1" s]) in
  let db0 := MemDb.connect (MemDb.mk_tables [] [] []) in
  let now := utc 2024 5 2 13 0 0 in
  let now_f := utc 2024 5 2 13 0 2 in
  let v := Updated.check_publisher_health db Updated.publisher_schedule
             now now_f now_f in
  let v0 := Updated.check_publisher_health db0 Updated.publisher_schedule
              now now_f now_f in
  Updated.status v = "healthy" /\ Updated.issues v = []
  /\ Updated.status v0 = "inactive".
Proof.
  intros s db db0 now now_f v v0.
  destruct (freshness_within_window db db0 Updated.publisher_schedule
              now now_f now_f (Updated.mk_newsletter "n1" (Some s)) [] s
              (Py.mkdatetime 2024 5 2 8 5 0 0 (Some 0)))
    as (_ & _ & Hs & Hi & _ & H0 & _).
  - reflexivity.
  - reflexivity.
  - reflexivity.
  - vm_compute. discriminate.
  - right. reflexivity.
  - vm_compute. discriminate.
  - reflexivity.
  - split; [exact Hs|]. split; [exact Hi | exact H0].
Defined.

(** The branch is reached from inside the window.  A row generated 22
    hours before the check, whose timestamp the database renders with the
    offset -05:00, is returned by the query and yields [degraded] with
    [No generation in 27.0 hours].  And the hours exceed 24 for a row at
    the edge of the window as soon as the clock has moved between the
    query and the test. *)
Lemma freshness_within_window_counterexample :
  let s := "2024-05-01T10:00:00-05:00" in
  let db :=
    MemDb.connect (MemDb.mk_tables [] [] [MemDb.newsletter_at "n1" s]) in
  let now := utc 2024 5 2 13 0 0 in
  let t := Py.mkdatetime 2024 5 1 10 0 0 0 (Some (- Py.hours 5)) in
  let v := Updated.check_publisher_health db Updated.publisher_schedule
             now now now in
  Updated.newsletters_since db (Py.to_us now - Py.hours 24)
  = Return [Updated.mk_newsletter "n1" (Some s)]
  /\ Py.fromisoformat (Py.replace_Z s) = Return t
  /\ Py.to_us now - Py.instant t = Py.hours 22
  /\ Updated.hours_since now t = Py.total_hours (Py.hours 27)
  /\ Updated.status v = "degraded"
  /\ In "No generation in 27.0 hours" (Updated.issues v)
  /\ (24 < Updated.hours_since (utc 2024 5 2 13 0 2)
                               (Py.mkdatetime 2024 5 1 13 0 0 0 (Some 0%Z)))%Q.
Proof.
  intros s db now t v.
  split; [vm_compute; reflexivity|]. split; [vm_compute; reflexivity|].
  split; [vm_compute; reflexivity|]. split; [vm_compute; reflexivity|].
  split; [vm_compute; reflexivity|].
  split; [vm_compute; left; reflexivity|].
  vm_compute. reflexivity.
Qed.

(** * Further properties *)

(** ** The schedule evaluator of the background service, continued *)

Section BackgroundVerdicts.
Import Py Background.

Lemma replace_time_hour_inv (d d' : datetime) (h : Z) :
  replace_time d h 0 0 0 = Return d' ->
  0 <= h <= 23 /\ d' = with_time d h 0 0 0.
Proof.
  unfold replace_time, check_time_fields, in_range.
  destruct (0 <=? h) eqn:E1; destruct (h <=? 23) eqn:E2;
    cbn; try discriminate.
  intros [= <-]. split; [lia | reflexivity].
Qed.

(** A hour outside [0..23] makes [replace] raise. *)
Lemma replace_time_hour_raises (d : datetime) (h : Z) :
  ~ 0 <= h <= 23 -> replace_time d h 0 0 0 = Raise "hour must be in 0..23".
Proof.
  intros Hh. unfold replace_time, check_time_fields, in_range.
  destruct (0 <=? h) eqn:E1; destruct (h <=? 23) eqn:E2;
    cbn; try reflexivity.
  lia.
Qed.

(** What a [return] inside the loop says about the entry it is for. *)
Lemma schedule_loop_sound (now : datetime) (tol : Z) (l : list Z)
  (st : schedule_status) :
  schedule_loop now tol l = Return (Some st) ->
  exists h,
    In h l /\ 0 <= h <= 23 /\ h <= hour now
    /\ ((st = overdue_status (with_time now h 0 0 0)
                             (sub now (with_time now h 0 0 0))
         /\ minutes tol < sub now (with_time now h 0 0 0))
        \/ (st = on_schedule_status (with_time now h 0 0 0)
            /\ h = hour now /\ minute now <= tol)).
Proof.
  induction l as [|x l IH]; [discriminate|].
  cbn [schedule_loop].
  destruct (replace_time now x 0 0 0) as [d|e] eqn:Hr; [|discriminate].
  apply replace_time_hour_inv in Hr. destruct Hr as [Hx ->].
  cbn [mbind outcome_bind].
  assert (Hrest : schedule_loop now tol l = Return (Some st) ->
                  exists h, In h (x :: l) /\ 0 <= h <= 23 /\ h <= hour now
                    /\ ((st = overdue_status (with_time now h 0 0 0)
                                  (sub now (with_time now h 0 0 0))
                         /\ minutes tol < sub now (with_time now h 0 0 0))
                        \/ (st = on_schedule_status (with_time now h 0 0 0)
                            /\ h = hour now /\ minute now <= tol))).
  { intros H. destruct (IH H) as (h & Hin & Hrest). exists h.
    split; [right; exact Hin | exact Hrest]. }
  destruct ((x <? hour now) || (x =? hour now) && (tol <? minute now))
    eqn:Hc1.
  - destruct (Qlt_bool _ _) eqn:Hq; [|exact Hrest].
    intros [= <-]. exists x. split; [left; reflexivity|].
    split; [exact Hx|]. split; [lia|]. left. split; [reflexivity|].
    apply total_minutes_gt, Qlt_bool_true, Hq.
  - destruct ((x =? hour now) && (minute now <=? tol)) eqn:Hc2;
      [|exact Hrest].
    intros [= <-]. exists x. split; [left; reflexivity|].
    split; [exact Hx|]. split; [lia|]. right.
    split; [reflexivity | lia].
Qed.

(** With hour 0 listed and a tolerance under an hour, some entry always
    answers. *)
Lemma schedule_loop_answers (now : datetime) (tol : Z) (l : list Z) :
  valid now = true -> 0 <= tol < 60 ->
  Forall (fun x => 0 <= x <= 23) l -> In 0 l ->
  exists st, schedule_loop now tol l = Return (Some st).
Proof.
  intros Hv Htol Hall. pose proof (valid_time_fields now Hv) as Hf.
  induction Hall as [|x l Hx _ IH]; intros Hin; [destruct Hin|].
  cbn [schedule_loop]. rewrite replace_time_hour by exact Hx.
  cbn [mbind outcome_bind].
  destruct ((x <? hour now) || (x =? hour now) && (tol <? minute now))
    eqn:Hc1.
  - destruct (Qlt_bool _ _) eqn:Hq; [eauto|].
    destruct Hin as [->|Hin]; [|exact (IH Hin)].
    exfalso. apply not_true_iff_false in Hq. apply Hq.
    apply Qlt_bool_true, total_minutes_gt.
    rewrite sub_with_time. unfold minutes. lia.
  - destruct ((x =? hour now) && (minute now <=? tol)) eqn:Hc2; [eauto|].
    destruct Hin as [->|Hin]; [|exact (IH Hin)].
    exfalso. lia.
Qed.

End BackgroundVerdicts.

(** When the schedule lists hour 0, as the Worker schedule does, and the
    tolerance is under an hour, [check_process_schedule] never answers
    [waiting]: at every time of the day the verdict is [overdue] or
    [on_schedule]. *)
Theorem never_waiting_with_midnight (now now' : Py.datetime)
  (process_type : string) (schedule_hours : list Z) (tolerance : Z) :
  Py.valid now = true ->
  0 <= tolerance < 60 ->
  Forall (fun x => 0 <= x <= 23) schedule_hours ->
  In 0 schedule_hours ->
  exists st,
    Background.check_process_schedule now now' process_type schedule_hours
      tolerance = Return st
    /\ (Background.status st = "overdue"
        \/ Background.status st = "on_schedule").
Proof.
  intros Hv Htol Hall Hin.
  destruct (schedule_loop_answers now tolerance schedule_hours Hv Htol Hall Hin)
    as [st Hst].
  exists st. unfold Background.check_process_schedule. rewrite Hst.
  split; [reflexivity|]. exact (schedule_loop_status _ _ _ _ Hst).
Qed.

Lemma never_waiting_with_midnight_witness :
  exists st,
    Background.check_process_schedule
      (utc 2024 5 2 23 59 59) (utc 2024 5 2 23 59 59) "worker"
      Background.worker_schedule Background.worker_tolerance = Return st
    /\ (Background.status st = "overdue"
        \/ Background.status st = "on_schedule").
Proof.
  apply never_waiting_with_midnight.
  - reflexivity.
  - split; [discriminate | reflexivity].
  - repeat constructor; discriminate.
  - right; right; right; left; reflexivity.
Defined.

(** An [overdue] verdict is always for an hour of the schedule that has
    been reached on the date of the clock; it names that hour,
    [minutes_overdue] is the whole minutes since it and is at least the
    tolerance, and [healthy] is false. *)
Theorem overdue_verdict_sound (now now' : Py.datetime)
  (process_type : string) (schedule_hours : list Z) (tolerance : Z)
  (st : Background.schedule_status) :
  Py.valid now = true ->
  Background.check_process_schedule now now' process_type schedule_hours
    tolerance = Return st ->
  Background.status st = "overdue" ->
  exists h,
    In h schedule_hours /\ 0 <= h <= Py.hour now
    /\ Background.scheduled_time st
       = Some (Py.isoformat (Py.with_time now h 0 0 0))
    /\ Background.minutes_overdue st
       = Some ((Py.hour now - h) * 60 + Py.minute now)
    /\ tolerance <= (Py.hour now - h) * 60 + Py.minute now
    /\ Background.healthy st = false.
Proof.
  intros Hv Hcheck Hst. pose proof (valid_time_fields now Hv) as Hf.
  unfold Background.check_process_schedule in Hcheck.
  destruct (Background.schedule_loop now tolerance schedule_hours)
    as [[st'|]|e] eqn:Hloop; cbn [mbind outcome_bind] in Hcheck.
  - injection Hcheck as ->.
    destruct (schedule_loop_sound _ _ _ _ Hloop)
      as (h & Hin & Hh & Hle & [[-> Hlate]|[-> _]]); [|discriminate].
    exists h. split; [exact Hin|]. split; [lia|]. split; [reflexivity|].
    split; [apply minutes_overdue_whole; assumption|].
    split; [|reflexivity].
    rewrite sub_with_time in Hlate. unfold Py.minutes in Hlate. lia.
  - destruct (Background.get_next_scheduled_time now' schedule_hours);
      [|discriminate].
    injection Hcheck as <-. discriminate.
  - discriminate.
Qed.

Lemma overdue_verdict_sound_witness :
  let st :=
    Background.overdue_status (utc 2024 5 2 6 0 0)
      (Py.sub (utc 2024 5 2 13 0 0) (utc 2024 5 2 6 0 0)) in
  exists h,
    In h Background.worker_schedule /\ 0 <= h <= 13
    /\ Background.scheduled_time st
       = Some (Py.isoformat (Py.with_time (utc 2024 5 2 13 0 0) h 0 0 0))
    /\ Background.minutes_overdue st = Some ((13 - h) * 60 + 0)
    /\ 30 <= (13 - h) * 60 + 0
    /\ Background.healthy st = false.
Proof.
  exact (overdue_verdict_sound (utc 2024 5 2 13 0 0) (utc 2024 5 2 13 0 0)
           "worker" Background.worker_schedule Background.worker_tolerance
           (Background.overdue_status (utc 2024 5 2 6 0 0)
              (Py.sub (utc 2024 5 2 13 0 0) (utc 2024 5 2 6 0 0)))
           eq_refl eq_refl eq_refl).
Defined.

(** An [on_schedule] verdict is given only while the hour of the clock is
    an hour of the schedule and the minute of the hour is within the
    tolerance; it names that hour of the date of the clock. *)
Theorem on_schedule_verdict_sound (now now' : Py.datetime)
  (process_type : string) (schedule_hours : list Z) (tolerance : Z)
  (st : Background.schedule_status) :
  Background.check_process_schedule now now' process_type schedule_hours
    tolerance = Return st ->
  Background.status st = "on_schedule" ->
  In (Py.hour now) schedule_hours
  /\ Py.minute now <= tolerance
  /\ Background.scheduled_time st
     = Some (Py.isoformat (Py.with_time now (Py.hour now) 0 0 0))
  /\ Background.minutes_overdue st = None
  /\ Background.healthy st = true.
Proof.
  intros Hcheck Hst.
  unfold Background.check_process_schedule in Hcheck.
  destruct (Background.schedule_loop now tolerance schedule_hours)
    as [[st'|]|e] eqn:Hloop; cbn [mbind outcome_bind] in Hcheck.
  - injection Hcheck as ->.
    destruct (schedule_loop_sound _ _ _ _ Hloop)
      as (h & Hin & Hh & Hle & [[-> _]|(-> & -> & Hm)]); [discriminate|].
    repeat split; assumption.
  - destruct (Background.get_next_scheduled_time now' schedule_hours);
      [|discriminate].
    injection Hcheck as <-. discriminate.
  - discriminate.
Qed.

Lemma on_schedule_verdict_sound_witness :
  let st := Background.on_schedule_status (utc 2024 5 2 6 0 0) in
  In 6 Background.worker_schedule
  /\ 10 <= 30
  /\ Background.scheduled_time st
     = Some (Py.isoformat (Py.with_time (utc 2024 5 2 6 10 0) 6 0 0 0))
  /\ Background.minutes_overdue st = None
  /\ Background.healthy st = true.
Proof.
  exact (on_schedule_verdict_sound (utc 2024 5 2 6 10 0) (utc 2024 5 2 6 10 0)
           "worker" Background.worker_schedule Background.worker_tolerance
           (Background.on_schedule_status (utc 2024 5 2 6 0 0))
           eq_refl eq_refl).
Defined.

Section NextScheduled.
Import Py Background.

Lemma first_hour_after_some (current h : Z) (l : list Z) :
  first_hour_after current l = Some h -> In h l /\ current < h.
Proof.
  induction l as [|y l IH]; [discriminate|].
  simpl. destruct (current <? y) eqn:E.
  - intros [= <-]. split; [left; reflexivity | lia].
  - intros H. destruct (IH H). split; [right; assumption | assumption].
Qed.

Lemma first_hour_after_none_inv (current : Z) (l : list Z) :
  first_hour_after current l = None -> forall x, In x l -> x <= current.
Proof.
  induction l as [|y l IH]; [intros _ x []|].
  simpl. destruct (current <? y) eqn:E; [discriminate|].
  intros H x [<-|Hx]; [lia | exact (IH H x Hx)].
Qed.

(** [d + timedelta(days=1)] keeps the time of day. *)
Lemma add_one_day_time (d d' : datetime) :
  add_one_day d = Return d' ->
  hour d' = hour d /\ minute d' = minute d /\ second d' = second d
  /\ microsecond d' = microsecond d.
Proof.
  unfold add_one_day.
  destruct (day d <? _); [intros [= <-]; repeat split|].
  destruct (month d <? 12); [intros [= <-]; repeat split|].
  destruct (year d <? 9999); [intros [= <-]; repeat split | discriminate].
Qed.

Lemma to_us_with_time (d : datetime) (h : Z) :
  to_us (with_time d h 0 0 0)
  = to_us d - ((hour d - h) * 60 + minute d) * 60000000
    - (second d * 1000000 + microsecond d).
Proof. pose proof (sub_with_time d h) as H. unfold sub in H. lia. Qed.

End NextScheduled.

(** The time [get_next_scheduled_time] returns is at a listed hour, on the
    hour, strictly after the clock and at most 24 hours after it. *)
Theorem next_scheduled_within_a_day (now next : Py.datetime)
  (schedule_hours : list Z) :
  Py.valid now = true ->
  Forall (fun x => 0 <= x <= 23) schedule_hours ->
  Background.get_next_scheduled_time now schedule_hours = Return next ->
  Py.to_us now < Py.to_us next <= Py.to_us now + Py.days 1
  /\ In (Py.hour next) schedule_hours
  /\ Py.minute next = 0 /\ Py.second next = 0 /\ Py.microsecond next = 0.
Proof.
  intros Hv Hall. pose proof (valid_time_fields now Hv) as Hf.
  rewrite Forall_forall in Hall.
  unfold Background.get_next_scheduled_time.
  destruct (Background.first_hour_after _ _) as [h|] eqn:Hfirst.
  - apply first_hour_after_some in Hfirst. destruct Hfirst as [Hin Hlt].
    apply (proj1 (sorted_In h schedule_hours)) in Hin.
    pose proof (Hall h (proj2 (list_elem_of_In _ _) Hin)) as Hh.
    intros Hr. apply replace_time_hour_inv in Hr. destruct Hr as [_ ->].
    rewrite to_us_with_time. unfold Py.days.
    split; [lia|]. split; [exact Hin|]. repeat split.
  - pose proof (first_hour_after_none_inv _ _ Hfirst) as Hpast.
    destruct (Py.add_one_day now) as [tomorrow|e] eqn:Hday; [|discriminate].
    cbn [mbind outcome_bind].
    destruct schedule_hours as [|x r]; [discriminate|].
    cbn [Py.min_list mbind outcome_bind].
    destruct (foldr_min_spec x r) as [Hin _].
    set (m := foldr Z.min x r) in *.
    pose proof (Hall m (proj2 (list_elem_of_In _ _) Hin)) as Hm.
    pose proof (Hpast m (proj2 (sorted_In m (x :: r)) Hin)) as Hle.
    intros Hr. apply replace_time_hour_inv in Hr. destruct Hr as [_ ->].
    rewrite to_us_with_time.
    destruct (add_one_day_time _ _ Hday) as (-> & -> & -> & ->).
    rewrite (add_one_day_later now tomorrow Hv Hday). unfold Py.days.
    split; [lia|]. split; [exact Hin|]. repeat split.
Qed.

Lemma next_scheduled_within_a_day_witness :
  let now := utc 2024 12 31 19 30 0 in
  let next := utc 2025 1 1 0 0 0 in
  Py.to_us now < Py.to_us next <= Py.to_us now + Py.days 1
  /\ In (Py.hour next) Background.worker_schedule
  /\ Py.minute next = 0 /\ Py.second next = 0 /\ Py.microsecond next = 0.
Proof.
  intros now next.
  apply (next_scheduled_within_a_day now next Background.worker_schedule).
  - reflexivity.
  - repeat constructor; discriminate.
  - reflexivity.
Defined.

(** With an empty schedule [check_process_schedule] raises: no entry
    answers, and no next time exists. *)
Theorem empty_schedule_raises (now now' : Py.datetime)
  (process_type : string) (tolerance : Z) :
  exists e,
    Background.check_process_schedule now now' process_type [] tolerance
    = Raise e.
Proof.
  unfold Background.check_process_schedule,
    Background.get_next_scheduled_time.
  cbn [Background.schedule_loop mbind outcome_bind Py.sorted foldr
       Background.first_hour_after].
  destruct (Py.add_one_day now') as [tomorrow|e]; eauto.
Qed.

(** An entry outside [0..23], such as 24 for midnight, makes
    [check_process_schedule] raise as soon as the loop reaches it. *)
Theorem hour_out_of_range_raises (now now' : Py.datetime)
  (process_type : string) (pre : list Z) (x : Z) (post : list Z)
  (tolerance : Z) :
  0 <= Py.hour now ->
  Forall (fun y => Py.hour now < y <= 23) pre ->
  ~ 0 <= x <= 23 ->
  Background.check_process_schedule now now' process_type
    (pre ++ x :: post) tolerance
  = Raise "hour must be in 0..23".
Proof.
  intros Hnow Hpre Hx. unfold Background.check_process_schedule.
  rewrite schedule_loop_later by assumption.
  cbn [Background.schedule_loop].
  rewrite replace_time_hour_raises by exact Hx. reflexivity.
Qed.

Lemma hour_out_of_range_raises_witness :
  Background.check_process_schedule
    (utc 2024 5 2 3 0 0) (utc 2024 5 2 3 0 0) "worker" [6; 12; 18; 24] 30
  = Raise "hour must be in 0..23".
Proof.
  apply (hour_out_of_range_raises (utc 2024 5 2 3 0 0) (utc 2024 5 2 3 0 0)
           "worker" [6; 12; 18] 24 [] 30).
  - discriminate.
  - repeat constructor; discriminate.
  - intros [_ H]. apply H. reflexivity.
Defined.

(** ** The health checks of the database service, continued *)

Section UpdatedChecks.
Import Py Updated.

Variable db : supabase.
Variable sch : schedule.
Variable now : datetime.
Hypothesis now_valid : valid now = true.

Lemma worker_schedule_loop_sound (ts : list string) (issues issues' : list string)
  (err : option string) :
  Forall (fun t => well_formed_time t = true) ts ->
  worker_schedule_loop db sch now (with_time now 0 0 0 0) ts issues
  = (issues', err) ->
  (forall i, In i issues' -> In i issues \/ justified db sch now ts i)
  /\ (forall e, err = Some e ->
        exists lo hi, worker_runs_between db lo hi = Raise e).
Proof.
  intros Hwf. revert issues.
  induction Hwf as [|t ts Ht _ IH]; intros issues.
  - intros [= <- <-]. split; [tauto | discriminate].
  - destruct (well_formed_time_inv t Ht) as (h & mi & Hp & Hh & Hmi).
    cbn [worker_schedule_loop].
    rewrite (worker_schedule_step_eq db sch now t h mi issues now_valid Hp Hh Hmi).
    assert (Hweak : forall i, justified db sch now ts i -> justified db sch now (t :: ts) i).
    { intros i (t' & h' & mi' & -> & Hin & Hrest).
      exists t', h', mi'. split; [reflexivity|].
      split; [right; exact Hin | exact Hrest]. }
    destruct (past_deadline now (with_time now h mi 0 0)
                            (max_delay_minutes sch)) eqn:Hpast.
    + destruct (worker_runs_between db _ _) as [[|r runs]|e] eqn:Hruns;
        cbn [mbind outcome_bind].
      * intros Hloop. destruct (IH _ Hloop) as [Hi He].
        split; [|exact He]. intros i Hin.
        destruct (Hi i Hin) as [Hold|Hj]; [|right; apply Hweak, Hj].
        apply in_app_or in Hold. destruct Hold as [Hold|[<-|[]]];
          [left; exact Hold|].
        right. exists t, h, mi. split; [reflexivity|].
        split; [left; reflexivity|]. repeat split; assumption.
      * intros Hloop. destruct (IH _ Hloop) as [Hi He].
        split; [|exact He]. intros i Hin.
        destruct (Hi i Hin) as [Hold|Hj];
          [left; exact Hold | right; apply Hweak, Hj].
      * intros [= <- <-]. split; [tauto|].
        intros e' [= <-]. eauto.
    + intros Hloop. destruct (IH _ Hloop) as [Hi He].
      split; [|exact He]. intros i Hin.
      destruct (Hi i Hin) as [Hold|Hj];
        [left; exact Hold | right; apply Hweak, Hj].
Qed.

(** The loop goes on after a prefix that ran to its end. *)
Lemma worker_schedule_loop_app (pre rest : list string)
  (issues issues1 : list string) :
  worker_schedule_loop db sch now (with_time now 0 0 0 0) pre issues
  = (issues1, None) ->
  worker_schedule_loop db sch now (with_time now 0 0 0 0) (pre ++ rest) issues
  = worker_schedule_loop db sch now (with_time now 0 0 0 0) rest issues1.
Proof.
  revert issues. induction pre as [|t pre IH]; intros issues.
  - intros [= <-]. reflexivity.
  - cbn [app worker_schedule_loop].
    destruct (worker_schedule_step db sch now _ t issues) as [issues'|e];
      [apply IH | discriminate].
Qed.

(** Readable entries whose window queries are answered do not stop the
    loop. *)
Lemma worker_schedule_loop_runs (ts : list string) (issues : list string) :
  Forall (fun t =>
            well_formed_time t = true
            /\ forall h mi,
                parse_hour_minute t = Return (h, mi) ->
                exists l,
                  worker_runs_between db
                    (to_us (with_time now h mi 0 0) - minutes 15)
                    (to_us (with_time now h mi 0 0)
                     + minutes (max_delay_minutes sch)) = Return l) ts ->
  exists issues',
    worker_schedule_loop db sch now (with_time now 0 0 0 0) ts issues
    = (issues', None).
Proof.
  intros Hall. revert issues.
  induction Hall as [|t ts [Ht Hans] _ IH]; intros issues; [eauto|].
  destruct (well_formed_time_inv t Ht) as (h & mi & Hp & Hh & Hmi).
  cbn [worker_schedule_loop].
  rewrite (worker_schedule_step_eq db sch now t h mi issues now_valid Hp Hh Hmi).
  destruct (past_deadline _ _ _); [|apply IH].
  destruct (Hans h mi Hp) as [l ->]. cbn [mbind outcome_bind].
  destruct l; apply IH.
Qed.

End UpdatedChecks.

(** [check_worker_schedule] reports a run as missed only for an entry of
    the schedule that is past its deadline and whose window query returned
    no run, and reports a failure only when a window query raised. *)
Theorem schedule_issues_justified (db : Updated.supabase)
  (sch : Updated.schedule) (now : Py.datetime) (i : string) :
  Py.valid now = true ->
  Forall (fun t => Updated.well_formed_time t = true) (Updated.times sch) ->
  In i (Updated.check_worker_schedule db sch now) ->
  (exists t h mi,
      i = Updated.missed_run t /\ In t (Updated.times sch)
      /\ Updated.parse_hour_minute t = Return (h, mi)
      /\ Py.to_us (Py.with_time now h mi 0 0)
         + Py.minutes (Updated.max_delay_minutes sch) < Py.to_us now
      /\ Updated.worker_runs_between db
           (Py.to_us (Py.with_time now h mi 0 0) - Py.minutes 15)
           (Py.to_us (Py.with_time now h mi 0 0)
            + Py.minutes (Updated.max_delay_minutes sch)) = Return [])
  \/ (exists e lo hi,
         i = Updated.schedule_check_failed e
         /\ Updated.worker_runs_between db lo hi = Raise e).
Proof.
  intros Hv Hwf Hin. unfold Updated.check_worker_schedule in Hin.
  change (Py.replace_time now 0 0 0 0)
    with (Return (Py.with_time now 0 0 0 0)) in Hin.
  cbv beta iota in Hin.
  destruct (Updated.worker_schedule_loop db sch now (Py.with_time now 0 0 0 0)
              (Updated.times sch) []) as [issues err] eqn:Hloop.
  destruct (worker_schedule_loop_sound db sch now Hv _ _ _ _ Hwf Hloop)
    as [Hi He].
  assert (Hj : In i issues ->
    exists t h mi,
      i = Updated.missed_run t /\ In t (Updated.times sch)
      /\ Updated.parse_hour_minute t = Return (h, mi)
      /\ Py.to_us (Py.with_time now h mi 0 0)
         + Py.minutes (Updated.max_delay_minutes sch) < Py.to_us now
      /\ Updated.worker_runs_between db
           (Py.to_us (Py.with_time now h mi 0 0) - Py.minutes 15)
           (Py.to_us (Py.with_time now h mi 0 0)
            + Py.minutes (Updated.max_delay_minutes sch)) = Return []).
  { intros Hi'. destruct (Hi i Hi') as [[]|(t & h & mi & E & Ht & Hp & Hpast & Hr)].
    exists t, h, mi. repeat split; try assumption.
    unfold Updated.past_deadline in Hpast. lia. }
  destruct err as [e|].
  - apply in_app_or in Hin. destruct Hin as [Hin|[<-|[]]];
      [left; exact (Hj Hin)|].
    right. destruct (He e eq_refl) as (lo & hi & Hr). eauto.
  - left. exact (Hj Hin).
Qed.

Lemma schedule_issues_justified_witness :
  let db := MemDb.connect (MemDb.mk_tables [] [] []) in
  let now := utc 2024 5 2 6 45 0 in
  (exists t h mi,
      "Missed scheduled run at 06:00 UTC" = Updated.missed_run t
      /\ In t (Updated.times Updated.worker_schedule)
      /\ Updated.parse_hour_minute t = Return (h, mi)
      /\ Py.to_us (Py.with_time now h mi 0 0) + Py.minutes 30 < Py.to_us now
      /\ Updated.worker_runs_between db
           (Py.to_us (Py.with_time now h mi 0 0) - Py.minutes 15)
           (Py.to_us (Py.with_time now h mi 0 0) + Py.minutes 30) = Return [])
  \/ (exists e lo hi,
         "Missed scheduled run at 06:00 UTC" = Updated.schedule_check_failed e
         /\ Updated.worker_runs_between db lo hi = Raise e).
Proof.
  intros db now.
  apply (schedule_issues_justified db Updated.worker_schedule now).
  - reflexivity.
  - repeat constructor.
  - left. reflexivity.
Defined.

(** When the window query of an entry raises, [check_worker_schedule]
    keeps what it found for the entries before it, adds one issue
    [Schedule check failed: ...] and looks at no later entry. *)
Theorem schedule_check_failure_contained (db : Updated.supabase)
  (freq : string) (pre : list string) (t : string) (post : list string)
  (delay : Z) (now : Py.datetime) (h mi : Z) (e : string) :
  Py.valid now = true ->
  Forall (fun t' =>
            Updated.well_formed_time t' = true
            /\ forall h' mi',
                Updated.parse_hour_minute t' = Return (h', mi') ->
                exists l,
                  Updated.worker_runs_between db
                    (Py.to_us (Py.with_time now h' mi' 0 0) - Py.minutes 15)
                    (Py.to_us (Py.with_time now h' mi' 0 0)
                     + Py.minutes delay) = Return l) pre ->
  Updated.parse_hour_minute t = Return (h, mi) ->
  0 <= h <= 23 -> 0 <= mi <= 59 ->
  Py.to_us (Py.with_time now h mi 0 0) + Py.minutes delay < Py.to_us now ->
  Updated.worker_runs_between db
    (Py.to_us (Py.with_time now h mi 0 0) - Py.minutes 15)
    (Py.to_us (Py.with_time now h mi 0 0) + Py.minutes delay) = Raise e ->
  Updated.check_worker_schedule db
    (Updated.mk_schedule freq (pre ++ t :: post) delay) now
  = Updated.check_worker_schedule db (Updated.mk_schedule freq pre delay) now
    ++ [Updated.schedule_check_failed e].
Proof.
  intros Hv Hpre Hp Hh Hmi Hpast Hraise.
  set (sch := Updated.mk_schedule freq (pre ++ t :: post) delay).
  set (sch0 := Updated.mk_schedule freq pre delay).
  unfold Updated.check_worker_schedule.
  change (Py.replace_time now 0 0 0 0)
    with (Return (Py.with_time now 0 0 0 0)).
  cbv beta iota. cbn [Updated.times sch sch0].
  destruct (worker_schedule_loop_runs db sch0 now Hv pre [] Hpre)
    as [issues Hloop].
  rewrite Hloop.
  assert (Hsame : forall ts acc,
             Updated.worker_schedule_loop db sch now
               (Py.with_time now 0 0 0 0) ts acc
             = Updated.worker_schedule_loop db sch0 now
                 (Py.with_time now 0 0 0 0) ts acc).
  { induction ts as [|x ts IH]; intros acc; [reflexivity|].
    cbn [Updated.worker_schedule_loop].
    change (Updated.worker_schedule_step db sch now (Py.with_time now 0 0 0 0)
              x acc)
      with (Updated.worker_schedule_step db sch0 now
              (Py.with_time now 0 0 0 0) x acc).
    destruct (Updated.worker_schedule_step db sch0 now _ x acc);
      [apply IH | reflexivity]. }
  rewrite (worker_schedule_loop_app db sch now pre (t :: post) [] issues)
    by (rewrite Hsame; exact Hloop).
  cbn [Updated.worker_schedule_loop].
  rewrite (worker_schedule_step_eq db sch now t h mi issues Hv Hp Hh Hmi).
  cbn [Updated.max_delay_minutes sch].
  replace (Updated.past_deadline now (Py.with_time now h mi 0 0) delay)
    with true by (unfold Updated.past_deadline; lia).
  rewrite Hraise. reflexivity.
Qed.

Lemma schedule_check_failure_contained_witness :
  let db :=
    Updated.mk_supabase
      (fun _ => Return []) (fun _ => Return [])
      (fun lo _ =>
         if lo <? Py.to_us (utc 2024 5 2 5 0 0) then Return []
         else Raise "connection reset")
      (fun _ => Return []) (fun _ _ => Return []) in
  Updated.check_worker_schedule db
    (Updated.mk_schedule "4x_daily" ["00:00"; "06:00"; "12:00"] 30)
    (utc 2024 5 2 13 0 0)
  = Updated.check_worker_schedule db
      (Updated.mk_schedule "4x_daily" ["00:00"] 30) (utc 2024 5 2 13 0 0)
    ++ ["Schedule check failed: connection reset"].
Proof.
  intros db.
  apply (schedule_check_failure_contained db "4x_daily" ["00:00"] "06:00"
           ["12:00"] 30 (utc 2024 5 2 13 0 0) 6 0 "connection reset").
  - reflexivity.
  - constructor; [|constructor]. split; [reflexivity|].
    intros h' mi' [= <- <-]. eexists. reflexivity.
  - reflexivity.
  - split; discriminate.
  - split; discriminate.
  - reflexivity.
  - reflexivity.
Defined.

(** The Worker verdict of the database service is [healthy] exactly when
    runs were observed in the window, at least 80% of them completed, and
    the schedule check reported nothing. *)
Theorem worker_healthy_iff (db : Updated.supabase) (sch : Updated.schedule)
  (now now_s : Py.datetime) (runs : list Updated.worker_run)
  (workers : list string) :
  Updated.worker_runs_since db (Py.to_us now - Py.hours 2) = Return runs ->
  Updated.workers_since db (Py.to_us now - Py.hours 2) = Return workers ->
  Updated.status (Updated.check_worker_health db sch now now_s) = "healthy"
  <-> runs <> [] /\ (80 <= Updated.rate_of runs)%Q
      /\ Updated.check_worker_schedule db sch now_s = [].
Proof.
  intros Hruns Hworkers. unfold Updated.check_worker_health.
  rewrite Hruns, Hworkers. unfold Updated.analyze_worker.
  destruct runs as [|first rest].
  - split; [|intros [H _]; congruence].
    unfold Updated.apply_schedule_issues.
    destruct (Updated.check_worker_schedule db sch now_s); discriminate.
  - destruct (Py.Qlt_bool (Updated.rate_of (first :: rest)) 80) eqn:Hq.
    + split.
      * unfold Updated.apply_schedule_issues.
        destruct (Updated.check_worker_schedule db sch now_s); discriminate.
      * intros (_ & Hge & _). apply Qlt_bool_true in Hq.
        exfalso. exact (Qlt_not_le _ _ Hq Hge).
    + apply Qlt_bool_false in Hq. unfold Updated.apply_schedule_issues.
      destruct (Updated.check_worker_schedule db sch now_s) as [|i l].
      * split; [intros _; repeat split; [discriminate | exact Hq]|].
        intros _. reflexivity.
      * split; [discriminate|]. intros (_ & _ & E). discriminate.
Qed.

Lemma worker_healthy_iff_witness :
  let db :=
    MemDb.connect
      (MemDb.mk_tables
         [MemDb.run_at "2024-05-02T06:05:00+00:00" "completed";
          MemDb.run_at "2024-05-02T00:03:00+00:00" "completed"] [] []) in
  let now := utc 2024 5 2 6 45 0 in
  Updated.status (Updated.check_worker_health db Updated.worker_schedule now now)
  = "healthy"
  <-> [Updated.mk_worker_run "completed" "2024-05-02T06:05:00+00:00"] <> []
      /\ (80 <= Updated.rate_of
                  [Updated.mk_worker_run "completed"
                     "2024-05-02T06:05:00+00:00"])%Q
      /\ Updated.check_worker_schedule db Updated.worker_schedule now = [].
Proof.
  intros db now.
  apply (worker_healthy_iff db Updated.worker_schedule now now
           [Updated.mk_worker_run "completed" "2024-05-02T06:05:00+00:00"] []).
  - reflexivity.
  - reflexivity.
Defined.

Section KnownStatuses.
Import Updated.

Lemma apply_schedule_issues_known (h : health_status) (l : list string) :
  known_status (status h) ->
  known_status (status (apply_schedule_issues h l)).
Proof.
  intros Hk. unfold apply_schedule_issues.
  destruct l as [|i l]; [exact Hk|].
  destruct (String.eqb _ _); [right; left; reflexivity | exact Hk].
Qed.

Lemma worker_status_known (db : supabase) (sch : schedule)
  (now now_s : Py.datetime) :
  known_status (status (check_worker_health db sch now now_s)).
Proof.
  unfold check_worker_health.
  destruct (worker_runs_since db _) as [runs|e];
    [|right; right; right; reflexivity].
  destruct (workers_since db _) as [workers|e];
    [|right; right; right; reflexivity].
  apply apply_schedule_issues_known. unfold analyze_worker.
  destruct runs as [|first rest]; [right; right; left; reflexivity|].
  destruct (Py.Qlt_bool _ _);
    [right; left; reflexivity | left; reflexivity].
Qed.

Lemma publisher_status_known (db : supabase) (sch : schedule)
  (now now_f now_s : Py.datetime) :
  known_status (status (check_publisher_health db sch now now_f now_s)).
Proof.
  unfold check_publisher_health.
  destruct (newsletters_since db _) as [rows|e];
    [|right; right; right; reflexivity].
  destruct (analyze_publisher rows now_f) as [v|e] eqn:Hv;
    [|right; right; right; reflexivity].
  apply apply_schedule_issues_known. revert Hv. unfold analyze_publisher.
  destruct rows as [|first rest].
  { intros [= <-]. right; right; left; reflexivity. }
  destruct (generated_at first) as [[|c s]|].
  + intros [= <-]. right; left; reflexivity.
  + destruct (Py.fromisoformat _) as [t|e]; [|discriminate].
    cbn [mbind outcome_bind].
    destruct (Py.Qlt_bool _ _); intros [= <-];
      [right; left; reflexivity | left; reflexivity].
  + intros [= <-]. right; left; reflexivity.
Qed.

End KnownStatuses.

(** The health checks of the database service answer one of four
    statuses. *)
Theorem database_statuses (db : Updated.supabase) (sch : Updated.schedule)
  (now now_f now_s : Py.datetime) :
  let known (s : string) :=
    s = "healthy" \/ s = "degraded" \/ s = "inactive" \/ s = "error" in
  known (Updated.status (Updated.check_worker_health db sch now now_s))
  /\ known (Updated.status
              (Updated.check_publisher_health db sch now now_f now_s)).
Proof.
  intros known. split.
  - exact (worker_status_known db sch now now_s).
  - exact (publisher_status_known db sch now now_f now_s).
Qed.

(** The success rate of a non-empty set of runs lies between 0 and 100. *)
Theorem success_rate_bounds (runs : list Updated.worker_run) :
  runs <> [] ->
  (0 <= Updated.rate_of runs)%Q /\ (Updated.rate_of runs <= 100)%Q.
Proof.
  intros Hne. unfold Updated.rate_of, Updated.successful_runs.
  pose proof (length_filter (fun r => Updated.run_status r = "completed") runs)
    as Hle.
  assert (Hpos : (0 < length runs)%nat) by (destruct runs; [congruence|simpl; lia]).
  set (s := Z.of_nat (length (filter _ runs))).
  set (n := Z.of_nat (length runs)).
  assert (Hs : 0 <= s <= n) by (subst s n; lia).
  assert (Hn : 0 < n) by (subst n; lia).
  clearbody s n. destruct n as [|p|p]; try lia.
  unfold Qle, Qmult, Qdiv, Qinv, inject_Z; simpl. nia.
Qed.

Lemma success_rate_bounds_witness :
  let runs :=
    [Updated.mk_worker_run "completed" "2024-05-02T06:05:00+00:00";
     Updated.mk_worker_run "failed" "2024-05-02T05:05:00+00:00"] in
  (0 <= Updated.rate_of runs)%Q /\ (Updated.rate_of runs <= 100)%Q.
Proof.
  intros runs. apply success_rate_bounds. discriminate.
Defined.

(** ** The alert gate, continued *)

Section AlertKeys.
Import Py Alerts.

Lemma alert_key_cons (c : ascii) (s x : string) :
  alert_key (String c s) x = String c (alert_key s x).
Proof. reflexivity. Qed.

Lemma alert_key_injective (s1 s2 a b : string) :
  no_underscore s1 = true -> no_underscore s2 = true ->
  alert_key s1 a = alert_key s2 b -> s1 = s2 /\ a = b.
Proof.
  revert s2. induction s1 as [|c1 s1 IH]; intros [|c2 s2] H1 H2 E.
  - change (String "_" a = String "_" b) in E. injection E as E.
    subst b. split; reflexivity.
  - rewrite alert_key_cons in E.
    change (String "_" a = String c2 (alert_key s2 b)) in E.
    injection E as <- _. cbn in H2. discriminate.
  - rewrite alert_key_cons in E.
    change (String c1 (alert_key s1 a) = String "_" b) in E.
    injection E as -> _. cbn in H1. discriminate.
  - rewrite !alert_key_cons in E. injection E as -> E.
    cbn [no_underscore] in H1, H2.
    apply andb_true_iff in H1. apply andb_true_iff in H2.
    destruct (IH s2 (proj2 H1) (proj2 H2) E) as [-> ->].
    split; reflexivity.
Qed.

End AlertKeys.

(** An alert for one (service, subject) pair never starts, resets or
    ends the cooldown of another pair, as long as the service names have
    no underscore: the keys of the two pairs differ and the call leaves
    the time recorded for every other key as it was. *)
Theorem cooldown_per_pair (cfg : Alerts.config) (srv : Alerts.smtp_server)
  (now later : Py.datetime) (subject message service_name : string)
  (other_service other_subject : string) (st st' : Alerts.alert_state)
  (lg : Alerts.alert_log) :
  Alerts.no_underscore service_name = true ->
  Alerts.no_underscore other_service = true ->
  service_name <> other_service \/ subject <> other_subject ->
  Alerts.send_alert cfg srv now subject message service_name st = (st', lg) ->
  Alerts.alert_key other_service other_subject
  <> Alerts.alert_key service_name subject
  /\ Alerts.last_alert_times st' !! Alerts.alert_key other_service other_subject
     = Alerts.last_alert_times st !! Alerts.alert_key other_service other_subject
  /\ Alerts.in_cooldown cfg later (Alerts.last_alert_times st')
       (Alerts.alert_key other_service other_subject)
     = Alerts.in_cooldown cfg later (Alerts.last_alert_times st)
         (Alerts.alert_key other_service other_subject).
Proof.
  intros H1 H2 Hdiff Hcall.
  assert (Hne : Alerts.alert_key other_service other_subject
                <> Alerts.alert_key service_name subject).
  { intros E. destruct (alert_key_injective _ _ _ _ H2 H1 E) as [-> ->].
    destruct Hdiff; congruence. }
  assert (Hl : Alerts.last_alert_times st'
               !! Alerts.alert_key other_service other_subject
               = Alerts.last_alert_times st
                 !! Alerts.alert_key other_service other_subject).
  { apply send_alert_cases in Hcall.
    destruct Hcall as [(_ & _ & ->)|(_ & ->)]; [|reflexivity].
    apply lookup_insert_ne. congruence. }
  split; [exact Hne|]. split; [exact Hl|].
  unfold Alerts.in_cooldown. rewrite Hl. reflexivity.
Qed.

Lemma cooldown_per_pair_witness :
  let cfg := Updated.load_config "monitor@example.org" "ops@example.org" in
  let st := {| Alerts.last_alert_times := ∅; Alerts.outbox := [] |} in
  let call :=
    Alerts.send_alert cfg (fun _ => None) (utc 2024 5 2 12 0 0)
      "Worker Service Degraded" "issues" "worker" st in
  Alerts.alert_key "worker" "Worker Service Inactive"
  <> Alerts.alert_key "worker" "Worker Service Degraded"
  /\ Alerts.last_alert_times call.1
       !! Alerts.alert_key "worker" "Worker Service Inactive" = None
  /\ Alerts.in_cooldown cfg (utc 2024 5 2 12 5 0)
       (Alerts.last_alert_times call.1)
       (Alerts.alert_key "worker" "Worker Service Inactive") = false.
Proof.
  intros cfg st call.
  assert (Hd : "worker" <> "worker"
               \/ "Worker Service Degraded" <> "Worker Service Inactive")
    by (right; discriminate).
  assert (Hc : Alerts.send_alert cfg (fun _ => None) (utc 2024 5 2 12 0 0)
                 "Worker Service Degraded" "issues" "worker" st
               = (call.1, call.2)) by apply surjective_pairing.
  pose proof (cooldown_per_pair cfg (fun _ => None) (utc 2024 5 2 12 0 0)
                (utc 2024 5 2 12 5 0) "Worker Service Degraded" "issues"
                "worker" "worker" "Worker Service Inactive" st call.1 call.2
                eq_refl eq_refl Hd Hc) as H.
  destruct H as (Hkey & Hlast & Hcool).
  split; [exact Hkey|]. split.
  - rewrite Hlast. vm_compute. reflexivity.
  - rewrite Hcool. vm_compute. reflexivity.
Defined.

(** With [EMAIL_ALERTS_ENABLED] off, no sequence of calls reaches the
    server or records anything: the state is unchanged and every call
    logs that alerts are disabled. *)
Theorem disabled_alerts_do_nothing (cfg : Alerts.config)
  (l : list Alerts.attempt) (st : Alerts.alert_state) :
  Alerts.email_alerts_enabled cfg = false ->
  Alerts.send_alerts cfg l st
  = (st, map (fun a => (a, Alerts.AlertsDisabled)) l).
Proof.
  intros Hoff. induction l as [|a r IH]; [reflexivity|].
  cbn [Alerts.send_alerts map].
  unfold Alerts.send_attempt, Alerts.send_alert. rewrite Hoff. cbn [negb].
  rewrite IH. reflexivity.
Qed.

Lemma disabled_alerts_do_nothing_witness :
  let cfg :=
    Alerts.mk_config false 30 true "monitor@example.org" "ops@example.org"
      "[Newsletter System Alert]" Updated.footer in
  let a :=
    Alerts.mk_attempt (fun _ => None) (utc 2024 5 2 12 0 0)
      "Worker Service Degraded" "issues" "worker" in
  let st := {| Alerts.last_alert_times := ∅; Alerts.outbox := [] |} in
  Alerts.send_alerts cfg [a; a] st
  = (st, [(a, Alerts.AlertsDisabled); (a, Alerts.AlertsDisabled)]).
Proof.
  intros cfg a st. exact (disabled_alerts_do_nothing cfg [a; a] st eq_refl).
Defined.

(** Over any sequence of calls the messages taken by the server only
    accumulate: the outbox grows by at most one message per call, by at
    least one per call logged as sent, and every added message goes from
    and to the configured addresses with the configured subject prefix. *)
Theorem outbox_grows (cfg : Alerts.config) (l : list Alerts.attempt)
  (st : Alerts.alert_state) :
  exists added,
    Alerts.outbox (Alerts.send_alerts cfg l st).1 = Alerts.outbox st ++ added
    /\ (length (List.filter (fun x => Alerts.is_sent x.2)
                            (Alerts.send_alerts cfg l st).2)
        <= length added <= length l)%nat
    /\ Forall (fun m =>
                 Alerts.msg_from m = Alerts.alert_email_from cfg
                 /\ Alerts.msg_to m = Alerts.alert_email_to cfg
                 /\ exists subject,
                     Alerts.msg_subject m
                     = Alerts.alert_subject_prefix cfg +:+ " " +:+ subject)
              added.
Proof.
  revert st. induction l as [|a r IH]; intros st.
  - exists []. cbn. rewrite app_nil_r. repeat split; [lia | lia | constructor].
  - cbn [Alerts.send_alerts].
    destruct (Alerts.send_attempt cfg a st) as [st1 lg] eqn:Hstep.
    destruct (IH st1) as (added & Hout & Hlen & Hall).
    destruct (Alerts.send_alerts cfg r st1) as [st2 tr] eqn:Hrest.
    cbn [fst snd] in *.
    assert (Hone : exists first,
               Alerts.outbox st1 = Alerts.outbox st ++ first
               /\ (length first <= 1)%nat
               /\ (lg = Alerts.AlertSent -> length first = 1%nat)
               /\ Forall (fun m =>
                            Alerts.msg_from m = Alerts.alert_email_from cfg
                            /\ Alerts.msg_to m = Alerts.alert_email_to cfg
                            /\ exists subject,
                                Alerts.msg_subject m
                                = Alerts.alert_subject_prefix cfg +:+ " "
                                  +:+ subject) first).
    { revert Hstep. unfold Alerts.send_attempt, Alerts.send_alert.
      destruct (negb _).
      { intros [= <- <-]. exists []. rewrite app_nil_r.
        repeat split; [cbn; lia | discriminate | constructor]. }
      destruct (Alerts.in_cooldown _ _ _ _).
      { intros [= <- <-]. exists []. rewrite app_nil_r.
        repeat split; [cbn; lia | discriminate | constructor]. }
      destruct (Alerts.smtp_session cfg _ _) as [accepted res] eqn:Hs.
      assert (Hacc : accepted = []
                     \/ accepted
                        = [Alerts.alert_message cfg (Alerts.at_now a)
                             (Alerts.at_subject a) (Alerts.at_message a)
                             (Alerts.at_service a)]).
      { revert Hs. unfold Alerts.smtp_session.
        destruct (Alerts.step _ Alerts.Connect); [|intros [= <- _]; tauto].
        destruct (if Alerts.smtp_use_tls cfg then _ else _);
          [|intros [= <- _]; tauto].
        destruct (Alerts.step _ Alerts.Login); [|intros [= <- _]; tauto].
        destruct (Alerts.step _ Alerts.SendMessage);
          intros [= <- _]; tauto. }
      assert (Hmsg : Forall (fun m =>
                            Alerts.msg_from m = Alerts.alert_email_from cfg
                            /\ Alerts.msg_to m = Alerts.alert_email_to cfg
                            /\ exists subject,
                                Alerts.msg_subject m
                                = Alerts.alert_subject_prefix cfg +:+ " "
                                  +:+ subject) accepted).
      { destruct Hacc as [-> | ->]; constructor; [|constructor].
        cbn. repeat split. eauto. }
      destruct res as [u|e]; intros [= <- <-]; exists accepted; cbn.
      - split; [reflexivity|]. split; [destruct Hacc as [-> | ->]; cbn; lia|].
        split; [|exact Hmsg]. intros _.
        destruct (smtp_session_returns cfg _ _ _ _ Hs) as [-> _]. reflexivity.
      - split; [reflexivity|]. split; [destruct Hacc as [-> | ->]; cbn; lia|].
        split; [discriminate | exact Hmsg]. }
    destruct Hone as (first & Hout1 & Hlen1 & Hsent & Hall1).
    exists (first ++ added). split; [|split].
    + rewrite Hout, Hout1, app_assoc. reflexivity.
    + rewrite length_app. cbn [List.filter snd length].
      destruct lg; cbn [Alerts.is_sent length]; try lia.
      rewrite (Hsent eq_refl). lia.
    + apply Forall_app. split; assumption.
Qed.

(** ** The monitoring cycle of the database service *)

Section Cycle.
Import Py Updated.

Variable cfg : Alerts.config.

(** A verdict that is not reported leaves the alert state alone. *)
Lemma alert_on_quiet (srv : Alerts.smtp_server) (now : datetime)
  (label name : string) (h : health_status) (st : Alerts.alert_state) :
  needs_alert (status h) = false ->
  alert_on cfg srv now label name h st = (st, None).
Proof. intros Hq. unfold alert_on. rewrite Hq. reflexivity. Qed.

Lemma alert_on_fresh (srv : Alerts.smtp_server) (now : datetime)
  (label name : string) (h : health_status) (st : Alerts.alert_state) :
  Alerts.email_alerts_enabled cfg = true ->
  needs_alert (status h) = true ->
  Alerts.last_alert_times st
    !! Alerts.alert_key name (label +:+ " Service " +:+ title (status h))
  = None ->
  (forall s, srv s = None) ->
  exists m,
    alert_on cfg srv now label name h st
    = ({| Alerts.last_alert_times :=
            <[Alerts.alert_key name
                (label +:+ " Service " +:+ title (status h)) := now]>
              (Alerts.last_alert_times st);
          Alerts.outbox := Alerts.outbox st ++ [m] |},
       Some Alerts.AlertSent).
Proof.
  intros Hen Hn Hlast Hok. unfold alert_on. rewrite Hn.
  unfold Alerts.send_alert. rewrite Hen. cbn [negb].
  unfold Alerts.in_cooldown. rewrite Hlast.
  rewrite (smtp_session_ok cfg srv _ Hok). eexists. reflexivity.
Qed.

Lemma alert_on_suppressed (srv : Alerts.smtp_server) (now t : datetime)
  (label name : string) (h : health_status) (st : Alerts.alert_state) :
  Alerts.email_alerts_enabled cfg = true ->
  needs_alert (status h) = true ->
  Alerts.last_alert_times st
    !! Alerts.alert_key name (label +:+ " Service " +:+ title (status h))
  = Some t ->
  sub now t < minutes (Alerts.alert_cooldown_minutes cfg) ->
  alert_on cfg srv now label name h st = (st, Some Alerts.CooldownActive).
Proof.
  intros Hen Hn Hlast Hlt. unfold alert_on. rewrite Hn.
  unfold Alerts.send_alert. rewrite Hen. cbn [negb].
  rewrite (in_cooldown_true cfg now t _ _ Hlast Hlt). reflexivity.
Qed.

(** What a call of the gate does to [last_alert_times]. *)
Lemma alert_on_cases (srv : Alerts.smtp_server) (now : datetime)
  (label name : string) (h : health_status) (st st' : Alerts.alert_state)
  (lg : option Alerts.alert_log) :
  alert_on cfg srv now label name h st = (st', lg) ->
  (lg = Some Alerts.AlertSent
   /\ Alerts.email_alerts_enabled cfg = true
   /\ needs_alert (status h) = true
   /\ Alerts.last_alert_times st'
      = <[Alerts.alert_key name
            (label +:+ " Service " +:+ title (status h)) := now]>
          (Alerts.last_alert_times st))
  \/ (lg <> Some Alerts.AlertSent
      /\ Alerts.last_alert_times st' = Alerts.last_alert_times st).
Proof.
  unfold alert_on. destruct (needs_alert (status h)) eqn:Hn.
  2:{ intros [= <- <-]. right. split; [discriminate | reflexivity]. }
  unfold Alerts.send_alert.
  destruct (Alerts.email_alerts_enabled cfg) eqn:Hen; cbn [negb].
  2:{ intros [= <- <-]. right. split; [discriminate | reflexivity]. }
  destruct (Alerts.in_cooldown cfg now _ _).
  { intros [= <- <-]. right. split; [discriminate | reflexivity]. }
  destruct (Alerts.smtp_session cfg srv _) as [accepted [u|e]].
  - intros [= <- <-]. left. repeat split.
  - intros [= <- <-]. right. split; [discriminate | reflexivity].
Qed.

Lemma worker_publisher_keys (x y : string) :
  Alerts.alert_key "publisher" y <> Alerts.alert_key "worker" x.
Proof. intros E. discriminate E. Qed.

(** The subjects of two reported statuses differ with the statuses. *)
Lemma worker_keys_differ (s1 s2 : string) :
  known_status s1 -> known_status s2 -> s1 <> s2 ->
  Alerts.alert_key "worker" ("Worker" +:+ " Service " +:+ title s1)
  <> Alerts.alert_key "worker" ("Worker" +:+ " Service " +:+ title s2).
Proof.
  intros [-> | [-> | [-> | ->]]] [-> | [-> | [-> | ->]]] Hne E;
    try (apply Hne; reflexivity); vm_compute in E; discriminate E.
Qed.

Lemma needs_alert_known (s : string) :
  known_status s -> needs_alert s = negb (String.eqb s "healthy").
Proof. intros [-> | [-> | [-> | ->]]]; reflexivity. Qed.

(** The parts of a cycle. *)
Lemma cycle_worker_log (w : world) (st : service_state) :
  (run_monitoring_cycle cfg w st).2.1
  = (alert_on cfg (worker_smtp w) (at_worker_alert (clock w)) "Worker"
       "worker"
       (check_worker_health (database w) worker_schedule
          (at_worker_check (clock w)) (at_worker_schedule (clock w)))
       (alert_state st)).2.
Proof.
  unfold run_monitoring_cycle.
  destruct (alert_on cfg (worker_smtp w) _ _ _ _ _) as [a1 lg1].
  destruct (alert_on cfg (publisher_smtp w) _ _ _ _ _) as [a2 lg2].
  reflexivity.
Qed.

Lemma cycle_publisher_log (w : world) (st : service_state) :
  (run_monitoring_cycle cfg w st).2.2
  = (alert_on cfg (publisher_smtp w) (at_publisher_alert (clock w))
       "Publisher" "publisher"
       (check_publisher_health (database w) publisher_schedule
          (at_publisher_check (clock w)) (at_publisher_freshness (clock w))
          (at_publisher_schedule (clock w)))
       (alert_on cfg (worker_smtp w) (at_worker_alert (clock w)) "Worker"
          "worker"
          (check_worker_health (database w) worker_schedule
             (at_worker_check (clock w)) (at_worker_schedule (clock w)))
          (alert_state st)).1).2.
Proof.
  unfold run_monitoring_cycle.
  destruct (alert_on cfg (worker_smtp w) _ _ _ _ _) as [a1 lg1].
  cbn [fst].
  destruct (alert_on cfg (publisher_smtp w) _ _ _ _ _) as [a2 lg2].
  reflexivity.
Qed.

Lemma cycle_alert_state (w : world) (st : service_state) :
  alert_state (run_monitoring_cycle cfg w st).1
  = (alert_on cfg (publisher_smtp w) (at_publisher_alert (clock w))
       "Publisher" "publisher"
       (check_publisher_health (database w) publisher_schedule
          (at_publisher_check (clock w)) (at_publisher_freshness (clock w))
          (at_publisher_schedule (clock w)))
       (alert_on cfg (worker_smtp w) (at_worker_alert (clock w)) "Worker"
          "worker"
          (check_worker_health (database w) worker_schedule
             (at_worker_check (clock w)) (at_worker_schedule (clock w)))
          (alert_state st)).1).1.
Proof.
  unfold run_monitoring_cycle.
  destruct (alert_on cfg (worker_smtp w) _ _ _ _ _) as [a1 lg1].
  cbn [fst].
  destruct (alert_on cfg (publisher_smtp w) _ _ _ _ _) as [a2 lg2].
  reflexivity.
Qed.

(** The Publisher's alert leaves the Worker's keys as they were. *)
Lemma publisher_alert_keeps_worker_keys (srv : Alerts.smtp_server)
  (now : datetime) (h : health_status) (st : Alerts.alert_state)
  (x : string) :
  Alerts.last_alert_times
    (alert_on cfg srv now "Publisher" "publisher" h st).1
    !! Alerts.alert_key "worker" x
  = Alerts.last_alert_times st !! Alerts.alert_key "worker" x.
Proof.
  destruct (alert_on cfg srv now "Publisher" "publisher" h st)
    as [a lg] eqn:E.
  apply alert_on_cases in E as [(_ & _ & _ & Hl)|[_ Hl]];
    cbn [fst]; rewrite Hl; [|reflexivity].
  apply lookup_insert_ne, worker_publisher_keys.
Qed.

End Cycle.

(** Every cycle of the database service writes one monitoring event for
    the Worker and then one for the Publisher, each with the status of
    its verdict, whatever the alert gate, the configuration of the alerts
    or the mail server do (the inserts themselves must go through). *)
Theorem events_recorded_every_cycle (cfg : Alerts.config)
  (w : Updated.world) (st : Updated.service_state) :
  (forall ev, Updated.sink w ev = Return tt) ->
  let c := Updated.clock w in
  let hw :=
    Updated.check_worker_health (Updated.database w) Updated.worker_schedule
      (Updated.at_worker_check c) (Updated.at_worker_schedule c) in
  let hp :=
    Updated.check_publisher_health (Updated.database w)
      Updated.publisher_schedule (Updated.at_publisher_check c)
      (Updated.at_publisher_freshness c) (Updated.at_publisher_schedule c) in
  Updated.recorded (Updated.run_monitoring_cycle cfg w st).1
  = Updated.recorded st
    ++ [Updated.mk_monitoring_event "worker" (Updated.status hw)
          (Py.isoformat (Updated.at_worker_event c) +:+ "Z") hw;
        Updated.mk_monitoring_event "publisher" (Updated.status hp)
          (Py.isoformat (Updated.at_publisher_event c) +:+ "Z") hp].
Proof.
  intros Hsink c hw hp. unfold Updated.run_monitoring_cycle.
  fold c. fold hw. fold hp.
  destruct (Updated.alert_on cfg (Updated.worker_smtp w) _ _ _ hw _)
    as [a1 lg1].
  destruct (Updated.alert_on cfg (Updated.publisher_smtp w) _ _ _ hp a1)
    as [a2 lg2].
  cbn [fst Updated.recorded]. unfold Updated.record_monitoring_event.
  rewrite !Hsink. rewrite <- app_assoc. reflexivity.
Qed.

Lemma events_recorded_every_cycle_witness :
  let now := utc 2024 5 2 6 45 0 in
  let w :=
    Updated.mk_world (MemDb.connect (MemDb.mk_tables [] [] []))
      (fun _ => Return tt)
      (Updated.mk_cycle_clock now now now now now now now now now)
      (fun _ => None) (fun _ => None) in
  let cfg := Updated.load_config "monitor@example.org" "ops@example.org" in
  let st :=
    Updated.mk_service_state
      {| Alerts.last_alert_times := ∅; Alerts.outbox := [] |} [] in
  map (fun ev => (Updated.service_name ev, Updated.event_status ev,
                  Updated.last_check ev))
      (Updated.recorded (Updated.run_monitoring_cycle cfg w st).1)
  = [("worker", "inactive", "2024-05-02T06:45:00Z");
     ("publisher", "inactive", "2024-05-02T06:45:00Z")].
Proof.
  intros now w cfg st.
  rewrite (events_recorded_every_cycle cfg w st (fun _ => eq_refl)).
  vm_compute. reflexivity.
Defined.

(** In a cycle of the database service an alert is attempted for a
    service exactly when its verdict is not [healthy]. *)
Theorem alert_iff_not_healthy (cfg : Alerts.config) (w : Updated.world)
  (st : Updated.service_state) :
  let c := Updated.clock w in
  let hw :=
    Updated.check_worker_health (Updated.database w) Updated.worker_schedule
      (Updated.at_worker_check c) (Updated.at_worker_schedule c) in
  let hp :=
    Updated.check_publisher_health (Updated.database w)
      Updated.publisher_schedule (Updated.at_publisher_check c)
      (Updated.at_publisher_freshness c) (Updated.at_publisher_schedule c) in
  ((Updated.run_monitoring_cycle cfg w st).2.1 = None
   <-> Updated.status hw = "healthy")
  /\ ((Updated.run_monitoring_cycle cfg w st).2.2 = None
      <-> Updated.status hp = "healthy").
Proof.
  intros c hw hp.
  assert (Hon : forall srv now label name h a,
             Updated.known_status (Updated.status h) ->
             (Updated.alert_on cfg srv now label name h a).2 = None
             <-> Updated.status h = "healthy").
  { intros srv now label name h a Hk. unfold Updated.alert_on.
    destruct Hk as [E|[E|[E|E]]]; rewrite E; cbn [Updated.needs_alert
      String.eqb Ascii.eqb Bool.eqb orb andb];
      try (destruct (Alerts.send_alert _ _ _ _ _ _ _); cbn [snd]);
      split; try discriminate; reflexivity. }
  rewrite cycle_worker_log, cycle_publisher_log. split; apply Hon.
  - apply worker_status_known.
  - apply publisher_status_known.
Qed.

(** When a cycle has sent the alert for the Worker, a later cycle that
    finds the Worker in the same status less than the cooldown after it
    sends nothing for the Worker: the call ends at the cooldown test,
    whatever the Publisher's alerts did in between. *)
Theorem repeated_alert_suppressed (cfg : Alerts.config)
  (w1 w2 : Updated.world) (st : Updated.service_state) :
  let verdict w :=
    Updated.check_worker_health (Updated.database w) Updated.worker_schedule
      (Updated.at_worker_check (Updated.clock w))
      (Updated.at_worker_schedule (Updated.clock w)) in
  let first := Updated.run_monitoring_cycle cfg w1 st in
  let second := Updated.run_monitoring_cycle cfg w2 first.1 in
  first.2.1 = Some Alerts.AlertSent ->
  Updated.status (verdict w2) = Updated.status (verdict w1) ->
  Py.sub (Updated.at_worker_alert (Updated.clock w2))
         (Updated.at_worker_alert (Updated.clock w1))
  < Py.minutes (Alerts.alert_cooldown_minutes cfg) ->
  second.2.1 = Some Alerts.CooldownActive.
Proof.
  intros verdict first second Hsent Hsame Hlt.
  subst first second. rewrite cycle_worker_log in Hsent |- *.
  rewrite cycle_alert_state. fold (verdict w1) in *. fold (verdict w2).
  destruct (Updated.alert_on cfg (Updated.worker_smtp w1) _ _ _
              (verdict w1) _) as [a1 lg1] eqn:E1.
  cbn [fst snd] in *. subst lg1.
  apply alert_on_cases in E1 as [(_ & Hen & Hn & Hl)|[C _]];
    [|congruence].
  rewrite (alert_on_suppressed cfg (Updated.worker_smtp w2) _
             (Updated.at_worker_alert (Updated.clock w1))); try assumption;
    [reflexivity | congruence |].
  rewrite publisher_alert_keeps_worker_keys, Hl, Hsame.
  apply lookup_insert_eq.
Qed.

Lemma repeated_alert_suppressed_witness :
  let world_at now :=
    Updated.mk_world (MemDb.connect (MemDb.mk_tables [] [] []))
      (fun _ => Return tt)
      (Updated.mk_cycle_clock now now now now now now now now now)
      (fun _ => None) (fun _ => None) in
  let cfg := Updated.load_config "monitor@example.org" "ops@example.org" in
  let st :=
    Updated.mk_service_state
      {| Alerts.last_alert_times := ∅; Alerts.outbox := [] |} [] in
  let first :=
    Updated.run_monitoring_cycle cfg (world_at (utc 2024 5 2 6 45 0)) st in
  (Updated.run_monitoring_cycle cfg (world_at (utc 2024 5 2 6 50 0))
     first.1).2.1
  = Some Alerts.CooldownActive.
Proof.
  intros world_at cfg st first.
  apply (repeated_alert_suppressed cfg (world_at (utc 2024 5 2 6 45 0))
           (world_at (utc 2024 5 2 6 50 0)) st).
  - vm_compute. reflexivity.
  - vm_compute. reflexivity.
  - vm_compute. reflexivity.
Defined.

(** The cooldown does not hold back a change of status.  After a cycle
    that started with no alert on record and alerted for the Worker, a
    cycle that finds the Worker in another status that is reported sends
    its alert at once, however soon it runs, when alerts are enabled and
    the mail server takes the message. *)
Theorem status_change_alerted (cfg : Alerts.config)
  (w1 w2 : Updated.world) (st : Updated.service_state) :
  let verdict w :=
    Updated.check_worker_health (Updated.database w) Updated.worker_schedule
      (Updated.at_worker_check (Updated.clock w))
      (Updated.at_worker_schedule (Updated.clock w)) in
  let first := Updated.run_monitoring_cycle cfg w1 st in
  let second := Updated.run_monitoring_cycle cfg w2 first.1 in
  Alerts.last_alert_times (Updated.alert_state st) = ∅ ->
  Alerts.email_alerts_enabled cfg = true ->
  Updated.status (verdict w2) <> Updated.status (verdict w1) ->
  Updated.status (verdict w2) <> "healthy" ->
  (forall s, Updated.worker_smtp w2 s = None) ->
  second.2.1 = Some Alerts.AlertSent.
Proof.
  intros verdict first second Hempty Hen Hne Hbad Hok.
  subst first second. rewrite cycle_worker_log, cycle_alert_state.
  fold (verdict w1). fold (verdict w2).
  assert (Hk1 : Updated.known_status (Updated.status (verdict w1)))
    by apply worker_status_known.
  assert (Hk2 : Updated.known_status (Updated.status (verdict w2)))
    by apply worker_status_known.
  destruct (alert_on_fresh cfg (Updated.worker_smtp w2)
              (Updated.at_worker_alert (Updated.clock w2)) "Worker" "worker"
              (verdict w2)
              (Updated.alert_on cfg (Updated.publisher_smtp w1)
                 (Updated.at_publisher_alert (Updated.clock w1))
                 "Publisher" "publisher"
                 (Updated.check_publisher_health (Updated.database w1)
                    Updated.publisher_schedule
                    (Updated.at_publisher_check (Updated.clock w1))
                    (Updated.at_publisher_freshness (Updated.clock w1))
                    (Updated.at_publisher_schedule (Updated.clock w1)))
                 (Updated.alert_on cfg (Updated.worker_smtp w1)
                    (Updated.at_worker_alert (Updated.clock w1)) "Worker"
                    "worker" (verdict w1) (Updated.alert_state st)).1).1)
    as [m Hm]; try assumption.
  - rewrite (needs_alert_known _ Hk2).
    destruct (String.eqb_spec (Updated.status (verdict w2)) "healthy");
      [contradiction | reflexivity].
  - rewrite publisher_alert_keeps_worker_keys.
    destruct (Updated.alert_on cfg (Updated.worker_smtp w1) _ _ _
                (verdict w1) _) as [a1 lg1] eqn:E1.
    apply alert_on_cases in E1 as [(_ & _ & _ & Hl)|[_ Hl]];
      cbn [fst]; rewrite Hl, Hempty.
    + rewrite lookup_insert_ne; [apply lookup_empty|].
      apply worker_keys_differ; try assumption. congruence.
    + apply lookup_empty.
  - rewrite Hm. reflexivity.
Qed.

Lemma status_change_alerted_witness :
  let world_of rows now :=
    Updated.mk_world (MemDb.connect (MemDb.mk_tables rows [] []))
      (fun _ => Return tt)
      (Updated.mk_cycle_clock now now now now now now now now now)
      (fun _ => None) (fun _ => None) in
  let cfg := Updated.load_config "monitor@example.org" "ops@example.org" in
  let st :=
    Updated.mk_service_state
      {| Alerts.last_alert_times := ∅; Alerts.outbox := [] |} [] in
  let w1 := world_of [] (utc 2024 5 2 6 45 0) in
  let w2 :=
    world_of [MemDb.run_at "2024-05-02T06:46:00+00:00" "failed"]
      (utc 2024 5 2 6 50 0) in
  let second :=
    Updated.run_monitoring_cycle cfg w2
      (Updated.run_monitoring_cycle cfg w1 st).1 in
  second.2.1 = Some Alerts.AlertSent
  /\ length (Alerts.outbox (Updated.alert_state second.1)) = 3%nat.
Proof.
  intros world_of cfg st w1 w2 second. split.
  - apply (status_change_alerted cfg w1 w2 st).
    + reflexivity.
    + reflexivity.
    + vm_compute. discriminate.
    + vm_compute. discriminate.
    + reflexivity.
  - vm_compute. reflexivity.
Defined.

(** ** The API service *)

Section ApiChecks.
Import Py ApiOnly.

Lemma rstrip_slash_slash (s : string) :
  rstrip_slash (s +:+ "/") = rstrip_slash s.
Proof.
  induction s as [|c r IH]; [reflexivity|].
  change (String c r +:+ "/") with (String c (r +:+ "/")).
  cbn [rstrip_slash]. rewrite IH. reflexivity.
Qed.

Lemma rstrip_slash_stripped (s : string) :
  rstrip_slash s = EmptyString
  \/ exists p c, rstrip_slash s = p +:+ of_ascii c /\ c <> "/"%char.
Proof.
  induction s as [|c r IH]; [left; reflexivity|].
  cbn [rstrip_slash].
  destruct IH as [->|(p & d & -> & Hd)].
  - destruct (Ascii.eqb_spec c "/"); [left; reflexivity|].
    right. exists EmptyString, c. split; [reflexivity | assumption].
  - right. destruct (p +:+ of_ascii d) as [|x y] eqn:E.
    { destruct p; discriminate E. }
    exists (String c p), d. rewrite <- E. split; [reflexivity | assumption].
Qed.

Lemma lstrip_slash_stripped (s : string) :
  lstrip_slash s = EmptyString
  \/ exists c r, lstrip_slash s = String c r /\ c <> "/"%char.
Proof.
  induction s as [|c r IH]; [left; reflexivity|].
  cbn [lstrip_slash]. destruct (Ascii.eqb_spec c "/"); [exact IH|].
  right. exists c, r. split; [reflexivity | assumption].
Qed.



End ApiChecks.

(** The URL of a request of the API service joins the base URL and the
    endpoint with exactly one slash: slashes at the end of the base URL
    and at the start of the endpoint make no difference, and in the
    result the joining slash neither follows nor precedes another one. *)
Theorem request_url_one_slash (flask_api_url endpoint : string) :
  ApiOnly.request_url (flask_api_url +:+ "/") endpoint
  = ApiOnly.request_url flask_api_url endpoint
  /\ ApiOnly.request_url flask_api_url ("/" +:+ endpoint)
     = ApiOnly.request_url flask_api_url endpoint
  /\ exists before after,
       ApiOnly.request_url flask_api_url endpoint
       = before +:+ "/" +:+ after
       /\ (forall p, before <> p +:+ "/")
       /\ (forall r, after <> "/" +:+ r).
Proof.
  unfold ApiOnly.request_url. split; [|split].
  - rewrite rstrip_slash_slash. reflexivity.
  - reflexivity.
  - exists (Py.rstrip_slash flask_api_url), (Py.lstrip_slash endpoint).
    split; [reflexivity|]. split.
    + intros p E.
      destruct (rstrip_slash_stripped flask_api_url)
        as [E0|(q & c & E1 & Hc)].
      * rewrite E0 in E. destruct p; discriminate E.
      * rewrite E1 in E. clear E1. revert p E.
        induction q as [|x q IH]; intros [|y p] E.
        -- injection E as E. apply Hc. exact E.
        -- injection E as _ E. destruct p; discriminate E.
        -- injection E as _ E. destruct q; discriminate E.
        -- injection E as _ E. apply (IH p). exact E.
    + intros r E.
      destruct (lstrip_slash_stripped endpoint) as [E0|(c & q & E1 & Hc)].
      * rewrite E0 in E. discriminate E.
      * rewrite E1 in E. injection E as E _. apply Hc. exact E.
Qed.

(** The Worker verdict of the API service is [healthy] exactly when the
    API answered with an object that says [healthy], reports at least one
    recent run and a success rate of at least 80.  An answer that leaves
    out [recent_runs] or [success_rate] is read as 0 and is never
    [healthy]. *)
Theorem api_worker_healthy_iff
  (response : outcome (option ApiOnly.api_status)) :
  ApiOnly.status (ApiOnly.check_worker_health response) = "healthy"
  <-> exists r,
        response = Return (Some r)
        /\ ApiOnly.api_state r = Some "healthy"
        /\ default 0 (ApiOnly.api_recent_runs r) <> 0
        /\ (80 <= default 0%Q (ApiOnly.api_success_rate r))%Q.
Proof.
  assert (Hst : forall r,
             ApiOnly.status (ApiOnly.worker_checks (ApiOnly.worker_status_of r))
             = if default 0 (ApiOnly.api_recent_runs r) =? 0 then "inactive"
               else if Py.Qlt_bool (default 0%Q (ApiOnly.api_success_rate r)) 80
                    then "degraded"
                    else default "unknown" (ApiOnly.api_state r)).
  { intros r. unfold ApiOnly.worker_checks, ApiOnly.worker_status_of.
    simpl. destruct (Py.Qlt_bool _ _); simpl;
      destruct (_ =? 0); reflexivity. }
  unfold ApiOnly.check_worker_health. split.
  - destruct response as [[r|]|e]; try discriminate.
    destruct (ApiOnly.nonempty r); cbn [negb]; [|discriminate].
    rewrite Hst.
    destruct (_ =? 0) eqn:Hn; [discriminate|].
    destruct (Py.Qlt_bool _ _) eqn:Hr; [discriminate|].
    intros Hs. exists r. split; [reflexivity|]. split; [|split].
    + destruct (ApiOnly.api_state r) as [s|];
        [rewrite <- Hs; reflexivity | discriminate Hs].
    + apply Z.eqb_neq. exact Hn.
    + apply Qlt_bool_false. exact Hr.
  - intros (r & -> & Hs & Hn & Hr).
    assert (Hne : ApiOnly.nonempty r = true).
    { unfold ApiOnly.nonempty. rewrite Hs. reflexivity. }
    rewrite Hne. cbn [negb]. rewrite Hst.
    apply Qlt_bool_false in Hr. rewrite Hr.
    apply Z.eqb_neq in Hn. rewrite Hn. rewrite Hs. reflexivity.
Qed.


